(** * napalm-mos: the MOS driver (napalm_mos/mos.py), embedded in Rocq

    The driver turns the output of switch commands into NAPALM's
    vendor-neutral records.  This file embeds the methods of [MOSDriver]
    as functions over an explicit model of the Python values they
    manipulate:

    - text is [string] (code points below 256), with the [str] methods
      the driver calls: [strip], [split], [splitlines], [startswith],
      [in], [replace];
    - a raised exception is the [Raise] case of [result]; [try]/[except]
      is a [match] on it;
    - decoded payloads of the command API are [pyval] (None, bool, int,
      str, list, dict), dicts are [gmap string _];
    - [float] is binary64, computed on [SpecFloat.spec_float];
    - regular expressions are syntax trees run by a backtracking matcher
      with Python's priorities (greedy repetition, leftmost alternative);
    - names are resolved in the module's namespace: a name that no
      [import] or definition of mos.py binds raises [NameError]. *)

From Stdlib Require Import ZArith NArith String Ascii List Bool Lia.
From Stdlib Require Import SpecFloat.
From stdpp Require Import base option gmap strings list fin_maps.

Set Warnings "-register-all".

Local Open Scope string_scope.
Local Open Scope Z_scope.

(** ** Exceptions *)

Inductive exn :=
| Exception_ (msg : string)            (* Exception itself *)
| NameError (name : string)
| KeyError (key : string)
| IndexError
| TypeError (msg : string)
| ValueError (msg : string)
| AttributeError (attr : string)
| OverflowError
| CommandError (msg : string)          (* pyeapi.eapilib.CommandError *)
| ConnectionError (msg : string)       (* pyeapi.eapilib.ConnectionError *)
| CommandErrorException (msg : string).

Inductive result (A : Type) :=
| Ok (a : A)
| Raise (e : exn).
Arguments Ok {A} a.
Arguments Raise {A} e.

#[global] Instance result_ret : MRet result := fun A a => Ok a.
#[global] Instance result_bind : MBind result :=
  fun A B f r => match r with Ok a => f a | Raise e => Raise e end.
#[global] Instance result_fmap : FMap result :=
  fun A B f r => match r with Ok a => Ok (f a) | Raise e => Raise e end.

Definition returns {A} (r : result A) : Prop := exists a, r = Ok a.

(** ** Characters and the [str] methods *)

Module Str.

Definition code (a : ascii) : N := N_of_ascii a.

Definition is_digit (a : ascii) : bool :=
  ((48 <=? code a) && (code a <=? 57))%N.

(** [str.isspace] on one character, which is also the class [\s] of [re]
    on text patterns (code points below 256). *)
Definition is_space (a : ascii) : bool :=
  let n := code a in
  (((9 <=? n) && (n <=? 13)) || ((28 <=? n) && (n <=? 32))
   || (n =? 133) || (n =? 160))%N.

(** The line boundaries of [str.splitlines]. *)
Definition is_linebreak (a : ascii) : bool :=
  let n := code a in
  (((10 <=? n) && (n <=? 13)) || ((28 <=? n) && (n <=? 30)) || (n =? 133))%N.

Definition lower (a : ascii) : ascii :=
  let n := code a in
  if ((65 <=? n) && (n <=? 90))%N then ascii_of_N (n + 32) else a.

Definition nl : ascii := ascii_of_N 10.
Definition cr : ascii := ascii_of_N 13.

Fixpoint rev_onto (s acc : string) : string :=
  match s with
  | EmptyString => acc
  | String a t => rev_onto t (String a acc)
  end.
Definition rev (s : string) : string := rev_onto s EmptyString.

Fixpoint lstrip (s : string) : string :=
  match s with
  | EmptyString => EmptyString
  | String a t => if is_space a then lstrip t else s
  end.

Fixpoint rstrip (s : string) : string :=
  match s with
  | EmptyString => EmptyString
  | String a t =>
      match rstrip t with
      | EmptyString => if is_space a then EmptyString else String a EmptyString
      | t' => String a t'
      end
  end.

Definition strip (s : string) : string := rstrip (lstrip s).

Definition startswith (s p : string) : bool := String.prefix p s.

(** [sub in s]. *)
Fixpoint contains (sub s : string) : bool :=
  String.prefix sub s ||
  match s with
  | EmptyString => false
  | String _ t => contains sub t
  end.

Fixpoint take (n : nat) (s : string) : string :=
  match n, s with
  | S n', String a t => String a (take n' t)
  | _, _ => EmptyString
  end.

(** [s.split(sep)] for a non-empty [sep]: [skip] characters of a separator
    just found are still to be passed over, [cur] is the piece being read,
    reversed. *)
Fixpoint split_go (sep : string) (skip : nat) (cur s : string) : list string :=
  match s with
  | EmptyString => [rev cur]
  | String a t =>
      match skip with
      | S n => split_go sep n cur t
      | O =>
          if String.prefix sep s
          then rev cur :: split_go sep (String.length sep - 1) EmptyString t
          else split_go sep O (String a cur) t
      end
  end.
Definition split (sep s : string) : list string := split_go sep O EmptyString s.

(** [s.split(sep, 1)] for a one-character [sep]. *)
Fixpoint split1_go (sep : ascii) (cur s : string) : list string :=
  match s with
  | EmptyString => [rev cur]
  | String a t =>
      if Ascii.eqb a sep then [rev cur; t] else split1_go sep (String a cur) t
  end.
Definition split1 (sep : ascii) (s : string) : list string :=
  split1_go sep EmptyString s.

(** [s.splitlines()]: "\r\n" is one boundary, and a boundary at the very
    end opens no further line. *)
Fixpoint splitlines_go (cur s : string) : list string :=
  match s with
  | EmptyString =>
      match cur with EmptyString => [] | _ => [rev cur] end
  | String a t =>
      if is_linebreak a then
        match t with
        | String b t' =>
            if Ascii.eqb a cr && Ascii.eqb b nl
            then rev cur :: splitlines_go EmptyString t'
            else rev cur :: splitlines_go EmptyString t
        | EmptyString => [rev cur]
        end
      else splitlines_go (String a cur) t
  end.
Definition splitlines (s : string) : list string := splitlines_go EmptyString s.

(** [s.replace(old, new)] for a non-empty [old]. *)
Fixpoint replace_go (old new : string) (skip : nat) (s : string) : string :=
  match s with
  | EmptyString => EmptyString
  | String a t =>
      match skip with
      | S n => replace_go old new n t
      | O =>
          if String.prefix old s
          then new ++ replace_go old new (String.length old - 1) t
          else String a (replace_go old new O t)
      end
  end.
Definition replace (old new s : string) : string := replace_go old new O s.

Fixpoint all_chars (p : ascii -> bool) (s : string) : bool :=
  match s with
  | EmptyString => true
  | String a t => p a && all_chars p t
  end.

Fixpoint digits_value (acc : Z) (s : string) : Z :=
  match s with
  | EmptyString => acc
  | String a t => digits_value (10 * acc + (Z.of_N (code a) - 48)) t
  end.

End Str.

(** ** Floating point: Python's [float] is IEEE binary64 *)

Module Float.

Definition prec : Z := 53.
Definition emax : Z := 1024.

(** The binary64 nearest to [n / d] ([d > 0]), ties to even: the quotient is
    taken with more than 64 significant bits and one more bit that records
    a non-zero remainder, then rounded once. *)
Definition of_quotient (n d : Z) : spec_float :=
  let a := Z.abs n in
  let s := Z.log2 d + 66 in
  let q := (a * 2 ^ s) / d in
  let sticky := if (a * 2 ^ s) mod d =? 0 then 0 else 1 in
  let m := 2 * q + sticky in
  binary_normalize prec emax (if n <? 0 then - m else m) (- (s + 1)) (n <? 0).

(** [float(n)] for an int, as the mixed product [n * x] does it. *)
Definition of_int (n : Z) : result spec_float :=
  match binary_normalize prec emax n 0 false with
  | S754_infinity _ => Raise OverflowError
  | f => Ok f
  end.

(** The literal [m]e[e], e.g. [1e-6] is [of_decimal 1 (-6)]. *)
Definition of_decimal (neg : bool) (m e : Z) : spec_float :=
  if m =? 0 then S754_zero neg
  else if 0 <=? e
       then binary_normalize prec emax (if neg then - (m * 10 ^ e) else m * 10 ^ e) 0 neg
       else of_quotient (if neg then - m else m) (10 ^ (- e)).

Definition mul (x y : spec_float) : spec_float := SFmul prec emax x y.

Definition zero : spec_float := S754_zero false.

(** [int(x)] for a float: towards zero. *)
Definition trunc (x : spec_float) : result Z :=
  match x with
  | S754_zero _ => Ok 0
  | S754_finite neg m e =>
      let a := if 0 <=? e then Z.pos m * 2 ^ e else Z.pos m / 2 ^ (- e) in
      Ok (if neg then - a else a)
  | S754_infinity _ => Raise OverflowError
  | S754_nan => Raise (ValueError "cannot convert float NaN to integer")
  end.

End Float.

(** ** Python values *)

Inductive pyval :=
| VNone
| VBool (b : bool)
| VInt (z : Z)
| VFloat (f : spec_float)
| VStr (s : string)
| VList (l : list pyval)
| VDict (d : gmap string pyval).

Module Py.

(** [l[i]] on a list. *)
Definition index {A} (l : list A) (i : nat) : result A :=
  match l !! i with
  | Some a => Ok a
  | None => Raise IndexError
  end.

(** [l[-1]]. *)
Definition last_item {A} (l : list A) : result A :=
  match last l with
  | Some a => Ok a
  | None => Raise IndexError
  end.

(** [v[k]] with a text key. *)
Definition getitem (v : pyval) (k : string) : result pyval :=
  match v with
  | VDict d =>
      match d !! k with
      | Some x => Ok x
      | None => Raise (KeyError k)
      end
  | _ => Raise (TypeError "indices must be integers")
  end.

(** [v.get(k, dflt)]. *)
Definition get (v : pyval) (k : string) (dflt : pyval) : result pyval :=
  match v with
  | VDict d => Ok (default dflt (d !! k))
  | _ => Raise (AttributeError "get")
  end.

(** [v.items()], [v.keys()]. *)
Definition items (v : pyval) : result (list (string * pyval)) :=
  match v with
  | VDict d => Ok (map_to_list d)
  | _ => Raise (AttributeError "items")
  end.

(** The receiver of a [str] method. *)
Definition text (meth : string) (v : pyval) : result string :=
  match v with
  | VStr s => Ok s
  | _ => Raise (AttributeError meth)
  end.

(** [for x in v] over a list. *)
Definition elements (v : pyval) : result (list pyval) :=
  match v with
  | VList l => Ok l
  | _ => Raise (TypeError "object is not iterable")
  end.

(** [int(s)] for text: optional blanks around an optional sign and decimal
    digits.  (Digit-group underscores, which newer interpreters accept, are
    refused here.) *)
Definition int_of_string (s : string) : result Z :=
  let body := Str.strip s in
  let '(neg, ds) :=
    match body with
    | String "-" t => (true, t)
    | String "+" t => (false, t)
    | _ => (false, body)
    end in
  match ds with
  | EmptyString => Raise (ValueError "invalid literal for int()")
  | _ =>
      if Str.all_chars Str.is_digit ds
      then Ok (if neg then - Str.digits_value 0 ds else Str.digits_value 0 ds)
      else Raise (ValueError "invalid literal for int()")
  end.

(** [int(v)]. *)
Definition int (v : pyval) : result Z :=
  match v with
  | VInt z => Ok z
  | VBool b => Ok (if b then 1 else 0)
  | VFloat f => Float.trunc f
  | VStr s => int_of_string s
  | _ => Raise (TypeError "int() argument must be a string or a number")
  end.

(** Leading decimal digits of [s] and what follows them. *)
Fixpoint span_digits (s : string) : string * string :=
  match s with
  | String a t =>
      if Str.is_digit a
      then let '(ds, r) := span_digits t in (String a ds, r)
      else (EmptyString, s)
  | EmptyString => (EmptyString, EmptyString)
  end.

(** [float(s)] for text holding a finite decimal literal: blanks, sign,
    digits with an optional point, optional exponent.  (The words inf and
    nan and digit-group underscores are refused here; no text the driver
    converts can hold them, its patterns admit digits, point and minus.) *)
Definition float_of_string (s : string) : result spec_float :=
  let bad := Raise (ValueError "could not convert string to float") in
  let body := Str.strip s in
  let '(neg, u) :=
    match body with
    | String "-" t => (true, t)
    | String "+" t => (false, t)
    | _ => (false, body)
    end in
  let '(ip, r1) := span_digits u in
  let '(fp, r2) :=
    match r1 with
    | String "." t => span_digits t
    | _ => (EmptyString, r1)
    end in
  match (ip ++ fp)%string with
  | EmptyString => bad
  | ds =>
      let m := Str.digits_value 0 ds in
      let k := Z.of_nat (String.length fp) in
      match r2 with
      | EmptyString => Ok (Float.of_decimal neg m (- k))
      | String c t =>
          if Ascii.eqb (Str.lower c) "e" then
            let '(eneg, ed) :=
              match t with
              | String "-" t' => (true, t')
              | String "+" t' => (false, t')
              | _ => (false, t)
              end in
            match ed with
            | EmptyString => bad
            | _ =>
                if Str.all_chars Str.is_digit ed
                then let x := Str.digits_value 0 ed in
                     Ok (Float.of_decimal neg m ((if eneg then - x else x) - k))
                else bad
            end
          else bad
      end
  end.

End Py.

(** ** Regular expressions ([re]) *)

Module Re.

Inductive regex :=
| Eps
| Cls (p : ascii -> bool)      (* one character of a class *)
| Seq (r1 r2 : regex)
| Alt (r1 r2 : regex)          (* r1|r2, r1 tried first *)
| Star (r : regex)             (* r*, greedy *)
| Grp (n : nat) (r : regex)    (* the n-th capturing group *)
| Bos                          (* ^ *)
| Bol                          (* ^ under MULTILINE *)
| Eos                          (* $ *)
| Eol.                         (* $ under MULTILINE *)

(** A position in the subject: the character before it, its offset, and
    the text from it on. *)
Record pos := Pos { prev : option ascii; idx : nat; rest : string }.

Definition start (s : string) : pos := Pos None 0 s.

(** The rounds of a repetition: [step] matches the repeated pattern once.
    Another round is tried first (greedy) and has to consume a character;
    when it cannot lead to a match the repetition ends here.  There are as
    many rounds as characters left at most, which [fuel] counts. *)
Fixpoint star_loop {R}
    (step : pos -> gmap nat string -> (pos -> gmap nat string -> option R) -> option R)
    (k : pos -> gmap nat string -> option R)
    (fuel : nat) (p : pos) (c : gmap nat string) : option R :=
  match fuel with
  | O => k p c
  | S fuel' =>
      match step p c (fun p' c' =>
              if (idx p <? idx p')%nat then star_loop step k fuel' p' c' else None) with
      | Some x => Some x
      | None => k p c
      end
  end.

(** The matcher tries the alternatives in Python's order and hands every way
    of matching [r] at [p] to the continuation [k] until one is accepted. *)
Fixpoint run {R} (r : regex) (p : pos) (c : gmap nat string)
    (k : pos -> gmap nat string -> option R) {struct r} : option R :=
  match r with
  | Eps => k p c
  | Cls f =>
      match rest p with
      | String a t => if f a then k (Pos (Some a) (S (idx p)) t) c else None
      | EmptyString => None
      end
  | Seq r1 r2 => run r1 p c (fun p' c' => run r2 p' c' k)
  | Alt r1 r2 =>
      match run r1 p c k with
      | Some x => Some x
      | None => run r2 p c k
      end
  | Star r1 => star_loop (run r1) k (String.length (rest p)) p c
  | Grp n r1 =>
      run r1 p c (fun p' c' => k p' (<[n := Str.take (idx p' - idx p) (rest p)]> c'))
  | Bos => if (idx p =? 0)%nat then k p c else None
  | Bol =>
      match prev p with
      | None => k p c
      | Some a => if Ascii.eqb a Str.nl then k p c else None
      end
  | Eos =>
      match rest p with
      | EmptyString => k p c
      | String a EmptyString => if Ascii.eqb a Str.nl then k p c else None
      | _ => None
      end
  | Eol =>
      match rest p with
      | EmptyString => k p c
      | String a _ => if Ascii.eqb a Str.nl then k p c else None
      end
  end.

(** A match: where it ends and what its groups hold. *)
Definition at_pos (r : regex) (p : pos) : option (pos * gmap nat string) :=
  run r p ∅ (fun p' c => Some (p', c)).

(** [re.match(r, s)]. *)
Definition match_ (r : regex) (s : string) : option (gmap nat string) :=
  snd <$> at_pos r (start s).

(** [re.search(r, s)]: the leftmost position with a match. *)
Fixpoint search_go (r : regex) (pr : option ascii) (i : nat) (s : string)
  : option (gmap nat string) :=
  match at_pos r (Pos pr i s) with
  | Some m => Some (snd m)
  | None =>
      match s with
      | EmptyString => None
      | String a t => search_go r (Some a) (S i) t
      end
  end.
Definition search (r : regex) (s : string) : option (gmap nat string) :=
  search_go r None 0 s.

(** [m.group(n)], [None] for a group that took no part in the match. *)
Definition group (m : gmap nat string) (n : nat) : option string := m !! n.

(** [m.groups()] of a pattern with [n] groups. *)
Definition groups (n : nat) (m : gmap nat string) : list (option string) :=
  (fun i => m !! S i) <$> seq 0 n.

(** [re.split(r, s)] for a pattern with one group whose matches are never
    empty: the pieces between the matches, each match's group 1 in between.
    [skip] counts the characters of the current match still to pass. *)
Fixpoint split_go (r : regex) (skip : nat) (pr : option ascii) (i : nat)
    (cur s : string) : list string :=
  match skip, s with
  | S n, String a t => split_go r n (Some a) (S i) cur t
  | S _, EmptyString => [Str.rev cur]
  | O, _ =>
      let next :=
        match s with
        | EmptyString => [Str.rev cur]
        | String a t => split_go r O (Some a) (S i) (String a cur) t
        end in
      match at_pos r (Pos pr i s) with
      | Some (p', c) =>
          match (idx p' - i)%nat, s with
          | S n, String a t =>
              Str.rev cur :: default EmptyString (c !! 1%nat)
                :: split_go r n (Some a) (S i) EmptyString t
          | _, _ => next
          end
      | None => next
      end
  end.
Definition split (r : regex) (s : string) : list string :=
  split_go r O None 0 EmptyString s.

(** [re.sub(r, repl, s)] for a literal [repl] and a pattern whose matches
    are never empty. *)
Fixpoint sub_go (r : regex) (repl : string) (skip : nat) (pr : option ascii)
    (i : nat) (s : string) : string :=
  match s with
  | EmptyString => EmptyString
  | String a t =>
      match skip with
      | S n => sub_go r repl n (Some a) (S i) t
      | O =>
          match at_pos r (Pos pr i s) with
          | Some (p', _) =>
              match (idx p' - i)%nat with
              | S n => repl ++ sub_go r repl n (Some a) (S i) t
              | O => String a (sub_go r repl O (Some a) (S i) t)
              end
          | None => String a (sub_go r repl O (Some a) (S i) t)
          end
      end
  end.
Definition sub (r : regex) (repl s : string) : string :=
  sub_go r repl O None 0 s.

(** Pattern syntax. *)
Definition chr (a : ascii) : regex := Cls (Ascii.eqb a).
Fixpoint lit (s : string) : regex :=
  match s with
  | EmptyString => Eps
  | String a t => Seq (chr a) (lit t)
  end.
Definition plus (r : regex) : regex := Seq r (Star r).
Definition opt (r : regex) : regex := Alt r Eps.
Fixpoint rep (n : nat) (r : regex) : regex :=
  match n with
  | O => Eps
  | S n' => Seq r (rep n' r)
  end.
(** r{lo,lo+extra} *)
Fixpoint upto (extra : nat) (r : regex) : regex :=
  match extra with
  | O => Eps
  | S n => opt (Seq r (upto n r))
  end.
Definition between (lo extra : nat) (r : regex) : regex :=
  Seq (rep lo r) (upto extra r).

Definition in_range (lo hi a : ascii) : bool :=
  ((Str.code lo <=? Str.code a) && (Str.code a <=? Str.code hi))%N.
Definition upper (a : ascii) : ascii :=
  let n := Str.code a in
  if ((97 <=? n) && (n <=? 122))%N then ascii_of_N (n - 32) else a.
(** A class under IGNORECASE. *)
Definition nocase (p : ascii -> bool) (a : ascii) : bool :=
  p a || p (Str.lower a) || p (upper a).

Definition d : regex := Cls Str.is_digit.                      (* \d *)
Definition D : regex := Cls (fun a => negb (Str.is_digit a)).  (* \D *)
Definition s : regex := Cls Str.is_space.                      (* \s *)
Definition S' : regex := Cls (fun a => negb (Str.is_space a)). (* \S *)

End Re.

Declare Scope re_scope.
Delimit Scope re_scope with re.
Bind Scope re_scope with Re.regex.
Infix "·" := Re.Seq (at level 40, left associativity) : re_scope.
Infix "|||" := Re.Alt (at level 50, left associativity) : re_scope.

(** ** The module's namespace

    What a bare name of mos.py resolves to when a method runs: the names its
    [import] statements and top-level definitions bind, then the builtins.
    [from pyeapi.client import Node as EapiNode] binds [EapiNode], not
    [pyeapi]; [import napalm_base.helpers] binds [napalm_base]. *)

Module Namespace.

Definition module_names : list string :=
  [ "print_function"; "unicode_literals"; "re"; "timedelta";
    "EapiNode"; "HttpsEapiConnection"; "HttpEapiConnection"; "ConnectionError";
    "napalm_base"; "NetworkDriver"; "string_parsers"; "py23_compat";
    "ConnectionException"; "TRANSPORTS"; "MOSDriver" ].

Definition builtin_names : list string :=
  [ "Exception"; "TypeError"; "isinstance"; "list"; "int"; "float"; "str";
    "zip"; "iter" ].

Definition load_name (n : string) : result unit :=
  if bool_decide (n ∈ (module_names ++ builtin_names)%list)
  then Ok tt
  else Raise (NameError n).

End Namespace.

(** ** The device: pyeapi's [Node.run_commands] *)

Inductive encoding := EncJson | EncText.

(** One round trip: the commands and the requested encoding give one decoded
    response per command, or the call raises ([CommandError] when the switch
    refuses a command, [ConnectionError] when it cannot be reached). *)
Record device := Device {
  run_commands : list pyval -> encoding -> result (list pyval)
}.

Definition cmds (l : list string) : list pyval := VStr <$> l.

(** The double quote, for the texts that hold one. *)
Definition dq : string := String (ascii_of_N 34) EmptyString.

(** ** The driver's patterns *)

Local Open Scope re_scope.

(** _RE_UPTIME (VERBOSE), groups: 2 day, 3 hour, 4 minute, 5 second. *)
Definition _RE_UPTIME : Re.regex :=
  Re.Bos
  · Re.opt (Re.Grp 1 (Re.Grp 2 (Re.plus Re.d) · Re.plus Re.s · Re.lit "day"
                      · Re.opt (Re.chr "s") · Re.chr "," · Re.plus Re.s))
  · Re.Grp 3 (Re.plus Re.d) · Re.chr ":" · Re.Grp 4 (Re.plus Re.d) · Re.chr ":"
  · Re.Grp 5 (Re.plus Re.d).

Definition hexdigit : Re.regex :=
  Re.Cls (Re.nocase (fun a => Str.is_digit a || Re.in_range "A" "F" a)).
Definition colon_or_hyphen : Re.regex :=
  Re.Cls (fun a => Ascii.eqb a ":" || Ascii.eqb a "-").

(** _RE_ARP (VERBOSE, IGNORECASE), groups: 1 address, 2 hwAddress,
    5 interface. *)
Definition _RE_ARP : Re.regex :=
  Re.Bos
  · Re.Grp 1 (Re.between 1 2 Re.d · Re.chr "." · Re.between 1 2 Re.d · Re.chr "."
              · Re.between 1 2 Re.d · Re.chr "." · Re.between 1 2 Re.d)
  · Re.plus Re.s · Re.plus Re.S' · Re.plus Re.s
  · Re.Grp 2 (Re.rep 5 (Re.Grp 3 (Re.rep 2 hexdigit · colon_or_hyphen))
              · Re.Grp 4 (Re.rep 2 hexdigit))
  · Re.plus Re.s · Re.plus Re.S' · Re.plus Re.s
  · Re.Grp 5 (Re.plus Re.S') · Re.Eos.

(** The pattern of [_parse_mm_speed], groups: 1 speed, 2 unit. *)
Definition RE_SPEED : Re.regex :=
  Re.Bos · Re.Grp 1 (Re.plus Re.d) · Re.opt (Re.Grp 2 Re.D) · Re.Eos.

(** The header line of one interface in [get_lldp_neighbors_detail]
    (MULTILINE). *)
Definition RE_LLDP_HEADER : Re.regex :=
  Re.Bol · Re.chr "*" · Re.s · Re.Grp 1 (Re.plus Re.S') · Re.Eol.

(** A parenthesised annotation with the blanks around it. *)
Definition RE_PAREN : Re.regex :=
  Re.Star Re.s · Re.chr "(" · Re.Star (Re.Cls (fun a => negb (Ascii.eqb a ")")))
  · Re.chr ")" · Re.Star Re.s.

Definition alnum (a : ascii) : bool :=
  Re.in_range "a" "z" a || Re.in_range "A" "Z" a || Str.is_digit a.
Definition is_dot (a : ascii) : bool := Ascii.eqb a ".".

(** REGEX of [get_ntp_stats], searched with re.I; eleven groups.  In the
    class of group 2, [+-:] is the range from "+" to ":". *)
Definition RE_NTP : Re.regex :=
  Re.Bos · Re.opt Re.s
  · Re.opt (Re.Grp 1 (Re.chr "+" ||| Re.chr "*"
                      ||| Re.Cls (Re.nocase (Ascii.eqb "x")) ||| Re.chr "-"))
  · Re.Grp 2 (Re.plus (Re.Cls (Re.nocase (fun a =>
        alnum a || is_dot a || Re.in_range "+" ":" a))))
  · Re.plus Re.s · Re.Grp 3 (Re.plus (Re.Cls (Re.nocase (fun a => alnum a || is_dot a))))
  · Re.plus Re.s · Re.Grp 4 (Re.between 1 1 Re.d)
  · Re.plus Re.s · Re.Grp 5 (Re.chr "-" ||| Re.Cls (Re.nocase (Ascii.eqb "u")))
  · Re.plus Re.s · Re.Grp 6 (Re.plus (Re.Cls (Re.nocase (fun a =>
        Str.is_digit a || Ascii.eqb a "h" || Ascii.eqb a "-"))))
  · Re.plus Re.s · Re.Grp 7 (Re.plus Re.d)
  · Re.plus Re.s · Re.Grp 8 (Re.plus Re.d)
  · Re.plus Re.s · Re.Grp 9 (Re.plus (Re.Cls (fun a => Str.is_digit a || is_dot a)))
  · Re.plus Re.s · Re.Grp 10 (Re.plus (Re.Cls (fun a =>
        Str.is_digit a || is_dot a || Ascii.eqb a "-")))
  · Re.plus Re.s · Re.Grp 11 (Re.plus (Re.Cls (fun a => Str.is_digit a || is_dot a)))
  · Re.opt Re.s · Re.Eos.

Local Close Scope re_scope.

(** ** More of Python: loops, iteration, keys *)

(** [for a in l: s = f(s, a)], leaving at the first exception. *)
Fixpoint foldM {A S : Type} (f : S -> A -> result S) (s : S) (l : list A) : result S :=
  match l with
  | [] => Ok s
  | a :: t => s' ← f s a; foldM f s' t
  end.

(** [for k, v in d.items(): out[k] = f(k, v)]: the body, for one item. *)
Definition fill_step {V R : Type} (f : string -> V -> result R)
    (out : gmap string R) (kv : string * V) : result (gmap string R) :=
  row ← f (fst kv) (snd kv); Ok (<[fst kv := row]> out).

Fixpoint chars (s : string) : list pyval :=
  match s with
  | EmptyString => []
  | String a t => VStr (String a EmptyString) :: chars t
  end.

(** What [for x in v] goes through. *)
Definition py_iter (v : pyval) : result (list pyval) :=
  match v with
  | VList l => Ok l
  | VStr s => Ok (chars s)
  | VDict d => Ok ((fun kv => VStr (fst kv)) <$> map_to_list d)
  | _ => Raise (TypeError "object is not iterable")
  end.

(** The key of an entry of a result dict.  The switch names ports by text;
    a key of another type is refused here. *)
Definition dict_key (v : pyval) : result string :=
  match v with
  | VStr s => Ok s
  | _ => Raise (TypeError "key is not text")
  end.

(** [v != ''] *)
Definition ne_empty (v : pyval) : bool :=
  match v with
  | VStr EmptyString => false
  | _ => true
  end.

(** The subject of [re.match] and [re.split] has to be text. *)
Definition re_subject (v : pyval) : result string :=
  match v with
  | VStr s => Ok s
  | _ => Raise (TypeError "expected string or buffer")
  end.

(** The entry of [groupdict()] for a group. *)
Definition group_value (g : option string) : pyval :=
  match g with
  | Some s => VStr s
  | None => VNone
  end.

(** [n * v] for an int [n]. *)
Definition int_times (n : Z) (v : pyval) : result pyval :=
  match v with
  | VInt m => Ok (VInt (n * m))
  | VBool b => Ok (VInt (if b then n else 0))
  | VFloat f => x ← Float.of_int n; Ok (VFloat (Float.mul x f))
  | _ => Raise (TypeError "unsupported operand type(s) for *")
  end.

(** [timedelta(days=, hours=, seconds=).total_seconds()] for ints: the
    constructor refuses more than 999999999 days, and the total is the count
    of microseconds divided by 10**6. *)
Definition timedelta_total_seconds (days hours seconds : Z) : result spec_float :=
  let total := days * 86400 + hours * 3600 + seconds in
  if Z.abs (total / 86400) >? 999999999
  then Raise OverflowError
  else Ok (Float.of_quotient (total * 1000000) 1000000).

(** ** The records the methods return *)

Record facts := Facts {
  hostname : string;
  fqdn : string;
  vendor : string;
  model : pyval;
  serial_number : pyval;
  os_version : pyval;
  uptime : Z;
  interface_list : list string
}.

Record interface_info := InterfaceInfo {
  is_up : bool;
  is_enabled : bool;
  description : pyval;
  last_flapped : spec_float;
  speed : Z;
  mac_address : string
}.

(** One neighbour of [get_lldp_neighbors]: keys 'hostname' and 'port'. *)
Record lldp_neighbor := LldpNeighbor {
  nbr_hostname : pyval;
  nbr_port : pyval
}.

Record interface_counters := InterfaceCounters {
  tx_errors : Z;
  rx_errors : Z;
  tx_discards : Z;
  rx_discards : Z;
  tx_octets : Z;
  rx_octets : Z;
  tx_unicast_packets : Z;
  rx_unicast_packets : Z;
  tx_multicast_packets : Z;
  rx_multicast_packets : Z;
  tx_broadcast_packets : Z;
  rx_broadcast_packets : Z
}.

Record tlv := Tlv {
  parent_interface : string;
  remote_port : string;
  remote_port_description : string;
  remote_chassis_id : string;
  remote_system_name_ : string;
  remote_system_description : string;
  remote_system_capab : string;
  remote_system_enabled_capab : string
}.

(** One entry of [get_arp_table]: keys 'interface', 'mac', 'ip', 'age'. *)
Record arp_entry := ArpEntry {
  arp_interface : string;
  arp_mac : string;
  arp_ip : string;
  arp_age : spec_float
}.

(** One entry of [get_ntp_stats]; 'type' and 'when' are [type_], [when_]. *)
Record ntp_stat := NtpStat {
  remote : string;
  synchronized : bool;
  referenceid : string;
  stratum : Z;
  type_ : string;
  when_ : string;
  hostpoll : Z;
  reachability : Z;
  delay : spec_float;
  offset : spec_float;
  jitter : spec_float
}.

Record config := Config {
  startup : string;
  running : string;
  candidate : string
}.

(** ** The methods of [MOSDriver] *)

Section Driver.

(** What the driver calls in other libraries. *)
Variable str_of : pyval -> string.
  (* str(v), py23_compat.text_type(v), for a value that is not text *)
Variable str_of_exn : exn -> string.
  (* str(e) *)
Variable sorted_nicely : list string -> list string.
  (* napalm_base.utils.string_parsers.sorted_nicely *)
Variable helpers_mac : pyval -> result string.
  (* napalm_base.helpers.mac *)
Variable helpers_ip : string -> result string.
  (* napalm_base.helpers.ip *)
Variable literal_eval : string -> result pyval.
  (* ast.literal_eval *)

Definition text_type (v : pyval) : string :=
  match v with
  | VStr s => s
  | _ => str_of v
  end.

(** *** get_facts *)

(** From the groups of the uptime pattern to the [timedelta] and its
    total of seconds; a day group that took no part counts as 0. *)
Definition uptime_of_match (u_match : gmap nat string) : result spec_float :=
  let day :=
    match Re.group u_match 2 with
    | None => VInt 0
    | Some s => VStr s
    end in
  days ← Py.int day;
  hours ← Py.int (group_value (Re.group u_match 3));
  seconds ← Py.int (group_value (Re.group u_match 5));
  timedelta_total_seconds days hours seconds.

Definition get_facts (dev : device) : result facts :=
  let commands := cmds ["show version"; "show hostname"; "show interfaces status"] in
  res ← run_commands dev commands EncJson;
  version ← Py.index res 0 ≫= fun r => Py.getitem r "output";
  hostname ←
    (r ← Py.index res 1; o ← Py.getitem r "output";
     t ← Py.text "splitlines" o; l ← Py.index (Str.splitlines t) 0;
     Py.last_item (Str.split " " l));
  fqdn ←
    (r ← Py.index res 1; o ← Py.getitem r "output";
     t ← Py.text "splitlines" o; l ← Py.index (Str.splitlines t) 1;
     Py.last_item (Str.split " " l));
  interfaces ←
    (r ← Py.index res 2; o ← Py.getitem r "output";
     i ← Py.getitem o "interfaces"; kv ← Py.items i; Ok (fst <$> (kv : list (string * pyval))));
  let interfaces := sorted_nicely interfaces in
  u_match ←
    (u ← Py.getitem version "uptime"; s ← re_subject u;
     match Re.match_ _RE_UPTIME s with
     | Some m => Ok m
     | None => Raise (AttributeError "groupdict")
     end);
  uptime ← uptime_of_match u_match;
  model ← Py.getitem version "device";
  serial_number ← Py.getitem version "serialNumber";
  os_version ← Py.getitem version "softwareImageVersion";
  uptime_int ← Float.trunc uptime;
  Ok (Facts hostname fqdn "Metamako" model serial_number os_version
            uptime_int interfaces).

(** *** get_interfaces *)

Definition factormap : gmap string pyval :=
  <["" := VFloat (Float.of_decimal false 1 (-6))]>
  (<["k" := VFloat (Float.of_decimal false 1 (-3))]>
  (<["M" := VInt 1]>
  (<["G" := VInt 1000]>
  (<["T" := VInt 1000000]> ∅)))).

Definition _parse_mm_speed (speed : pyval) : result Z :=
  s ← re_subject speed;
  match Re.match_ RE_SPEED s with
  | Some m =>
      (* match.groupdict(''): a group that took no part reads '' *)
      let match_speed := default EmptyString (Re.group m 1) in
      let match_unit := default EmptyString (Re.group m 2) in
      n ← Py.int (VStr match_speed);
      factor ← Py.getitem (VDict factormap) match_unit;
      product ← int_times n factor;
      Py.int product
  | None => Ok 0
  end.

(** The body of the loop over the interfaces, for one of them. *)
Definition interface_row (descriptions : gmap string pyval) (name : string)
    (values : pyval) : result interface_info :=
  rx ← Py.getitem values "rx";
  up ← Py.text "startswith" rx;
  flags ←
    (if Str.startswith up "up"
     then Ok (true, true)
     else
       rx' ← Py.getitem values "rx";
       hay ← Py.text "__contains__" rx';
       if Str.contains "shutdown" hay
       then Ok (false, false)
       else Ok (false, true));
  let description := default (VStr EmptyString) (descriptions !! name) in
  sp ← Py.getitem values "speed";
  speed ← _parse_mm_speed sp;
  Ok (InterfaceInfo (fst flags) (snd flags) description Float.zero speed EmptyString).

Definition get_interfaces (dev : device) : result (gmap string interface_info) :=
  let commands := cmds ["show interfaces status"; "show interfaces description"] in
  output ← run_commands dev commands EncJson;
  descriptions ←
    (r ← Py.index output 1; o ← Py.getitem r "output"; ds ← py_iter o;
     foldM (fun (acc : gmap string pyval) d =>
              k ← Py.getitem d "Port"; key ← dict_key k;
              v ← Py.getitem d "Description";
              Ok (<[key := v]> acc)) ∅ ds);
  rows ←
    (r ← Py.index output 0; o ← Py.getitem r "output";
     i ← Py.getitem o "interfaces"; Py.items i);
  foldM (fill_step (interface_row descriptions)) ∅ rows.

(** *** get_lldp_neighbors *)

(** The body of the loop, for one row [n]. *)
Definition lldp_row (lldp : gmap string (list lldp_neighbor)) (n : pyval)
  : result (gmap string (list lldp_neighbor)) :=
  nd ← Py.getitem n "Neighbor_Device";
  if ne_empty nd then
    np ← Py.getitem n "Neighbor_Port";
    if ne_empty np then
      port ← Py.getitem n "Port" ≫= dict_key;
      let lldp1 :=
        match lldp !! port with
        | None => <[port := []]> lldp
        | Some _ => lldp
        end in
      match lldp1 !! port with
      | Some l => Ok (<[port := (l ++ [LldpNeighbor nd np])%list]> lldp1)
      | None => Raise (KeyError port)
      end
    else Ok lldp
  else Ok lldp.

Definition get_lldp_neighbors (dev : device)
  : result (gmap string (list lldp_neighbor)) :=
  let commands := cmds ["show lldp neighbor"] in
  r ← run_commands dev commands EncJson;
  output ← Py.index r 0 ≫= fun r0 => Py.getitem r0 "output";
  rows ← py_iter output;
  foldM lldp_row ∅ rows.

(** *** get_interfaces_counters *)

Definition counter (d : pyval) (k : string) : result Z :=
  Py.get d k (VInt (-1)) ≫= Py.int.

Definition counters_row (errorsdict : pyval) (name : string) (counters : pyval)
  : result interface_counters :=
  tx_errors ← (e ← Py.get errorsdict name (VDict ∅);
               t ← Py.get e "tx" (VInt (-1)); Py.int t);
  rx_errors ← (e ← Py.get errorsdict name (VDict ∅);
               t ← Py.get e "tx" (VInt (-1)); Py.int t);
  tx_octets ← counter counters "txoctets";
  rx_octets ← counter counters "rxoctets";
  tx_unicast_packets ← counter counters "txucastpkts";
  rx_unicast_packets ← counter counters "rxucastpkts";
  tx_multicast_packets ← counter counters "txmcastpkts";
  rx_multicast_packets ← counter counters "rxmcastpkts";
  tx_broadcast_packets ← counter counters "txbcastpkts";
  rx_broadcast_packets ← counter counters "rxbcastpkts";
  Ok (InterfaceCounters tx_errors rx_errors (-1) (-1) tx_octets rx_octets
        tx_unicast_packets rx_unicast_packets
        tx_multicast_packets rx_multicast_packets
        tx_broadcast_packets rx_broadcast_packets).

Definition get_interfaces_counters (dev : device)
  : result (gmap string interface_counters) :=
  let commands := cmds ["show interfaces counters"; "show interfaces counters errors"] in
  output ← run_commands dev commands EncJson;
  errorsdict ← (r ← Py.index output 1; o ← Py.getitem r "output";
                Py.getitem o "interfaces");
  rows ← (r ← Py.index output 0; o ← Py.getitem r "output";
          i ← Py.getitem o "interfaces"; Py.items i);
  foldM (fill_step (counters_row errorsdict)) ∅ rows.

(** *** get_lldp_neighbors_detail *)

(** The zip of one iterator with itself: the items of [l] two by two, an
    odd one at the end left out. *)
Fixpoint pairs {A} (l : list A) : list (A * A) :=
  match l with
  | a :: b :: t => (a, b) :: pairs t
  | _ => []
  end.

(** [key, value = info_line.split(':', 1)] and the store into [info_dict]. *)
Definition info_line_entry (info_dict : gmap string string) (info_line : string)
  : result (gmap string string) :=
  match Str.split1 ":" info_line with
  | [key; value] => Ok (<[Str.strip key := Str.strip value]> info_dict)
  | _ => Raise (ValueError "need more than 1 value to unpack")
  end.

(** The [try] around [ast.literal_eval(...)] and its bare [except]. *)
Definition capabilities_of (info_dict : gmap string string) : pyval :=
  match (_ ← Namespace.load_name "ast";
         literal_eval (default "{}" (info_dict !! "system capability"))) with
  | Ok v => v
  | Raise _ => VDict ∅
  end.

(** [capabilities.get(k, '').replace(',', ', ')] *)
Definition capab_text (capabilities : pyval) (k : string) : result string :=
  c ← Py.get capabilities k (VStr EmptyString);
  t ← Py.text "replace" c;
  Ok (Str.replace "," ", " t).

Definition neighbor_tlv (interface neighbor_str : string) : result tlv :=
  info_dict ← foldM info_line_entry ∅ (Str.splitlines (Str.strip neighbor_str));
  let capabilities := capabilities_of info_dict in
  system_capab ← capab_text capabilities "capabilities";
  enabled_capab ← capab_text capabilities "enabled";
  let field k := default EmptyString (info_dict !! k) in
  Ok (Tlv interface
          (Re.sub RE_PAREN EmptyString (field "port id"))
          (field "port description")
          (Re.sub RE_PAREN EmptyString (field "chassis id"))
          (field "system name")
          (field "system description")
          system_capab
          enabled_capab).

Definition blank_line : string := String Str.nl (String Str.nl EmptyString).

(** The body of the inner loop: one more neighbour of [interface]. *)
Definition lldp_detail_neighbor (interface : string)
    (out : gmap string (list tlv)) (neighbor_str : string)
  : result (gmap string (list tlv)) :=
  tlv_dict ← neighbor_tlv interface neighbor_str;
  match out !! interface with
  | Some l => Ok (<[interface := (l ++ [tlv_dict])%list]> out)
  | None => Raise (KeyError interface)
  end.

(** The body of the outer loop: one interface and its block of text. *)
Definition lldp_detail_interface (out : gmap string (list tlv))
    (item : string * string) : result (gmap string (list tlv)) :=
  let interface := fst item in
  let interface_str := snd item in
  foldM (lldp_detail_neighbor interface) (<[interface := []]> out)
        (Str.split blank_line (Str.strip interface_str)).

Definition get_lldp_neighbors_detail (dev : device) (interface : string)
  : result (gmap string (list tlv)) :=
  let commands := cmds ["show lldp neighbor " ++ interface ++ " verbose"] in
  r ← run_commands dev commands EncJson;
  neighbors_str ← (r0 ← Py.index r 0; o ← Py.getitem r0 "output"; re_subject o);
  let interfaces_split := drop 1 (Re.split RE_LLDP_HEADER neighbors_str) in
  let interface_list := pairs interfaces_split in
  foldM lldp_detail_interface ∅ interface_list.

(** *** cli *)

Definition is_CommandError (e : exn) : bool :=
  match e with
  | CommandError _ => true
  | _ => false
  end.

(** The clause [except pyeapi.eapilib.CommandError:] met by the exception
    [e]: its expression is evaluated, then compared with the class of [e]. *)
Definition except_pyeapi_CommandError (e : exn) : result bool :=
  _ ← Namespace.load_name "pyeapi";
  Ok (is_CommandError e).

(** The body of the loop, for one command. *)
Definition cli_command (dev : device) (cli_output : gmap string pyval)
    (command : pyval) : result (gmap string pyval) :=
  match (r ← run_commands dev [command] EncText;
         r0 ← Py.index r 0;
         Py.get r0 "output" VNone) with
  | Ok out => Ok (<[text_type command := out]> cli_output)
  | Raise e =>
      caught ← except_pyeapi_CommandError e;
      if (caught : bool) then
        let cli_output :=
          <[text_type command :=
              VStr ("Invalid command: " ++ dq ++ text_type command ++ dq)]>
            cli_output in
        _ ← Namespace.load_name "CommandErrorException";
        Raise (CommandErrorException (str_of (VDict cli_output)))
      else
        (* except Exception as e: *)
        let msg := "Unable to execute command " ++ dq ++ text_type command
                   ++ dq ++ ": " ++ str_of_exn e in
        let cli_output := <[text_type command := VStr msg]> cli_output in
        _ ← Namespace.load_name "CommandErrorException";
        Raise (CommandErrorException (str_of (VDict cli_output)))
  end.

Definition cli (dev : device) (commands : pyval) : result (gmap string pyval) :=
  match commands with
  | VList l => foldM (cli_command dev) ∅ l
  | _ => Raise (TypeError "Please enter a valid list of commands!")
  end.

(** *** get_arp_table *)

(** The body of the loop, for one line of the output. *)
Definition arp_line (arp_table : list arp_entry) (line : string)
  : result (list arp_entry) :=
  match Re.match_ _RE_ARP line with
  | Some neighbor =>
      let interface := text_type (group_value (Re.group neighbor 5)) in
      let mac_raw := group_value (Re.group neighbor 2) in
      let ip := text_type (group_value (Re.group neighbor 1)) in
      let age := Float.zero in
      mac ← helpers_mac mac_raw;
      ip' ← helpers_ip ip;
      Ok (arp_table ++ [ArpEntry interface mac ip' age])%list
  | None => Ok arp_table
  end.

Definition get_arp_table (dev : device) : result (list arp_entry) :=
  let commands := cmds ["show arp"] in
  match (r ← run_commands dev commands EncJson;
         r0 ← Py.index r 0;
         Py.getitem r0 "output") with
  | Raise e =>
      caught ← except_pyeapi_CommandError e;
      if (caught : bool) then Ok [] else Raise e
  | Ok output =>
      text ← Py.text "split" output;
      foldM arp_line [] (Str.split (String Str.nl EmptyString) text)
  end.

(** *** get_ntp_stats *)

(** [float(v)] *)
Definition py_float (v : pyval) : result spec_float :=
  match v with
  | VStr s => Py.float_of_string s
  | VFloat f => Ok f
  | VInt z => Float.of_int z
  | VBool b => Ok (if b then Float.of_decimal false 1 0 else Float.zero)
  | _ => Raise (TypeError "float() argument must be a string or a number")
  end.

(** The dict built from the groups of one line. *)
Definition ntp_record (line_groups : list (option string)) : result ntp_stat :=
  let g i := group_value (default None (line_groups !! i)) in
  let remote := text_type (g 1%nat) in
  let synchronized := bool_decide (line_groups !! 0%nat = Some (Some "*")) in
  let referenceid := text_type (g 2%nat) in
  stratum ← Py.int (g 3%nat);
  let type_ := text_type (g 4%nat) in
  let when_ := text_type (g 5%nat) in
  hostpoll ← Py.int (g 6%nat);
  reachability ← Py.int (g 7%nat);
  delay ← py_float (g 8%nat);
  offset ← py_float (g 9%nat);
  jitter ← py_float (g 10%nat);
  Ok (NtpStat remote synchronized referenceid stratum type_ when_ hostpoll
              reachability delay offset jitter).

(** What the body of the loop appends for one line, if anything: nothing
    when the pattern is not found ([continue]) and nothing when building the
    dict raises ([except Exception: continue]). *)
Definition ntp_entry (ntp_assoc : string) : option ntp_stat :=
  match Re.search RE_NTP ntp_assoc with
  | None => None
  | Some line_search =>
      let line_groups := Re.groups 11 line_search in
      match ntp_record line_groups with
      | Ok entry => Some entry
      | Raise _ => None
      end
  end.

Definition ntp_line (ntp_stats : list ntp_stat) (ntp_assoc : string) : list ntp_stat :=
  match ntp_entry ntp_assoc with
  | Some entry => (ntp_stats ++ [entry])%list
  | None => ntp_stats
  end.

Definition get_ntp_stats (dev : device) : result (list ntp_stat) :=
  let commands := cmds ["show ntp associations"] in
  r ← run_commands dev commands EncText;
  r0 ← Py.index r 0;
  ntp_assoc ← Py.get r0 "output" (VStr blank_line);
  text ← Py.text "splitlines" ntp_assoc;
  let ntp_assoc_lines := drop 2 (Str.splitlines text) in
  Ok (foldl ntp_line [] ntp_assoc_lines).

(** *** get_config *)

Definition get_config (dev : device) (retrieve : string) : result config :=
  let get_startup := false in
  let get_running := false in
  let commands := ["#"; "#"] in
  let '(get_startup, commands) :=
    if String.eqb retrieve "all" || String.eqb retrieve "startup"
    then (true, <[0%nat := "show startup-config"]> commands)
    else (get_startup, commands) in
  let '(get_running, commands) :=
    if String.eqb retrieve "all" || String.eqb retrieve "running"
    then (true, <[1%nat := "show running-config"]> commands)
    else (get_running, commands) in
  (* the exception is built and dropped: there is no [raise] *)
  let _built :=
    if negb get_startup && negb get_running
    then Some (Exception_ ("Wrong retrieve filter: " ++ retrieve))
    else None in
  output ← run_commands dev (cmds commands) EncText;
  startup ←
    (if get_startup
     then r ← Py.index output 0; o ← Py.getitem r "output"; Ok (text_type o)
     else Ok EmptyString);
  running ←
    (if get_running
     then r ← Py.index output 1; o ← Py.getitem r "output"; Ok (text_type o)
     else Ok EmptyString);
  Ok (Config startup running EmptyString).

End Driver.

(** ** Payloads of the command API *)

(** The response to one command: a dict with the key 'output'. *)
Definition response (v : pyval) : pyval := VDict (<["output" := v]> ∅).

(** A row (local port, neighbour device, neighbour port) of the table that
    show lldp neighbor returns. *)
Definition lldp_payload_row (row : string * string * string) : pyval :=
  VDict (<["Port" := VStr row.1.1]>
        (<["Neighbor_Device" := VStr row.1.2]>
        (<["Neighbor_Port" := VStr row.2]> ∅))).

(** The rows of the table that are on port [p] and name both a neighbour
    device and a neighbour port, as the entries they stand for. *)
Definition named_neighbors (rows : list (string * string * string)) (p : string)
  : list lldp_neighbor :=
  (fun r => LldpNeighbor (VStr r.1.2) (VStr r.2))
    <$> filter (fun r => r.1.1 = p /\ r.1.2 <> "" /\ r.2 <> "") rows.

(** ** Shapes of text, for the statements about the patterns *)

(** The position reached from [(pr, i)] after reading [ds]. *)
Fixpoint after (pr : option ascii) (i : nat) (ds rest : string) : Re.pos :=
  match ds with
  | EmptyString => Re.Pos pr i rest
  | String a t => after (Some a) (S i) t rest
  end.

(** [s] is empty or starts with a character outside the class [f]. *)
Definition head_fails (f : ascii -> bool) (s : string) : Prop :=
  match s with
  | EmptyString => True
  | String a _ => f a = false
  end.

(** The two fields that the speed pattern finds in [s]: the leading digits,
    and the one character after them if there is one; nothing else may
    follow but a final newline. *)
Definition speed_fields (s : string) : option (string * option string) :=
  let '(ds, rest) := Py.span_digits s in
  match ds with
  | EmptyString => None
  | _ =>
      match rest with
      | EmptyString => Some (ds, None)
      | String c EmptyString => Some (ds, Some (String c EmptyString))
      | String c (String n EmptyString) =>
          if Ascii.eqb n Str.nl then Some (ds, Some (String c EmptyString)) else None
      | _ => None
      end
  end.

(** The groups of a match with these fields: 1 the digits, 2 the unit. *)
Definition speed_groups (fields : string * option string) : gmap nat string :=
  match fields.2 with
  | None => <[1%nat := fields.1]> ∅
  | Some u => <[2%nat := u]> (<[1%nat := fields.1]> ∅)
  end.

(** A speed as the pattern reads it: digits, then nothing, or one character
    that is no digit, or such a character and a final newline. *)
Definition speed_shaped (s : string) : Prop :=
  exists ds u,
    s = (ds ++ u)%string /\ ds <> "" /\ Str.all_chars Str.is_digit ds = true
    /\ (u = ""
        \/ exists c, Str.is_digit c = false
                     /\ (u = String c "" \/ u = String c (String Str.nl ""))).

(** ** Sample devices and library stand-ins *)

Module Samples.

Definition str_of (v : pyval) : string :=
  match v with
  | VNone => "None"
  | VStr s => s
  | _ => "<value>"
  end.

Definition str_of_exn (e : exn) : string :=
  match e with
  | CommandError m => m
  | _ => "error"
  end.

Definition sorted_nicely (l : list string) : list string := l.

Definition helpers_mac (v : pyval) : result string :=
  match v with
  | VStr s => Ok s
  | _ => Raise (TypeError "mac")
  end.

Definition helpers_ip (s : string) : result string := Ok s.

(** A decoder that would decode anything to a capabilities dict. *)
Definition literal_eval (_ : string) : result pyval :=
  Ok (VDict (<["capabilities" := VStr "B,R"]> (<["enabled" := VStr "R"]> ∅))).

Definition line_end : string := String Str.nl EmptyString.

(** A switch that answers every command with the same payload. *)
Definition answering (v : pyval) : device :=
  Device (fun c _ => Ok ((fun _ => response v) <$> c)).

(** A switch that refuses every command. *)
Definition rejecting : device :=
  Device (fun _ _ => Raise (CommandError "CLI command 1 of 1 failed: invalid command")).

Definition version_payload (up : string) : pyval :=
  VDict (<["uptime" := VStr up]>
        (<["device" := VStr "MetaConnect 48"]>
        (<["serialNumber" := VStr "C48-A6-1234"]>
        (<["softwareImageVersion" := VStr "0.13.4"]> ∅)))).

Definition facts_device (up : string) : device :=
  Device (fun _ _ => Ok
    [ response (version_payload up);
      response (VStr ("Hostname: sw1" ++ line_end ++ "FQDN: sw1.example.com"));
      response (VDict (<["interfaces" :=
                          VDict (<["et1" := VNone]> (<["et2" := VNone]> ∅))]> ∅)) ]).

Definition status_row (rx speed : string) : pyval :=
  VDict (<["rx" := VStr rx]> (<["speed" := VStr speed]> ∅)).

Definition status_payload : gmap string pyval :=
  <["et1" := status_row "up (10G)" "10G"]>
  (<["et2" := status_row "down (shutdown)" "1G"]>
  (<["et3" := status_row "down" ""]> ∅)).

Definition interfaces_device : device :=
  Device (fun _ _ => Ok
    [ response (VDict (<["interfaces" := VDict status_payload]> ∅));
      response (VList [VDict (<["Port" := VStr "et1"]>
                             (<["Description" := VStr "uplink"]> ∅))]) ]).

Definition counters_payload : gmap string pyval :=
  <["et1" := VDict (<["txoctets" := VInt 1200]> (<["rxoctets" := VInt 3400]> ∅))]>
  (<["et2" := VDict ∅]> ∅).

Definition errors_payload : gmap string pyval :=
  <["et1" := VDict (<["tx" := VInt 5]> (<["rx" := VInt 7]> ∅))]> ∅.

Definition counters_device : device :=
  Device (fun _ _ => Ok
    [ response (VDict (<["interfaces" := VDict counters_payload]> ∅));
      response (VDict (<["interfaces" := VDict errors_payload]> ∅)) ]).

Definition ntp_text : string :=
  "     remote           refid      st t when poll reach   delay   offset  jitter"
  ++ line_end ++
  "=============================================================================="
  ++ line_end ++
  "*10.1.1.1        .GPS.            1 u   12   64  377    0.123   -0.456   0.789"
  ++ line_end ++
  "+10.1.1.2        .GPS.            1 u   12   64  377    1.2.3   -0.456   0.789"
  ++ line_end ++
  " 10.1.1.3        10.1.1.1         2 u   40   64  377    1.5      0.25    0.5"
  ++ line_end ++
  "10.1.1.4         10.1.1.1         2 u   40   64".

Definition lldp_detail_text : string :=
  "* et1" ++ line_end ++
  "chassis id: 00:1c:73:aa:bb:cc (mac)" ++ line_end ++
  "port id: Ethernet1 (ifname)" ++ line_end ++
  "system name: leaf1" ++ line_end ++
  "system capability: {'capabilities': 'B,R', 'enabled': 'R'}" ++ line_end.

Definition arp_text : string :=
  "Address  HWtype  HWaddress  Flags  Iface" ++ line_end ++
  "10.0.0.1  ether  AA:BB:CC:DD:EE:FF  C  eth3".

End Samples.

(** * The rest of the driver *)

(** ** What a pattern can match

    The words of a pattern, anchors counting as the empty word, and the
    groups it has: the statements about captured text are made with them. *)

Inductive denotes : Re.regex -> string -> Prop :=
| den_eps : denotes Re.Eps ""
| den_cls f a : f a = true -> denotes (Re.Cls f) (String a "")
| den_seq r1 r2 w1 w2 :
    denotes r1 w1 -> denotes r2 w2 -> denotes (Re.Seq r1 r2) (w1 ++ w2)
| den_alt_l r1 r2 w : denotes r1 w -> denotes (Re.Alt r1 r2) w
| den_alt_r r1 r2 w : denotes r2 w -> denotes (Re.Alt r1 r2) w
| den_star_nil r : denotes (Re.Star r) ""
| den_star_cons r w1 w2 :
    denotes r w1 -> denotes (Re.Star r) w2 -> denotes (Re.Star r) (w1 ++ w2)
| den_grp n r w : denotes r w -> denotes (Re.Grp n r) w
| den_bos : denotes Re.Bos ""
| den_bol : denotes Re.Bol ""
| den_eos : denotes Re.Eos ""
| den_eol : denotes Re.Eol "".

Fixpoint groups_of (r : Re.regex) : list (nat * Re.regex) :=
  match r with
  | Re.Grp n r1 => (n, r1) :: groups_of r1
  | Re.Seq r1 r2 | Re.Alt r1 r2 => (groups_of r1 ++ groups_of r2)%list
  | Re.Star r1 => groups_of r1
  | _ => []
  end.

(** Every group that holds text holds a word of one of the patterns that
    [G] lists under its number. *)
Definition captures_within (G : list (nat * Re.regex)) (c : gmap nat string) : Prop :=
  forall n g, c !! n = Some g -> exists sub, (n, sub) ∈ G /\ denotes sub g.

(** The groups that take part in every match of a pattern. *)
Fixpoint sure_groups (r : Re.regex) : list nat :=
  match r with
  | Re.Grp n r1 => n :: sure_groups r1
  | Re.Seq r1 r2 => (sure_groups r1 ++ sure_groups r2)%list
  | _ => []
  end.

(** ** Floats that are not negative *)

(** A float is not below zero: it is no negative number and no negative
    infinity. *)
Definition not_negative (x : spec_float) : Prop :=
  match x with
  | S754_finite s _ _ => s = false
  | S754_infinity s => s = false
  | _ => True
  end.

(** ** More payloads of the command API *)

(** A row (port, description) of the table that show interfaces description
    returns. *)
Definition description_payload_row (row : string * pyval) : pyval :=
  VDict (<["Port" := VStr row.1]> (<["Description" := row.2]> ∅)).

(** The reading of one counter: the int of the field, -1 without it. *)
Definition counter_reads (c : gmap string pyval) (k : string) (z : Z) : Prop :=
  match c !! k with
  | Some v => Py.int v = Ok z
  | None => z = -1
  end.

(** ** More of [re] and of the builtins *)

(** [r.findall(s)] for a pattern with one group whose matches are never
    empty: group 1 of every match, from left to right, a match starting
    where the one before ended at the earliest. *)
Fixpoint findall_go (r : Re.regex) (skip : nat) (pr : option ascii) (i : nat)
    (s : string) : list string :=
  match skip, s with
  | S n, String a t => findall_go r n (Some a) (S i) t
  | S _, EmptyString => []
  | O, _ =>
      let next :=
        match s with
        | EmptyString => []
        | String a t => findall_go r O (Some a) (S i) t
        end in
      match Re.at_pos r (Re.Pos pr i s) with
      | Some (p', c) =>
          match (Re.idx p' - i)%nat, s with
          | S n, String a t =>
              default EmptyString (c !! 1%nat) :: findall_go r n (Some a) (S i) t
          | _, _ => next
          end
      | None => next
      end
  end.
Definition findall (r : Re.regex) (s : string) : list string :=
  findall_go r O None 0 s.

(** [re.match(r, s).group()]: the text of the match. *)
Definition match_text (r : Re.regex) (s : string) : option string :=
  match Re.at_pos r (Re.start s) with
  | Some (p', _) => Some (Str.take (Re.idx p') s)
  | None => None
  end.

(** [v == text] *)
Definition is_text (text : string) (v : pyval) : bool :=
  match v with
  | VStr s => String.eqb s text
  | _ => false
  end.

(** [k in v] for a text [k]. *)
Definition py_contains (k : string) (v : pyval) : result bool :=
  match v with
  | VDict d => Ok (bool_decide (is_Some (d !! k)))
  | VStr s => Ok (Str.contains k s)
  | VList l => Ok (existsb (is_text k) l)
  | _ => Raise (TypeError "argument is not iterable")
  end.

Fixpoint lower_text (s : string) : string :=
  match s with
  | EmptyString => EmptyString
  | String a t => String (Str.lower a) (lower_text t)
  end.

(** [float(s)] for any text: the words inf, infinity and nan, in any case
    and with a sign, besides the decimal literals. *)
Definition float_of_text (s : string) : result spec_float :=
  let body := lower_text (Str.strip s) in
  let '(neg, word) :=
    match body with
    | String "-" t => (true, t)
    | String "+" t => (false, t)
    | _ => (false, body)
    end in
  if String.eqb word "inf" || String.eqb word "infinity" then Ok (S754_infinity neg)
  else if String.eqb word "nan" then Ok S754_nan
  else Py.float_of_string s.

(** [float(v)] for a value of a payload. *)
Definition float_of (v : pyval) : result spec_float :=
  match v with
  | VStr s => float_of_text s
  | VFloat f => Ok f
  | VInt z => Float.of_int z
  | VBool b => Ok (if b then Float.of_decimal false 1 0 else Float.zero)
  | _ => Raise (TypeError "float() argument must be a string or a number")
  end.

(** [x > y] and [x != y] on floats. *)
Definition float_gt (x y : spec_float) : bool := SFltb y x.
Definition float_ne (x y : spec_float) : bool := negb (SFeqb x y).

(** ** More patterns of the driver *)

Local Open Scope re_scope.

(** _RE_NTP_SERVERS (MULTILINE), group 1: server. *)
Definition _RE_NTP_SERVERS : Re.regex :=
  Re.Bol · Re.lit "ntp server " · Re.Grp 1 (Re.plus Re.S').

(** _RE_SNMP_COMM (VERBOSE), groups: 1 community, 2 mode, 4 v4_acl. *)
Definition _RE_SNMP_COMM : Re.regex :=
  Re.Star Re.s · Re.lit "Community" · Re.s · Re.lit "name:" · Re.plus Re.s
  · Re.Grp 1 (Re.plus Re.S') · Re.chr Str.nl
  · Re.lit "Community" · Re.s · Re.lit "access:" · Re.plus Re.s
  · Re.Grp 2 (Re.plus Re.S')
  · Re.opt (Re.Grp 3 (Re.chr Str.nl · Re.lit "Community" · Re.s · Re.lit "source:"
                      · Re.plus Re.s · Re.Grp 4 (Re.plus Re.S'))).

(** The leading number of a reading with a unit, in [get_environment]. *)
Definition RE_NUMBER : Re.regex :=
  Re.Bos · Re.Grp 1 (Re.plus (Re.Cls (fun a => Str.is_digit a || is_dot a))).

Local Close Scope re_scope.

(** ** More records *)

Record community_info := CommunityInfo {
  acl : string;
  mode : string
}.

Record snmp_info := SnmpInfo {
  chassis_id : pyval;
  location : string;
  contact : string;
  community : gmap string community_info
}.

Module Optics.

(** One of 'input_power', 'output_power', 'laser_bias_current'. *)
Record reading := Reading {
  instant : pyval;
  avg : spec_float;
  min : spec_float;
  max : spec_float
}.

Record state := State {
  input_power : reading;
  output_power : reading;
  laser_bias_current : reading
}.

Record channel := Channel {
  index : Z;
  state_ : state      (* 'state' *)
}.

End Optics.

Module Env.

Module Sensor.
Record t := Make {
  temperature : spec_float;
  is_alert : bool;
  is_critical : bool
}.
End Sensor.

Module Psu.
Record t := Make {
  status : bool;
  capacity : spec_float;
  output : spec_float
}.
End Psu.

Record t := Make {
  fans : gmap string bool;              (* slot -> 'status' *)
  temperature : gmap string Sensor.t;
  power : gmap string Psu.t;
  cpu : gmap Z spec_float;              (* 0 -> '%usage' *)
  available_ram : Z;                    (* 'memory' *)
  used_ram : Z
}.

End Env.

(** ** More methods of [MOSDriver] *)

Section MoreMethods.

Variable str_of : pyval -> string.

(** *** get_ntp_servers *)

Definition get_ntp_servers (dev : device) : result (gmap string pyval) :=
  cfg ← get_config str_of dev "running";
  let config := running cfg in
  let servers := findall _RE_NTP_SERVERS config in
  Ok (foldl (fun (acc : gmap string pyval) server =>
               <[text_type str_of (VStr server) := VDict ∅]> acc) ∅ servers).

(** *** get_snmp_information *)

(** The body of the loop, for one block of the community text. *)
Definition snmp_community (communities : gmap string community_info)
    (community_output : string) : result (gmap string community_info) :=
  match Re.search _RE_SNMP_COMM community_output with
  | Some m =>
      (* match.groupdict(''): a group that took no part reads '' *)
      let matches_v4_acl := default EmptyString (Re.group m 4) in
      let matches_mode := default EmptyString (Re.group m 2) in
      let info := CommunityInfo (text_type str_of (VStr matches_v4_acl))
                                (text_type str_of (VStr matches_mode)) in
      key ← dict_key (group_value (Re.group m 1));
      Ok (<[key := info]> communities)
  | None => Ok communities
  end.

Definition get_snmp_information (dev : device) : result snmp_info :=
  let commands := cmds ["show snmp chassis-id"; "show snmp location";
                        "show snmp contact"; "show snmp community"] in
  snmp_config ← run_commands dev commands EncJson;
  chassis_id ← (r ← Py.index snmp_config 0; Py.getitem r "output");
  location ←
    (r ← Py.index snmp_config 1; o ← Py.getitem r "output";
     t ← Py.text "replace" o;
     Ok (Str.strip (Str.replace "Location: " "" t)));
  contact ←
    (r ← Py.index snmp_config 2; o ← Py.getitem r "output";
     t ← Py.text "replace" o;
     Ok (Str.strip (Str.replace "Contact: " "" t)));
  community_outputs ←
    (r ← Py.index snmp_config 3; o ← Py.getitem r "output";
     t ← Py.text "split" o;
     Ok (Str.split blank_line t));
  community ← foldM snmp_community ∅ community_outputs;
  Ok (SnmpInfo chassis_id location contact community).

(** *** get_optics *)

(** [port_values[k] if k in port_values else 0.0] with the fixed averages. *)
Definition optics_reading (port_values : pyval) (k : string) : result Optics.reading :=
  present ← py_contains k port_values;
  instant ← (if (present : bool) then Py.getitem port_values k
             else Ok (VFloat Float.zero));
  Ok (Optics.Reading instant Float.zero Float.zero Float.zero).

(** The body of the loop: the list 'channel' of one port. *)
Definition optics_port (port : string) (port_values : pyval)
  : result (list Optics.channel) :=
  input_power ← optics_reading port_values "rxPwr";
  output_power ← optics_reading port_values "txPwr";
  laser_bias_current ← optics_reading port_values "txBias";
  let optic_states :=
    Optics.Channel 0 (Optics.State input_power output_power laser_bias_current) in
  Ok ([] ++ [optic_states])%list.

(** The result gives each port its list
    [['physical_channels']['channel']], the only content of the port's
    entry. *)
Definition get_optics (dev : device) : result (gmap string (list Optics.channel)) :=
  let command := cmds ["show interfaces transceiver"] in
  output ←
    (r ← run_commands dev command EncJson; r0 ← Py.index r 0;
     o ← Py.getitem r0 "output"; Py.getitem o "interfaces");
  items ← Py.items output;
  foldM (fill_step optics_port) ∅ items.

(** *** get_environment *)

(** [float(re.match(r'^([\d\.]+)', v).group())] *)
Definition leading_number (v : pyval) : result spec_float :=
  s ← re_subject v;
  match match_text RE_NUMBER s with
  | Some text => float_of (VStr text)
  | None => Raise (AttributeError "group")
  end.

Definition environment_fan (slot : string) (data : pyval) : result bool :=
  st ← Py.getitem data "status";
  Ok (is_text "OK" st).

(** The body of the loop over the sensors: one more entry of [temps]. *)
Definition environment_sensor (temps : gmap string Env.Sensor.t)
    (item : string * pyval) : result (gmap string Env.Sensor.t) :=
  let v := snd item in
  temperature ← Py.getitem v "temp(C)" ≫= float_of;
  is_alert ←
    (t ← Py.getitem v "temp(C)" ≫= float_of;
     a ← Py.getitem v "alertThreshold" ≫= float_of;
     Ok (float_gt t a));
  is_critical ←
    (t ← Py.getitem v "temp(C)" ≫= float_of;
     c ← Py.getitem v "criticalThreshold" ≫= float_of;
     Ok (float_gt t c));
  (* the entry is built before its key is looked up *)
  key ← Py.getitem v "description" ≫= dict_key;
  Ok (<[key := Env.Sensor.Make temperature is_alert is_critical]> temps).

Definition environment_psu (psu_dict : pyval) (psu : string) (data : pyval)
  : result Env.Psu.t :=
  status ← (x ← Py.getitem data "inputVoltage" ≫= leading_number;
            Ok (float_ne x Float.zero));
  capacity ← (p ← Py.getitem psu_dict psu;
              Py.getitem p "capacity" ≫= leading_number);
  output ← Py.getitem data "outputPower" ≫= leading_number;
  Ok (Env.Psu.Make status capacity output).

Definition get_environment (dev : device) : result Env.t :=
  let commands := cmds ["show environment all"] in
  output ← (r ← run_commands dev commands EncJson; r0 ← Py.index r 0;
            Py.getitem r0 "output");
  fans ←
    (items ← (c ← Py.getitem output "systemCooling"; f ← Py.getitem c "fans";
              Py.items f);
     foldM (fill_step environment_fan) ∅ items);
  temps ←
    (items ← (t ← Py.getitem output "systemTemperature";
              s ← Py.getitem t "sensors"; Py.items s);
     foldM environment_sensor ∅ items);
  psu_dict ← (p ← Py.getitem output "systemPower"; Py.getitem p "powerSupplies");
  power ←
    (items ← (p ← Py.getitem output "systemPower"; o ← Py.getitem p "powerOutput";
              Py.items o);
     foldM (fill_step (environment_psu psu_dict)) ∅ items);
  usage ← Float.of_int (-1);
  Ok (Env.Make fans temps power (<[0 := usage]> ∅) (-1) (-1)).

End MoreMethods.

(** ** The life cycle of the driver: [__init__], [open], [close], [is_alive] *)

Module MOSDriver.

(** pyeapi's [Node], the handle of a switch. *)
Definition node : Type := device.

(** The attributes of [self]. *)
Record driver := Driver {
  device : option node;
  hostname : pyval;
  username : pyval;
  password : pyval;
  timeout : pyval;
  transport : pyval;
  port : pyval;
  path : pyval;
  enablepwd : pyval
}.

Definition with_device (self : driver) (d : node) : driver :=
  Driver (Some d) (hostname self) (username self) (password self) (timeout self)
         (transport self) (port self) (path self) (enablepwd self).

(** [timeout=60] *)
Definition default_timeout : pyval := VInt 60.

Definition __init__ (hostname username password timeout optional_args : pyval)
  : result driver :=
  let optional_args :=
    match optional_args with
    | VNone => VDict ∅
    | _ => optional_args
    end in
  transport ← Py.get optional_args "transport" (VStr "https");
  port ← (if is_text "https" transport
          then Py.get optional_args "port" (VInt 443)
          else Py.get optional_args "port" (VInt 80));
  path ← Py.get optional_args "path" (VStr "/command-api");
  enablepwd ← Py.get optional_args "enable_password" (VStr "");
  Ok (Driver None hostname username password timeout transport port path enablepwd).

(** What [open] can raise: an exception of the kinds above or napalm's
    [ConnectionException]. *)
Inductive raised :=
| Exn (e : exn)
| ConnectionException (msg : string).

(** [except ConnectionError as ce: raise ConnectionException(ce.message)] *)
Definition except_ConnectionError (e : exn) : raised :=
  match e with
  | ConnectionError message => ConnectionException message
  | _ => Exn e
  end.

Section Open.

(** pyeapi: the two connection classes, called with hostname, port, path,
    username, password and timeout, and [Node] with the connection and
    [enablepwd]. *)
Variable connection : Type.
Variable HttpsEapiConnection HttpEapiConnection :
  pyval -> pyval -> pyval -> pyval -> pyval -> pyval -> result connection.
Variable EapiNode : connection -> pyval -> result node.

(** The entry of [TRANSPORTS] under a key, if there is one; a key that
    cannot be hashed raises. *)
Definition TRANSPORTS (key : pyval)
  : result (option (pyval -> pyval -> pyval -> pyval -> pyval -> pyval
                    -> result connection)) :=
  match key with
  | VStr s =>
      Ok (if String.eqb s "https" then Some HttpsEapiConnection
          else if String.eqb s "http" then Some HttpEapiConnection
          else None)
  | VList _ | VDict _ => Raise (TypeError "unhashable type")
  | _ => Ok None
  end.

(** [open]: the driver after the call and what the call raised, if it did. *)
Definition open (self : driver) : driver * option raised :=
  match TRANSPORTS (transport self) with
  | Raise e => (self, Some (Exn e))
  | Ok None =>
      match Namespace.load_name "typeError" with
      | Raise e => (self, Some (Exn e))
      | Ok _ => (self, Some (Exn (TypeError "invalid transport specified")))
      end
  | Ok (Some klass) =>
      match klass (hostname self) (port self) (path self) (username self)
                  (password self) (timeout self) with
      | Raise e => (self, Some (except_ConnectionError e))
      | Ok connection =>
          match
            match device self with
            | None =>
                d ← EapiNode connection (enablepwd self);
                Ok (d, with_device self d)
            | Some d => Ok (d, self)
            end
          with
          | Raise e => (self, Some (except_ConnectionError e))
          | Ok (d, self') =>
              match run_commands d (cmds ["show version"]) EncJson with
              | Raise e => (self', Some (except_ConnectionError e))
              | Ok _ => (self', None)
              end
          end
      end
  end.

End Open.

Arguments TRANSPORTS {connection} _ _ _.
Arguments open {connection} _ _ _ _.

(** [close] does nothing. *)
Definition close (self : driver) : driver := self.

Definition is_alive (self : driver) : gmap string pyval :=
  {[ "is_alive" := VBool true ]}.

End MOSDriver.

(** ** What the extractors report, and switches to try them on *)

(** The reading [get_optics] reports for the field [k] of a port's entry
    [d]: the value of the field, 0.0 without it, and 0.0 three times. *)
Definition optic_of (d : gmap string pyval) (k : string) : Optics.reading :=
  Optics.Reading (default (VFloat Float.zero) (d !! k))
                 Float.zero Float.zero Float.zero.

(** The text [before] ends where a line begins. *)
Definition at_line_start (before : string) : Prop :=
  before = "" \/ exists b, before = (b ++ String Str.nl "")%string.

(** A token: text that is not empty and holds no blank. *)
Definition token (s : string) : Prop :=
  s <> "" /\ Str.all_chars (fun a => negb (Str.is_space a)) s = true.

(** Text that neither begins nor ends with a blank. *)
Definition trimmed (s : string) : Prop :=
  forall a t,
    (s = String a t -> Str.is_space a = false)
    /\ (s = (t ++ String a "")%string -> Str.is_space a = false).

(** The characters of the number that a reading with a unit begins with. *)
Definition numeric (a : ascii) : bool := Str.is_digit a || is_dot a.

(** -1.0 *)
Definition minus_one : spec_float := S754_finite true 4503599627370496 (-52).

(** The entry that [get_environment] files under [desc] for the sensor [v]
    of the payload: its temperature and whether that lies above the two
    thresholds. *)
Definition sensor_entry (v : pyval) (desc : string) (s : Env.Sensor.t) : Prop :=
  Py.getitem v "description" = Ok (VStr desc)
  /\ exists t a c,
       Py.getitem v "temp(C)" ≫= float_of = Ok t
       /\ Py.getitem v "alertThreshold" ≫= float_of = Ok a
       /\ Py.getitem v "criticalThreshold" ≫= float_of = Ok c
       /\ s = Env.Sensor.Make t (float_gt t a) (float_gt t c).

(** The entry that [get_environment] makes of the output [data] of a power
    supply and of the supply's own entry [supply]. *)
Definition psu_entry (data supply : pyval) (p : Env.Psu.t) : Prop :=
  exists v,
    Py.getitem data "inputVoltage" ≫= leading_number = Ok v
    /\ Env.Psu.status p = float_ne v Float.zero
    /\ Py.getitem supply "capacity" ≫= leading_number = Ok (Env.Psu.capacity p)
    /\ Py.getitem data "outputPower" ≫= leading_number = Ok (Env.Psu.output p).

(** [w] is what follows the last space of [line], or all of [line] when
    it holds no space. *)
Definition last_word (line w : string) : Prop :=
  Str.all_chars (fun a => negb (Ascii.eqb a " ")) w = true
  /\ (line = w \/ exists before, line = (before ++ " " ++ w)%string).

Module MoreSamples.

(** -3.1, as the decoder of the payload reads it. *)
Definition rx_power : pyval := VFloat (Float.of_decimal true 31 (-1)).

Definition transceiver_payload : gmap string pyval :=
  <["et1" := VDict (<["rxPwr" := rx_power]> (<["vendor" := VStr "ACME"]> ∅))]>
  (<["et2" := VDict ∅]> ∅).

Definition optics_device : device :=
  Samples.answering (VDict (<["interfaces" := VDict transceiver_payload]> ∅)).

Definition ntp_config : string :=
  "hostname sw1" ++ Samples.line_end
  ++ "ntp server 10.0.0.1 prefer" ++ Samples.line_end
  ++ " ntp server indented" ++ Samples.line_end
  ++ "ntp server pool.ntp.org".

(** Connection classes that build a connection without a fault, a node
    class whose switches answer every command, and a switch that cannot be
    reached. *)
Definition HttpsEapiConnection (host port path user pass timeout : pyval)
  : result string := Ok "https".
Definition HttpEapiConnection (host port path user pass timeout : pyval)
  : result string := Ok "http".
Definition EapiNode (c : string) (enablepwd : pyval) : result MOSDriver.node :=
  Ok (Samples.answering (VStr c)).
Definition unreachable : device :=
  Device (fun _ _ => Raise (ConnectionError "unable to connect to eAPI")).

Definition snmp_communities : string :=
  "Community name: public" ++ Samples.line_end
  ++ "Community access: read-only" ++ Samples.line_end
  ++ "Community source: 10.0.0.0/8" ++ Samples.line_end
  ++ Samples.line_end
  ++ "Community name: private" ++ Samples.line_end
  ++ "Community access: read-write".

Definition snmp_device : device :=
  Device (fun _ _ => Ok
    [ response (VStr "Chassis: C48-A6-1234");
      response (VStr ("Location:  rack 12 " ++ Samples.line_end));
      response (VStr "Contact: noc@example.com");
      response (VStr snmp_communities) ]).

Definition sensors_payload : gmap string pyval :=
  <["1" := VDict (<["description" := VStr "Board"]>
                 (<["temp(C)" := VStr "41.5"]>
                 (<["alertThreshold" := VInt 41]>
                 (<["criticalThreshold" := VStr "41.5"]> ∅))))]> ∅.

Definition supplies_payload : pyval :=
  VDict (<["PSU1" := VDict (<["capacity" := VStr "460W"]> ∅)]> ∅).

Definition outputs_payload : gmap string pyval :=
  <["PSU1" := VDict (<["inputVoltage" := VStr "0.00V"]>
                    (<["outputPower" := VStr "12.5W"]> ∅))]> ∅.

Definition environment_payload : pyval :=
  VDict (<["systemCooling" :=
             VDict (<["fans" :=
                        VDict (<["Fan1" := VDict (<["status" := VStr "OK"]> ∅)]>
                              (<["Fan2" := VDict (<["status" := VStr "ok"]> ∅)]> ∅))]> ∅)]>
        (<["systemTemperature" := VDict (<["sensors" := VDict sensors_payload]> ∅)]>
        (<["systemPower" :=
             VDict (<["powerSupplies" := supplies_payload]>
                   (<["powerOutput" := VDict outputs_payload]> ∅))]> ∅))).

Definition environment_device : device := Samples.answering environment_payload.

(** What get_environment makes of it: 41.5 degrees lie above the alert
    threshold 41 and not above the critical threshold 41.5; the supply has
    no input voltage. *)
Definition environment_result : Env.t :=
  Env.Make
    (<["Fan1" := true]> (<["Fan2" := false]> ∅))
    (<["Board" := Env.Sensor.Make (Float.of_decimal false 415 (-1)) true false]> ∅)
    (<["PSU1" := Env.Psu.Make false (Float.of_decimal false 460 0)
                              (Float.of_decimal false 125 (-1))]> ∅)
    (<[0 := minus_one]> ∅) (-1) (-1).

(** A switch whose show hostname gives one line only. *)
Definition one_line_device : device :=
  Device (fun _ _ => Ok
    [ response (Samples.version_payload "1:02:03");
      response (VStr "Hostname: sw1");
      response (VDict (<["interfaces" := VDict ∅]> ∅)) ]).

End MoreSamples.

(** * Properties *)

(** ** The [result] monad and the loops *)

Lemma bind_Ok {A B} (m : result A) (f : A -> result B) (b : B) :
  m ≫= f = Ok b <-> exists a, m = Ok a /\ f a = Ok b.
Proof.
  destruct m as [a|e]; simpl; split.
  - intros H. exists a. split; [reflexivity | exact H].
  - intros (a' & Ha & Hf). inversion Ha. subst. exact Hf.
  - intros H. discriminate H.
  - intros (a' & Ha & _). discriminate Ha.
Qed.

(** Invert every successful bind among the hypotheses. *)
Ltac inv_bind :=
  repeat match goal with
  | H : _ ≫= _ = Ok _ |- _ =>
      apply bind_Ok in H; destruct H as (? & ? & H)
  | H : Ok _ = Ok _ |- _ => inversion H; clear H; subst
  | H : Raise _ = Ok _ |- _ => discriminate H
  end.

(** An invariant of a loop that ran to its end. *)
Lemma foldM_invariant {A S} (P : S -> Prop) (f : S -> A -> result S) l :
  forall s r,
    (forall s a s', a ∈ l -> P s -> f s a = Ok s' -> P s') ->
    P s -> foldM f s l = Ok r -> P r.
Proof.
  induction l as [|a l IH]; intros s r Hstep Hs Hrun; simpl in Hrun.
  - inversion Hrun. subst. exact Hs.
  - apply bind_Ok in Hrun. destruct Hrun as (s' & Hf & Hrest).
    apply (IH s' r); [| | exact Hrest].
    + intros s0 a0 s0' Hin. apply Hstep. right. exact Hin.
    + apply (Hstep s a s'); [left | exact Hs | exact Hf].
Qed.

(** ** get_facts: the uptime *)

(** The days, hours and seconds of the uptime reach [timedelta]; the group
    [minute] of the pattern is matched and then not used. *)
Lemma uptime_pattern_reads_minutes :
  (Re.match_ _RE_UPTIME "2 days, 03:04:05" ≫= fun m => Re.group m 4) = Some "04".
Proof. vm_compute. reflexivity. Qed.

(** Whatever the minute group holds, the total is the same. *)
Lemma uptime_of_match_ignores_minutes u_match minute :
  uptime_of_match (<[4%nat := minute]> u_match) = uptime_of_match u_match.
Proof.
  unfold uptime_of_match, Re.group.
  rewrite !lookup_insert_ne by done. reflexivity.
Qed.

(** C1 (code at the failing inputs): for the uptime "2 days, 03:04:05"
    get_facts reports 2*86400 + 3*3600 + 5 seconds and for "03:04:05" it
    reports 3*3600 + 5 seconds: the 4 minutes are missing from both, so the
    totals are not the 2*86400+3*3600+4*60+5 and 3*3600+4*60+5 that a
    conversion of [<days> days, ]HH:MM:SS to seconds gives. *)
Theorem get_facts_uptime_leaves_minutes_out :
  uptime <$> get_facts Samples.sorted_nicely (Samples.facts_device "2 days, 03:04:05")
    = Ok (2 * 86400 + 3 * 3600 + 5)
  /\ uptime <$> get_facts Samples.sorted_nicely (Samples.facts_device "03:04:05")
    = Ok (3 * 3600 + 5)
  /\ 2 * 86400 + 3 * 3600 + 5 <> 2 * 86400 + 3 * 3600 + 4 * 60 + 5
  /\ 3 * 3600 + 5 <> 3 * 3600 + 4 * 60 + 5.
Proof.
  split; [vm_compute; reflexivity|].
  split; [vm_compute; reflexivity|].
  split; lia.
Qed.

(** ** get_config *)

(** An unknown selector leaves both flags unset; the two placeholder
    commands are sent and three empty sections come back. *)
Lemma get_config_unknown_selector str_of dev retrieve :
  retrieve <> "all" -> retrieve <> "running" -> retrieve <> "startup" ->
  returns (run_commands dev (cmds ["#"; "#"]) EncText) ->
  get_config str_of dev retrieve = Ok (Config "" "" "").
Proof.
  intros Ha Hr Hs [out Hout]. unfold get_config.
  apply String.eqb_neq in Ha, Hr, Hs. rewrite Ha, Hr, Hs. simpl.
  change (cmds ["#"; "#"]) with [VStr "#"; VStr "#"] in Hout.
  rewrite Hout. reflexivity.
Qed.

(** The accepted selectors: the requested sections hold the switch's text,
    the others and the candidate are empty. *)
Lemma get_config_all str_of dev s r more :
  run_commands dev (cmds ["show startup-config"; "show running-config"]) EncText
    = Ok (response (VStr s) :: response (VStr r) :: more) ->
  get_config str_of dev "all" = Ok (Config s r "").
Proof.
  intros H. unfold get_config. simpl.
  change (cmds ["show startup-config"; "show running-config"])
    with [VStr "show startup-config"; VStr "show running-config"] in H.
  rewrite H. reflexivity.
Qed.

Lemma get_config_running str_of dev x r more :
  run_commands dev (cmds ["#"; "show running-config"]) EncText
    = Ok (x :: response (VStr r) :: more) ->
  get_config str_of dev "running" = Ok (Config "" r "").
Proof.
  intros H. unfold get_config. simpl.
  change (cmds ["#"; "show running-config"])
    with [VStr "#"; VStr "show running-config"] in H.
  rewrite H. reflexivity.
Qed.

Lemma get_config_startup str_of dev s more :
  run_commands dev (cmds ["show startup-config"; "#"]) EncText
    = Ok (response (VStr s) :: more) ->
  get_config str_of dev "startup" = Ok (Config s "" "").
Proof.
  intros H. unfold get_config. simpl.
  change (cmds ["show startup-config"; "#"])
    with [VStr "show startup-config"; VStr "#"] in H.
  rewrite H. reflexivity.
Qed.

(** C2 (code at the failing input): get_config with the selector "bogus"
    raises nothing; it returns a snapshot whose startup, running and
    candidate sections are all empty. *)
Theorem get_config_bogus_is_not_refused :
  get_config Samples.str_of (Samples.answering (VStr "hostname sw1")) "bogus"
  = Ok (Config "" "" "").
Proof.
  apply get_config_unknown_selector; try discriminate.
  eexists. reflexivity.
Qed.

(** ** cli *)

(** An argument that is not a list is refused, whatever the switch. *)
Lemma cli_not_a_list str_of str_of_exn dev commands :
  (forall l, commands <> VList l) ->
  cli str_of str_of_exn dev commands
  = Raise (TypeError "Please enter a valid list of commands!").
Proof.
  intros H. destruct commands; try reflexivity. destruct (H l). reflexivity.
Qed.

(** The first [except] clause names [pyeapi], which the module does not
    bind: whatever is raised while a command runs, the search for a handler
    ends in NameError. *)
Lemma except_pyeapi_CommandError_raises e :
  except_pyeapi_CommandError e = Raise (NameError "pyeapi").
Proof. reflexivity. Qed.

Lemma cli_command_failure str_of str_of_exn dev cli_output command e :
  (r ← run_commands dev [command] EncText;
   r0 ← Py.index r 0; Py.get r0 "output" VNone) = Raise e ->
  cli_command str_of str_of_exn dev cli_output command = Raise (NameError "pyeapi").
Proof. intros H. unfold cli_command. rewrite H. reflexivity. Qed.

(** C3 (code at the failing input): cli(["bad_cmd"]) on a switch that
    refuses the command raises NameError for the name pyeapi; no
    command-error exception is raised and no map with an "Invalid command"
    message reaches the caller. *)
Theorem cli_rejected_command_raises_NameError :
  cli Samples.str_of Samples.str_of_exn Samples.rejecting (VList [VStr "bad_cmd"])
  = Raise (NameError "pyeapi").
Proof. reflexivity. Qed.

(** ** Regular expressions: one or more characters of a class *)

(** Repeating a class [f] over [ds ++ rest], where [ds] lies in [f] and
    [rest] does not go on in it: when the continuation refuses every
    position that still has a character of [f] ahead, the repetition takes
    all of [ds]. *)
Lemma star_loop_cls {R} (f : ascii -> bool) step
    (k : Re.pos -> gmap nat string -> option R) rest c :
  (forall p c' k', step p c' k' = Re.run (Re.Cls f) p c' k') ->
  head_fails f rest ->
  (forall pr i a t, f a = true -> k (Re.Pos pr i (String a t)) c = None) ->
  forall ds fuel pr i,
    Str.all_chars f ds = true -> (String.length ds <= fuel)%nat ->
    Re.star_loop step k fuel (Re.Pos pr i (ds ++ rest)) c
    = k (after pr i ds rest) c.
Proof.
  intros Hstep Hrest Hk. induction ds as [|a ds IH]; intros fuel pr i Hall Hfuel.
  - destruct fuel as [|fuel]; [reflexivity|].
    simpl. rewrite Hstep.
    destruct rest as [|b rest]; [reflexivity|]. simpl in Hrest. simpl.
    rewrite Hrest. reflexivity.
  - simpl in Hall. apply andb_true_iff in Hall. destruct Hall as [Ha Hall].
    destruct fuel as [|fuel]; [simpl in Hfuel; lia|].
    simpl. rewrite Hstep. simpl. rewrite Ha.
    rewrite (proj2 (Nat.ltb_lt i (S i))) by lia.
    rewrite IH by (simpl in Hfuel; first [exact Hall | lia]).
    destruct (k (after (Some a) (S i) ds rest) c) eqn:E; [reflexivity|].
    apply Hk. exact Ha.
Qed.

(** The same for one or more characters of the class. *)
Lemma run_plus_cls {R} (f : ascii -> bool)
    (k : Re.pos -> gmap nat string -> option R) a ds rest pr i c :
  head_fails f rest ->
  (forall pr i a t, f a = true -> k (Re.Pos pr i (String a t)) c = None) ->
  Str.all_chars f (String a ds) = true ->
  Re.run (Re.plus (Re.Cls f)) (Re.Pos pr i (String a ds ++ rest)) c k
  = k (after pr i (String a ds) rest) c.
Proof.
  intros Hrest Hk Hall. simpl in Hall.
  apply andb_true_iff in Hall. destruct Hall as [Ha Hall].
  unfold Re.plus. simpl. rewrite Ha.
  apply (star_loop_cls f); try assumption; [reflexivity|].
  clear. induction ds; simpl; lia.
Qed.

(** Without a first character of the class there is no match. *)
Lemma run_plus_cls_fails {R} (f : ascii -> bool)
    (k : Re.pos -> gmap nat string -> option R) s pr i c :
  head_fails f s ->
  Re.run (Re.plus (Re.Cls f)) (Re.Pos pr i s) c k = None.
Proof.
  intros H. unfold Re.plus. simpl. destruct s as [|a s]; [reflexivity|].
  simpl in H. rewrite H. reflexivity.
Qed.

(** ** Digits *)

Lemma is_digit_cases a :
  Str.is_digit a = true ->
  a ∈ ["0"; "1"; "2"; "3"; "4"; "5"; "6"; "7"; "8"; "9"]%char.
Proof.
  destruct a as [[] [] [] [] [] [] [] []]; intros H; try discriminate H;
    repeat (first [left | right]).
Qed.

Lemma digit_props a :
  Str.is_digit a = true ->
  Str.is_space a = false /\ Ascii.eqb a Str.nl = false
  /\ a <> "-"%char /\ a <> "+"%char.
Proof.
  intros H. apply is_digit_cases in H.
  repeat (apply elem_of_cons in H; destruct H as [->|H]; [repeat split; discriminate|]).
  inversion H.
Qed.

Lemma span_digits_spec s :
  s = ((Py.span_digits s).1 ++ (Py.span_digits s).2)%string
  /\ Str.all_chars Str.is_digit (Py.span_digits s).1 = true
  /\ head_fails Str.is_digit (Py.span_digits s).2.
Proof.
  induction s as [|a s IH]; simpl.
  - repeat split.
  - destruct (Str.is_digit a) eqn:E.
    + destruct (Py.span_digits s) as [ds r]. simpl in *.
      destruct IH as (-> & Hall & Hr). rewrite E. repeat split; assumption.
    + simpl. repeat split. exact E.
Qed.

Lemma span_digits_app ds rest :
  Str.all_chars Str.is_digit ds = true -> head_fails Str.is_digit rest ->
  Py.span_digits (ds ++ rest) = (ds, rest).
Proof.
  intros Hall Hr. induction ds as [|a ds IH]; simpl.
  - destruct rest as [|b rest]; [reflexivity|]. simpl in Hr. simpl. rewrite Hr. reflexivity.
  - simpl in Hall. apply andb_true_iff in Hall. destruct Hall as [Ha Hall].
    rewrite Ha, IH by exact Hall. reflexivity.
Qed.

Lemma after_pos pr i ds rest :
  exists pr', after pr i ds rest = Re.Pos pr' (i + String.length ds) rest.
Proof.
  revert pr i. induction ds as [|a ds IH]; intros pr i; simpl.
  - exists pr. rewrite Nat.add_0_r. reflexivity.
  - destruct (IH (Some a) (S i)) as [pr' ->]. exists pr'.
    rewrite Nat.add_succ_r. reflexivity.
Qed.

Lemma take_app ds rest : Str.take (String.length ds) (ds ++ rest) = ds.
Proof. induction ds as [|a ds IH]; simpl; [destruct rest|rewrite IH]; reflexivity. Qed.

(** ** The speed pattern, resolved *)

(** What follows the digits in the pattern refuses a position with a digit
    ahead: a digit is no unit and not the end of the text. *)
Lemma speed_tail_fails_on_digit pr i a t (c : gmap nat string) :
  Str.is_digit a = true ->
  Re.run (Re.opt (Re.Grp 2 Re.D)) (Re.Pos pr i (String a t)) c
    (fun p3 c3 => Re.run Re.Eos p3 c3 (fun p' c' => Some (p', c'))) = None.
Proof.
  intros Ha. destruct (digit_props a Ha) as (_ & Hnl & _).
  unfold Re.opt, Re.D. simpl. rewrite Ha. simpl. rewrite Hnl.
  destruct t; reflexivity.
Qed.

Lemma speed_pattern_run {R} s (K : Re.pos -> gmap nat string -> option R) :
  Re.run RE_SPEED (Re.start s) ∅ K
  = Re.run (Re.plus (Re.Cls Str.is_digit)) (Re.Pos None 0 s) ∅
      (fun p' c' =>
         Re.run (Re.opt (Re.Grp 2 Re.D)) p' (<[1%nat := Str.take (Re.idx p' - 0) s]> c')
           (fun p3 c3 => Re.run Re.Eos p3 c3 K)).
Proof. reflexivity. Qed.

(** The pattern matches exactly the texts with the two fields, and its
    groups hold them. *)
Lemma speed_pattern_spec s :
  Re.match_ RE_SPEED s = speed_groups <$> speed_fields s.
Proof.
  unfold speed_fields.
  destruct (span_digits_spec s) as (Hs & Hall & Hrest).
  destruct (Py.span_digits s) as [ds rest]. simpl in Hs, Hall, Hrest. subst s.
  unfold Re.match_, Re.at_pos. rewrite speed_pattern_run.
  destruct ds as [|a ds].
  - rewrite run_plus_cls_fails by exact Hrest. reflexivity.
  - rewrite run_plus_cls; [| exact Hrest | | exact Hall].
    2:{ intros pr i b t Hb. apply speed_tail_fails_on_digit. exact Hb. }
    destruct (after_pos None 0 (String a ds) rest) as [pr' ->].
    cbn [Re.idx plus]. rewrite Nat.sub_0_r, take_app.
    unfold Re.opt, Re.D.
    destruct rest as [|c [|n [|m t]]]; simpl in Hrest; simpl.
    + reflexivity.
    + rewrite Hrest. simpl. rewrite Nat.sub_succ_l, Nat.sub_diag by lia. reflexivity.
    + rewrite Hrest. simpl. rewrite Nat.sub_succ_l, Nat.sub_diag by lia.
      destruct (Ascii.eqb n Str.nl); reflexivity.
    + rewrite Hrest. simpl. reflexivity.
Qed.

Lemma rstrip_digits ds :
  Str.all_chars Str.is_digit ds = true -> Str.rstrip ds = ds.
Proof.
  induction ds as [|a ds IH]; simpl; [reflexivity|].
  intros H. apply andb_true_iff in H. destruct H as [Ha Hall].
  rewrite (IH Hall). destruct (digit_props a Ha) as (Hsp & _).
  destruct ds; [rewrite Hsp|]; reflexivity.
Qed.

Lemma strip_digits ds :
  Str.all_chars Str.is_digit ds = true -> Str.strip ds = ds.
Proof.
  intros H. unfold Str.strip.
  assert (Str.lstrip ds = ds) as ->.
  { destruct ds as [|a ds]; [reflexivity|]. simpl in *.
    apply andb_true_iff in H. destruct H as [Ha _].
    destruct (digit_props a Ha) as (-> & _). reflexivity. }
  apply rstrip_digits, H.
Qed.

(** [int] of a non-empty run of digits is its decimal value. *)
Lemma int_digits a ds :
  Str.all_chars Str.is_digit (String a ds) = true ->
  Py.int (VStr (String a ds)) = Ok (Str.digits_value 0 (String a ds)).
Proof.
  intros H. unfold Py.int, Py.int_of_string. rewrite (strip_digits _ H).
  assert (Ha : Str.is_digit a = true)
    by (simpl in H; apply andb_true_iff in H; apply H).
  assert (Hbody : (match String a ds with
                   | String "-" t => (true, t)
                   | String "+" t => (false, t)
                   | _ => (false, String a ds)
                   end) = (false, String a ds)).
  { apply is_digit_cases in Ha.
    repeat (apply elem_of_cons in Ha; destruct Ha as [->|Ha]; [reflexivity|]).
    inversion Ha. }
  rewrite Hbody. rewrite H. reflexivity.
Qed.

(** The parser, with the pattern resolved into the fields it finds. *)
Lemma parse_mm_speed_fields s :
  _parse_mm_speed (VStr s) =
  match speed_fields s with
  | None => Ok 0
  | Some (ds, u) =>
      n ← Py.int (VStr ds);
      factor ← Py.getitem (VDict factormap) (default EmptyString u);
      product ← int_times n factor;
      Py.int product
  end.
Proof.
  unfold _parse_mm_speed. simpl. rewrite speed_pattern_spec.
  destruct (speed_fields s) as [[ds [u|]]|]; reflexivity.
Qed.

Lemma speed_fields_shaped s :
  is_Some (speed_fields s) <-> speed_shaped s.
Proof.
  split.
  - unfold speed_fields.
    destruct (span_digits_spec s) as (Hs & Hall & Hrest).
    destruct (Py.span_digits s) as [ds rest]. simpl in Hs, Hall, Hrest.
    destruct ds as [|a ds]; [intros [x Hx]; discriminate Hx|].
    intros Hsome. exists (String a ds), rest.
    split; [exact Hs|]. split; [discriminate|]. split; [exact Hall|].
    destruct rest as [|c [|n [|m t]]]; simpl in Hrest.
    + left. reflexivity.
    + right. exists c. split; [exact Hrest|]. left. reflexivity.
    + right. exists c. split; [exact Hrest|]. right.
      destruct (Ascii.eqb n Str.nl) eqn:E; [|destruct Hsome as [x Hx]; discriminate Hx].
      apply Ascii.eqb_eq in E. subst n. reflexivity.
    + destruct Hsome as [x Hx]. discriminate Hx.
  - intros (ds & u & -> & Hne & Hall & Hu). unfold speed_fields.
    rewrite span_digits_app; [|exact Hall|].
    + destruct ds as [|a ds]; [contradiction|].
      destruct Hu as [->|(c & Hc & [->| ->])]; try (eexists; reflexivity).
    + destruct Hu as [->|(c & Hc & [->| ->])]; simpl; auto.
Qed.
Lemma factormap_items :
  Py.getitem (VDict factormap) "M" = Ok (VInt 1)
  /\ Py.getitem (VDict factormap) "G" = Ok (VInt 1000)
  /\ Py.getitem (VDict factormap) "T" = Ok (VInt 1000000)
  /\ Py.getitem (VDict factormap) "k" = Ok (VFloat (Float.of_decimal false 1 (-3)))
  /\ Py.getitem (VDict factormap) "" = Ok (VFloat (Float.of_decimal false 1 (-6))).
Proof. repeat split; vm_compute; reflexivity. Qed.

Lemma append_empty s : (s ++ "")%string = s.
Proof.
  induction s as [|a s IH]; [reflexivity|].
  change (String a (s ++ "")%string = String a s). rewrite IH. reflexivity.
Qed.

Lemma parse_mm_speed_units a ds :
  Str.all_chars Str.is_digit (String a ds) = true ->
  let n := Str.digits_value 0 (String a ds) in
  _parse_mm_speed (VStr (String a ds ++ "M")) = Ok n
  /\ _parse_mm_speed (VStr (String a ds ++ "G")) = Ok (n * 1000)
  /\ _parse_mm_speed (VStr (String a ds ++ "T")) = Ok (n * 1000000)
  /\ _parse_mm_speed (VStr (String a ds ++ "k"))
     = (x ← Float.of_int n;
        Float.trunc (Float.mul x (Float.of_decimal false 1 (-3))))
  /\ _parse_mm_speed (VStr (String a ds))
     = (x ← Float.of_int n;
        Float.trunc (Float.mul x (Float.of_decimal false 1 (-6)))).
Proof.
  intros H n.
  assert (Hf : forall u, head_fails Str.is_digit u ->
             Py.span_digits (String a ds ++ u) = (String a ds, u))
    by (intros u Hu; apply span_digits_app; assumption).
  destruct factormap_items as (HM & HG & HT & Hk & H0).
  repeat split; rewrite parse_mm_speed_fields; unfold speed_fields.
  - rewrite Hf by reflexivity. cbv beta iota zeta.
    rewrite (int_digits _ _ H). cbn [mbind result_bind default from_option id].
    rewrite HM. cbn [mbind result_bind int_times Py.int]. fold n.
    rewrite Z.mul_1_r. reflexivity.
  - rewrite Hf by reflexivity. cbv beta iota zeta.
    rewrite (int_digits _ _ H). cbn [mbind result_bind default from_option id].
    rewrite HG. reflexivity.
  - rewrite Hf by reflexivity. cbv beta iota zeta.
    rewrite (int_digits _ _ H). cbn [mbind result_bind default from_option id].
    rewrite HT. reflexivity.
  - rewrite Hf by reflexivity. cbv beta iota zeta.
    rewrite (int_digits _ _ H). cbn [mbind result_bind default from_option id].
    rewrite Hk. cbn [mbind result_bind int_times Py.int]. fold n.
    destruct (Float.of_int n); reflexivity.
  - rewrite <- (append_empty (String a ds)) at 1.
    rewrite Hf by exact I. cbv beta iota zeta.
    rewrite (int_digits _ _ H). cbn [mbind result_bind default from_option id].
    rewrite H0. cbn [mbind result_bind int_times Py.int]. fold n.
    destruct (Float.of_int n); reflexivity.
Qed.

(** ** get_interfaces: the speed *)

Lemma speed_pattern_fails s :
  Re.match_ RE_SPEED s = None <-> ~ speed_shaped s.
Proof.
  rewrite speed_pattern_spec, <- speed_fields_shaped.
  destruct (speed_fields s) as [x|]; simpl; split.
  - discriminate.
  - intros H. destruct H. eexists. reflexivity.
  - intros _ [x Hx]. discriminate Hx.
  - reflexivity.
Qed.

Lemma parse_mm_speed_unshaped s :
  ~ speed_shaped s -> _parse_mm_speed (VStr s) = Ok 0.
Proof.
  intros H. rewrite parse_mm_speed_fields.
  destruct (speed_fields s) as [x|] eqn:E; [|reflexivity].
  destruct H. apply speed_fields_shaped. rewrite E. eexists. reflexivity.
Qed.

(** The scale of each unit, as the table has it. *)
Lemma factormap_table :
  factormap !! "" = Some (VFloat (S754_finite false 4722366482869645 (-72)))
  /\ factormap !! "k" = Some (VFloat (S754_finite false 4611686018427388 (-62)))
  /\ factormap !! "M" = Some (VInt 1)
  /\ factormap !! "G" = Some (VInt 1000)
  /\ factormap !! "T" = Some (VInt 1000000)
  /\ factormap !! "X" = None.
Proof. repeat split; vm_compute; reflexivity. Qed.

(** A unit outside the table is no parse failure: the lookup raises. *)
Lemma parse_mm_speed_unknown_unit :
  _parse_mm_speed (VStr "10X") = Raise (KeyError "X").
Proof. vm_compute. reflexivity. Qed.

(** C4 (counterexample): the speed string "100" does not map to 100. *)
Lemma parse_mm_speed_100_is_not_100 :
  _parse_mm_speed (VStr "100") <> Ok 100.
Proof. vm_compute. intros H. discriminate H. Qed.

(** C4 (amended): the speed strings "0", "100", "1k", "10G", "1T" map to
    0, 0, 0, 10000, 1000000.  Digits with the unit M, G or T map to their
    value times 1, 1000, 1000000; digits alone and digits with the unit k
    map to the float product of their value with 1e-6 and 1e-3, cut to an
    integer.  Every string that the pattern does not match maps to 0, and
    these are the strings that are not digits followed by at most one
    further character that is no digit (a final newline apart). *)
Theorem parse_mm_speed_scales_and_truncates :
  _parse_mm_speed <$> [VStr "0"; VStr "100"; VStr "1k"; VStr "10G"; VStr "1T"]
    = [Ok 0; Ok 0; Ok 0; Ok 10000; Ok 1000000]
  /\ (forall a ds,
        Str.all_chars Str.is_digit (String a ds) = true ->
        let n := Str.digits_value 0 (String a ds) in
        _parse_mm_speed (VStr (String a ds ++ "M")) = Ok n
        /\ _parse_mm_speed (VStr (String a ds ++ "G")) = Ok (n * 1000)
        /\ _parse_mm_speed (VStr (String a ds ++ "T")) = Ok (n * 1000000)
        /\ _parse_mm_speed (VStr (String a ds ++ "k"))
           = (x ← Float.of_int n;
              Float.trunc (Float.mul x (Float.of_decimal false 1 (-3))))
        /\ _parse_mm_speed (VStr (String a ds))
           = (x ← Float.of_int n;
              Float.trunc (Float.mul x (Float.of_decimal false 1 (-6)))))
  /\ (forall s, Re.match_ RE_SPEED s = None -> _parse_mm_speed (VStr s) = Ok 0)
  /\ (forall s, Re.match_ RE_SPEED s = None <-> ~ speed_shaped s).
Proof.
  split; [vm_compute; reflexivity|].
  split; [exact parse_mm_speed_units|].
  split; [|exact speed_pattern_fails].
  intros s H. apply parse_mm_speed_unshaped, speed_pattern_fails, H.
Qed.

(** Texts that are no speed: the empty one, one that does not start with a
    digit, one with more than a unit after the digits; and a speed in
    Gbit/s with many digits. *)
Lemma parse_mm_speed_samples :
  _parse_mm_speed (VStr "") = Ok 0
  /\ _parse_mm_speed (VStr "fast") = Ok 0
  /\ _parse_mm_speed (VStr "10 Gbps") = Ok 0
  /\ _parse_mm_speed (VStr "400G") = Ok 400000.
Proof.
  destruct parse_mm_speed_scales_and_truncates as (_ & Hunits & Hnone & _).
  split; [apply Hnone; vm_compute; reflexivity|].
  split; [apply Hnone; vm_compute; reflexivity|].
  split; [apply Hnone; vm_compute; reflexivity|].
  destruct (Hunits "4"%char "00" eq_refl) as (_ & HG & _). exact HG.
Defined.

(** ** get_arp_table *)

Lemma get_arp_table_failure str_of helpers_mac helpers_ip dev e :
  (r ← run_commands dev (cmds ["show arp"]) EncJson;
   r0 ← Py.index r 0; Py.getitem r0 "output") = Raise e ->
  get_arp_table str_of helpers_mac helpers_ip dev = Raise (NameError "pyeapi").
Proof. intros H. unfold get_arp_table. rewrite H. reflexivity. Qed.

(** A line that the pattern does not match adds nothing. *)
Lemma arp_line_no_match str_of helpers_mac helpers_ip arp_table line :
  Re.match_ _RE_ARP line = None ->
  arp_line str_of helpers_mac helpers_ip arp_table line = Ok arp_table.
Proof. intros H. unfold arp_line. rewrite H. reflexivity. Qed.

(** The sample line gives interface eth3, address 10.0.0.1, the MAC as
    [helpers_mac] renders AA:BB:CC:DD:EE:FF, and age 0.0. *)
Lemma arp_line_sample str_of helpers_mac helpers_ip arp_table m i :
  helpers_mac (VStr "AA:BB:CC:DD:EE:FF") = Ok m ->
  helpers_ip "10.0.0.1" = Ok i ->
  arp_line str_of helpers_mac helpers_ip arp_table
           "10.0.0.1  ether  AA:BB:CC:DD:EE:FF  C  eth3"
  = Ok (arp_table ++ [ArpEntry "eth3" m i Float.zero])%list.
Proof.
  intros Hm Hi. unfold arp_line.
  replace (Re.match_ _RE_ARP "10.0.0.1  ether  AA:BB:CC:DD:EE:FF  C  eth3")
    with (Some (<[1%nat := "10.0.0.1"]> (<[2%nat := "AA:BB:CC:DD:EE:FF"]>
               (<[3%nat := "EE:"]> (<[4%nat := "FF"]> (<[5%nat := "eth3"]>
               (∅ : gmap nat string)))))))
    by (vm_compute; reflexivity).
  change (Re.group _ 5) with (Some "eth3").
  change (Re.group _ 2) with (Some "AA:BB:CC:DD:EE:FF").
  change (Re.group _ 1) with (Some "10.0.0.1").
  simpl. rewrite Hm. simpl. rewrite Hi. reflexivity.
Qed.

(** Every entry of a returned table has age 0.0. *)
Lemma get_arp_table_age str_of helpers_mac helpers_ip dev table :
  get_arp_table str_of helpers_mac helpers_ip dev = Ok table ->
  forall entry, entry ∈ table -> arp_age entry = Float.zero.
Proof.
  unfold get_arp_table.
  destruct (_ ≫= _) as [output|e]; [|rewrite except_pyeapi_CommandError_raises; discriminate].
  intros H. apply bind_Ok in H. destruct H as (text & _ & H).
  refine (foldM_invariant
            (fun t : list arp_entry => forall entry, entry ∈ t -> arp_age entry = Float.zero)
            _ _ _ _ _ _ H).
  - intros s line s' _ Hs Hline. unfold arp_line in Hline.
    destruct (Re.match_ _RE_ARP line); [|inversion Hline; subst; exact Hs].
    inv_bind. intros entry Hin. apply elem_of_app in Hin.
    destruct Hin as [Hin|Hin]; [apply Hs, Hin|].
    apply list_elem_of_singleton in Hin. subst. reflexivity.
  - intros entry Hin. inversion Hin.
Qed.

(** C6 (code at the failing input): on a switch that refuses show arp,
    get_arp_table raises NameError for the name pyeapi; it does not return
    the empty list. *)
Theorem get_arp_table_rejected_raises_NameError :
  get_arp_table Samples.str_of Samples.helpers_mac Samples.helpers_ip Samples.rejecting
  = Raise (NameError "pyeapi").
Proof. reflexivity. Qed.

(** ** get_lldp_neighbors *)

Lemma payload_row_fields (p d n : string) :
  Py.getitem (lldp_payload_row (p, d, n)) "Neighbor_Device" = Ok (VStr d)
  /\ Py.getitem (lldp_payload_row (p, d, n)) "Neighbor_Port" = Ok (VStr n)
  /\ Py.getitem (lldp_payload_row (p, d, n)) "Port" = Ok (VStr p).
Proof. repeat split; vm_compute; reflexivity. Qed.

(** The body of the loop on a row of the table: an entry is appended for
    the row's port when both neighbour fields are non-empty, and nothing
    changes otherwise. *)
Lemma lldp_row_payload lldp (p d n : string) :
  lldp_row lldp (lldp_payload_row (p, d, n))
  = Ok (if bool_decide (d <> "" /\ n <> "")
        then <[p := (default [] (lldp !! p) ++ [LldpNeighbor (VStr d) (VStr n)])%list]> lldp
        else lldp).
Proof.
  unfold lldp_row.
  destruct (payload_row_fields p d n) as (Hd & Hn & Hp).
  rewrite Hd, Hn, Hp.
  destruct d as [|a d].
  { rewrite bool_decide_eq_false_2; [reflexivity|]. intros [H _]. apply H. reflexivity. }
  destruct n as [|b n].
  { rewrite bool_decide_eq_false_2; [reflexivity|]. intros [_ H]. apply H. reflexivity. }
  rewrite bool_decide_eq_true_2 by done.
  simpl.
  destruct (lldp !! p) as [l|] eqn:E.
  - rewrite E. reflexivity.
  - rewrite lookup_insert_eq. rewrite insert_insert_eq. reflexivity.
Qed.

Lemma named_neighbors_cons_kept p d n rows :
  d <> "" -> n <> "" ->
  named_neighbors ((p, d, n) :: rows) p
  = LldpNeighbor (VStr d) (VStr n) :: named_neighbors rows p.
Proof.
  intros Hd Hn. unfold named_neighbors.
  rewrite filter_cons_True by done. reflexivity.
Qed.

Lemma named_neighbors_cons_other p q d n rows :
  q <> p \/ d = "" \/ n = "" ->
  named_neighbors ((q, d, n) :: rows) p = named_neighbors rows p.
Proof.
  intros H. unfold named_neighbors.
  rewrite filter_cons_False; [reflexivity|].
  simpl. intros (Hq & Hd & Hn). destruct H as [H|[H|H]]; contradiction.
Qed.

(** The loop over a table, from any map [acc]: every port ends with what it
    had, followed by the entries of its rows that name a neighbour. *)
Lemma lldp_loop rows :
  forall acc, exists res,
    foldM lldp_row acc (lldp_payload_row <$> rows) = Ok res
    /\ forall p, res !! p =
         match acc !! p, named_neighbors rows p with
         | None, [] => None
         | o, l => Some (default [] o ++ l)%list
         end.
Proof.
  induction rows as [|[[q d] n] rows IH]; intros acc.
  - exists acc. split; [reflexivity|]. intros p.
    change (named_neighbors [] p) with (@nil lldp_neighbor).
    destruct (acc !! p); [rewrite app_nil_r|]; reflexivity.
  - rewrite fmap_cons. cbn [foldM]. rewrite lldp_row_payload. simpl.
    case_bool_decide as Hk.
    + destruct Hk as [Hd Hn].
      destruct (IH (<[q := (default [] (acc !! q)
                            ++ [LldpNeighbor (VStr d) (VStr n)])%list]> acc))
        as (res & Hres & Hlook).
      exists res. split; [exact Hres|]. intros p. rewrite Hlook.
      destruct (decide (q = p)) as [->|Hne].
      * rewrite lookup_insert_eq, named_neighbors_cons_kept by done.
        destruct (acc !! p); simpl; rewrite <- ?app_assoc; reflexivity.
      * rewrite lookup_insert_ne by done.
        rewrite (named_neighbors_cons_other p q) by (left; exact Hne).
        reflexivity.
    + destruct (IH acc) as (res & Hres & Hlook).
      exists res. split; [exact Hres|]. intros p. rewrite Hlook.
      rewrite (named_neighbors_cons_other p q); [reflexivity|].
      destruct (decide (d = "")) as [->|Hd]; [right; left; reflexivity|].
      destruct (decide (n = "")) as [->|Hn]; [right; right; reflexivity|].
      exfalso. apply Hk. split; assumption.
Qed.

(** C8: get_lldp_neighbors keeps, port by port and in the order of the
    table, exactly the rows whose neighbour device and neighbour port are
    both non-empty; a port all of whose rows are dropped is no key of the
    output; and on the rows [("e1","A","p1"), ("e2","","")] the output has
    exactly one key, "e1". *)
Theorem get_lldp_neighbors_drops_unnamed_rows dev rows more :
  run_commands dev (cmds ["show lldp neighbor"]) EncJson
    = Ok (response (VList (lldp_payload_row <$> rows)) :: more) ->
  exists lldp,
    get_lldp_neighbors dev = Ok lldp
    /\ (forall p, lldp !! p =
          match named_neighbors rows p with
          | [] => None
          | l => Some l
          end)
    /\ (forall p, p ∈ dom lldp <->
          exists d n, (p, d, n) ∈ rows /\ d <> "" /\ n <> "")
    /\ (rows = [("e1", "A", "p1"); ("e2", "", "")] -> dom lldp = {["e1"]}).
Proof.
  intros Hrun.
  destruct (lldp_loop rows ∅) as (lldp & Hloop & Hlook).
  assert (Hget : get_lldp_neighbors dev = Ok lldp).
  { unfold get_lldp_neighbors. rewrite Hrun. exact Hloop. }
  assert (Hlook' : forall p, lldp !! p =
            match named_neighbors rows p with [] => None | l => Some l end).
  { intros p. rewrite Hlook, lookup_empty. destruct (named_neighbors rows p); reflexivity. }
  assert (Hdom : forall p, p ∈ dom lldp <->
            exists d n, (p, d, n) ∈ rows /\ d <> "" /\ n <> "").
  { intros p. rewrite elem_of_dom, Hlook'. unfold named_neighbors. split.
    - intros Hsome.
      destruct (filter _ rows) as [|[[q d] n] l] eqn:E.
      { destruct Hsome as [x Hx]. discriminate Hx. }
      assert (Hin : (q, d, n) ∈ filter (fun r : string * string * string =>
                       r.1.1 = p /\ r.1.2 <> "" /\ r.2 <> "") rows)
        by (rewrite E; left).
      apply list_elem_of_filter in Hin. destruct Hin as [(Hq & Hd & Hn) Hin].
      simpl in Hq, Hd, Hn. subst q. exists d, n. auto.
    - intros (d & n & Hin & Hd & Hn).
      assert (Hf : (p, d, n) ∈ filter (fun r : string * string * string =>
                       r.1.1 = p /\ r.1.2 <> "" /\ r.2 <> "") rows)
        by (apply list_elem_of_filter; auto).
      destruct (filter _ rows) as [|r l]; [inversion Hf|].
      simpl. eexists. reflexivity. }
  exists lldp. split; [exact Hget|]. split; [exact Hlook'|]. split; [exact Hdom|].
  intros ->. apply set_eq. intros p. rewrite Hdom, elem_of_singleton. split.
  - intros (d & n & Hin & Hd & Hn).
    apply elem_of_cons in Hin. destruct Hin as [Hin|Hin]; [congruence|].
    apply list_elem_of_singleton in Hin. congruence.
  - intros ->. exists "A", "p1". split; [left|done].
Qed.

(** The sample table, on a switch that answers with it. *)
Lemma get_lldp_neighbors_sample :
  exists lldp,
    get_lldp_neighbors
      (Samples.answering (VList (lldp_payload_row <$> [("e1", "A", "p1"); ("e2", "", "")])))
      = Ok lldp
    /\ dom lldp = {["e1"]}
    /\ lldp !! "e1" = Some [LldpNeighbor (VStr "A") (VStr "p1")].
Proof.
  destruct (get_lldp_neighbors_drops_unnamed_rows
              (Samples.answering (VList (lldp_payload_row <$> [("e1", "A", "p1"); ("e2", "", "")])))
              [("e1", "A", "p1"); ("e2", "", "")] [] eq_refl)
    as (lldp & Hget & Hlook & _ & Hdom).
  exists lldp. split; [exact Hget|]. split; [apply Hdom; reflexivity|].
  rewrite Hlook. reflexivity.
Defined.

(** ** Loops that fill a dict from the items of a dict *)

Section FillLoop.
Context {V R : Type} (f : string -> V -> result R).

(** Every entry of the result was there at the start or is the row
    computed from an item of that key. *)
Lemma fill_loop_lookup rows : forall acc res,
  foldM (fill_step f) acc rows = Ok res ->
  forall k r, res !! k = Some r ->
    acc !! k = Some r \/ exists v, (k, v) ∈ rows /\ f k v = Ok r.
Proof.
  induction rows as [|[k0 v0] rows IH]; intros acc res Hrun k r Hk.
  - inversion Hrun. subst. left. exact Hk.
  - simpl in Hrun. apply bind_Ok in Hrun. destruct Hrun as (acc' & Hstep & Hrest).
    unfold fill_step in Hstep. simpl in Hstep.
    apply bind_Ok in Hstep. destruct Hstep as (row & Hrow & Hacc').
    inversion Hacc'. subst acc'. clear Hacc'.
    destruct (IH _ _ Hrest k r Hk) as [Hin|(v & Hin & Hv)].
    + destruct (decide (k0 = k)) as [->|Hne].
      * rewrite lookup_insert_eq in Hin. inversion Hin. subst row.
        right. exists v0. split; [left | exact Hrow].
      * rewrite lookup_insert_ne in Hin by done. left. exact Hin.
    + right. exists v. split; [right; exact Hin | exact Hv].
Qed.

(** The keys of the result are those at the start and those of the items. *)
Lemma fill_loop_keys rows : forall acc res,
  foldM (fill_step f) acc rows = Ok res ->
  forall k, is_Some (res !! k) <-> is_Some (acc !! k) \/ exists v, (k, v) ∈ rows.
Proof.
  induction rows as [|[k0 v0] rows IH]; intros acc res Hrun k.
  - inversion Hrun. subst. split; [intros H; left; exact H|].
    intros [H|(v & H)]; [exact H | inversion H].
  - simpl in Hrun. apply bind_Ok in Hrun. destruct Hrun as (acc' & Hstep & Hrest).
    unfold fill_step in Hstep. simpl in Hstep.
    apply bind_Ok in Hstep. destruct Hstep as (row & Hrow & Hacc').
    inversion Hacc'. subst acc'. clear Hacc'.
    rewrite (IH _ _ Hrest k). rewrite lookup_insert_is_Some. split.
    + intros [[->|[_ H]]|(v & H)].
      * right. exists v0. left.
      * left. exact H.
      * right. exists v. right. exact H.
    + intros [H|(v & H)].
      * left. destruct (decide (k0 = k)); [left; assumption | right; split; assumption].
      * apply elem_of_cons in H. destruct H as [H|H].
        -- inversion H. subst. left. left. reflexivity.
        -- right. exists v. exact H.
Qed.
End FillLoop.

(** ** Text: prefixes and occurrences *)

Lemma startswith_spec s p :
  Str.startswith s p = true <-> exists t, s = (p ++ t)%string.
Proof.
  unfold Str.startswith. revert s.
  induction p as [|a p IH]; intros s; simpl.
  - split; [intros _; exists s; reflexivity | intros _; destruct s; reflexivity].
  - destruct s as [|b s]; simpl.
    + split; [discriminate | intros (t & H); discriminate H].
    + destruct (Ascii.ascii_dec a b) as [->|Hne].
      * rewrite IH. split; intros (t & H); exists t.
        -- rewrite H. reflexivity.
        -- inversion H. reflexivity.
      * split; [discriminate|]. intros (t & H). inversion H. congruence.
Qed.

Lemma contains_unfold sub s :
  Str.contains sub s =
  String.prefix sub s
  || match s with
     | EmptyString => false
     | String _ t => Str.contains sub t
     end.
Proof. destruct s; reflexivity. Qed.

Lemma contains_spec sub s :
  Str.contains sub s = true <-> exists a b, s = (a ++ sub ++ b)%string.
Proof.
  split.
  - induction s as [|c s IH]; rewrite contains_unfold; intros H;
      apply orb_true_iff in H; destruct H as [H|H].
    + apply (startswith_spec "" sub) in H. destruct H as (t & H).
      exists "", t. exact H.
    + discriminate H.
    + apply (startswith_spec (String c s) sub) in H. destruct H as (t & H).
      exists "", t. exact H.
    + destruct (IH H) as (a & b & ->). exists (String c a), b. reflexivity.
  - intros (a & b & ->). induction a as [|c a IH].
    + rewrite contains_unfold. apply orb_true_iff. left.
      apply (startswith_spec (sub ++ b) sub). exists b. reflexivity.
    + rewrite contains_unfold. apply orb_true_iff. right. exact IH.
Qed.

(** ** get_interfaces: is_up and is_enabled *)

Lemma text_Ok meth v t : Py.text meth v = Ok t -> v = VStr t.
Proof. destruct v; simpl; intros H; inversion H. reflexivity. Qed.

Lemma re_subject_Ok v t : re_subject v = Ok t -> v = VStr t.
Proof. destruct v; simpl; intros H; inversion H. reflexivity. Qed.

Lemma items_Ok v kv : Py.items v = Ok kv -> exists d, v = VDict d /\ kv = map_to_list d.
Proof. destruct v; simpl; intros H; inversion H. eexists. split; reflexivity. Qed.

(** The two flags of a row, read off the body of the loop. *)
Lemma interface_row_flags descriptions name values info :
  interface_row descriptions name values = Ok info ->
  exists rx,
    Py.getitem values "rx" = Ok (VStr rx)
    /\ is_up info = Str.startswith rx "up"
    /\ is_enabled info = Str.startswith rx "up" || negb (Str.contains "shutdown" rx).
Proof.
  unfold interface_row. intros H.
  apply bind_Ok in H. destruct H as (rx & Hrx & H).
  apply bind_Ok in H. destruct H as (up & Hup & H).
  apply text_Ok in Hup. subst rx. exists up. split; [exact Hrx|].
  apply bind_Ok in H. destruct H as (flags & Hflags & H).
  apply bind_Ok in H. destruct H as (sp & _ & H).
  apply bind_Ok in H. destruct H as (speed & _ & H).
  inversion H. subst info. clear H. simpl.
  destruct (Str.startswith up "up").
  - inversion Hflags. subst flags. split; reflexivity.
  - rewrite Hrx in Hflags. simpl in Hflags.
    destruct (Str.contains "shutdown" up); inversion Hflags; subst flags;
      split; reflexivity.
Qed.

(** C7: for every interface of the status payload that get_interfaces
    returns, is_up is true exactly when the text of the field "rx" starts
    with "up"; in that case is_enabled is true as well; and is_enabled is
    false exactly when that text does not start with "up" and holds
    "shutdown".  The interfaces returned are those of the payload. *)
Theorem get_interfaces_flags dev output rows res :
  run_commands dev (cmds ["show interfaces status"; "show interfaces description"]) EncJson
    = Ok output ->
  (r ← Py.index output 0; o ← Py.getitem r "output"; Py.getitem o "interfaces")
    = Ok (VDict rows) ->
  get_interfaces dev = Ok res ->
  (forall name, is_Some (res !! name) <-> is_Some (rows !! name))
  /\ forall name info, res !! name = Some info ->
       exists values rx,
         rows !! name = Some values
         /\ Py.getitem values "rx" = Ok (VStr rx)
         /\ (is_up info = true <-> exists t, rx = ("up" ++ t)%string)
         /\ ((exists t, rx = ("up" ++ t)%string) -> is_enabled info = true)
         /\ (is_enabled info = false <->
               ~ (exists t, rx = ("up" ++ t)%string)
               /\ exists a b, rx = (a ++ "shutdown" ++ b)%string).
Proof.
  intros Hrun Hrows Hget. unfold get_interfaces in Hget.
  rewrite Hrun in Hget. simpl in Hget.
  apply bind_Ok in Hget. destruct Hget as (descriptions & _ & Hget).
  apply bind_Ok in Hget. destruct Hget as (items & Hitems & Hloop).
  assert (items = map_to_list rows) as ->.
  { apply bind_Ok in Hrows. destruct Hrows as (r & Hr & Hrows).
    apply bind_Ok in Hrows. destruct Hrows as (o & Ho & Hi).
    rewrite Hr in Hitems. simpl in Hitems. rewrite Ho in Hitems. simpl in Hitems.
    rewrite Hi in Hitems. simpl in Hitems. inversion Hitems. reflexivity. }
  split.
  - intros name. rewrite (fill_loop_keys _ _ _ _ Hloop name), lookup_empty.
    split.
    + intros [H|(v & H)]; [destruct H as [x Hx]; discriminate Hx|].
      apply elem_of_map_to_list in H. eexists. exact H.
    + intros [v H]. right. exists v. apply elem_of_map_to_list. exact H.
  - intros name info Hinfo.
    destruct (fill_loop_lookup _ _ _ _ Hloop name info Hinfo) as [H|(values & Hin & Hrow)].
    { rewrite lookup_empty in H. discriminate H. }
    apply elem_of_map_to_list in Hin.
    destruct (interface_row_flags _ _ _ _ Hrow) as (rx & Hrx & Hup & Hen).
    exists values, rx. split; [exact Hin|]. split; [exact Hrx|].
    rewrite Hup, Hen. rewrite <- (startswith_spec rx "up").
    rewrite <- (contains_spec "shutdown" rx).
    destruct (Str.startswith rx "up"), (Str.contains "shutdown" rx); simpl;
      intuition congruence.
Qed.

(** The sample switch: et1 receives, et2 is shut down, et3 is down. *)
Lemma get_interfaces_flags_sample :
  exists res,
    get_interfaces Samples.interfaces_device = Ok res
    /\ (is_up <$> res) !! "et1" = Some true
    /\ (is_enabled <$> res) !! "et1" = Some true
    /\ (is_up <$> res) !! "et2" = Some false
    /\ (is_enabled <$> res) !! "et2" = Some false
    /\ (is_up <$> res) !! "et3" = Some false
    /\ (is_enabled <$> res) !! "et3" = Some true
    /\ (forall name, is_Some (res !! name) <-> is_Some (Samples.status_payload !! name)).
Proof.
  pose (res :=
    <["et1" := InterfaceInfo true true (VStr "uplink") Float.zero 10000 ""]>
    (<["et2" := InterfaceInfo false false (VStr "") Float.zero 1000 ""]>
    (<["et3" := InterfaceInfo false true (VStr "") Float.zero 0 ""]>
     (∅ : gmap string interface_info)))).
  assert (E : get_interfaces Samples.interfaces_device = Ok res)
    by (vm_compute; reflexivity).
  exists res. split; [exact E|].
  destruct (get_interfaces_flags Samples.interfaces_device _ Samples.status_payload res
              eq_refl eq_refl E) as [Hkeys _].
  do 6 (split; [vm_compute; reflexivity|]).
  exact Hkeys.
Defined.

(** ** get_interfaces_counters: errors and discards *)

(** What the body of the loop puts into the error and discard counters. *)
Lemma counters_row_errors errorsdict name counters c :
  counters_row errorsdict name counters = Ok c ->
  (e ← Py.get errorsdict name (VDict ∅); t ← Py.get e "tx" (VInt (-1)); Py.int t)
    = Ok (tx_errors c)
  /\ tx_errors c = rx_errors c
  /\ tx_discards c = -1
  /\ rx_discards c = -1.
Proof.
  unfold counters_row. intros H.
  apply bind_Ok in H. destruct H as (tx & Htx & H).
  apply bind_Ok in H. destruct H as (rx & Hrx & H).
  rewrite Htx in Hrx. inversion Hrx. subst rx. clear Hrx.
  repeat (apply bind_Ok in H; destruct H as (? & _ & H)).
  inversion H. subst c. simpl. repeat split. exact Htx.
Qed.

(** C5: in every result of get_interfaces_counters, tx_errors and rx_errors
    of an interface are equal, both being the int of the field "tx" of the
    interface's entry in the errors payload; both are -1 for an interface
    that the errors payload lacks (and for one whose entry lacks "tx"); and
    tx_discards and rx_discards are -1. *)
Theorem get_interfaces_counters_errors dev output errors res :
  run_commands dev (cmds ["show interfaces counters"; "show interfaces counters errors"])
               EncJson = Ok output ->
  (r ← Py.index output 1; o ← Py.getitem r "output"; Py.getitem o "interfaces")
    = Ok (VDict errors) ->
  get_interfaces_counters dev = Ok res ->
  forall name c, res !! name = Some c ->
    tx_errors c = rx_errors c
    /\ tx_discards c = -1 /\ rx_discards c = -1
    /\ (errors !! name = None -> tx_errors c = -1 /\ rx_errors c = -1)
    /\ (forall e, errors !! name = Some (VDict e) -> e !! "tx" = None ->
          tx_errors c = -1 /\ rx_errors c = -1)
    /\ (forall e v, errors !! name = Some (VDict e) -> e !! "tx" = Some v ->
          Py.int v = Ok (tx_errors c) /\ Py.int v = Ok (rx_errors c)).
Proof.
  intros Hrun Herrors Hget name c Hc. unfold get_interfaces_counters in Hget.
  rewrite Hrun in Hget. simpl in Hget.
  apply bind_Ok in Hget. destruct Hget as (errorsdict & Hed & Hget).
  assert (errorsdict = VDict errors) as ->.
  { simpl in Herrors. rewrite Herrors in Hed. inversion Hed. reflexivity. }
  apply bind_Ok in Hget. destruct Hget as (items & _ & Hloop).
  destruct (fill_loop_lookup _ _ _ _ Hloop name c Hc) as [H|(counters & _ & Hrow)].
  { rewrite lookup_empty in H. discriminate H. }
  destruct (counters_row_errors _ _ _ _ Hrow) as (Htx & Heq & Htd & Hrd).
  split; [exact Heq|]. split; [exact Htd|]. split; [exact Hrd|].
  rewrite <- Heq. simpl in Htx.
  split; [|split].
  - intros Hnone. rewrite Hnone in Htx. simpl in Htx.
    rewrite lookup_empty in Htx. simpl in Htx. inversion Htx. split; reflexivity.
  - intros e He Hnone. rewrite He in Htx. simpl in Htx.
    rewrite Hnone in Htx. simpl in Htx. inversion Htx. split; reflexivity.
  - intros e v He Hv. rewrite He in Htx. simpl in Htx.
    rewrite Hv in Htx. simpl in Htx. split; exact Htx.
Qed.

(** The sample switch: et1 has 5 transmit and 7 receive errors and both
    counters read 5; et2 is not in the errors payload and both read -1. *)
Lemma get_interfaces_counters_errors_sample :
  exists res c1 c2,
    get_interfaces_counters Samples.counters_device = Ok res
    /\ res !! "et1" = Some c1 /\ res !! "et2" = Some c2
    /\ (tx_errors c1 = 5 /\ rx_errors c1 = 5)
    /\ (tx_errors c2 = -1 /\ rx_errors c2 = -1)
    /\ tx_discards c1 = -1 /\ rx_discards c1 = -1.
Proof.
  pose (c1 := InterfaceCounters 5 5 (-1) (-1) 1200 3400 (-1) (-1) (-1) (-1) (-1) (-1)).
  pose (c2 := InterfaceCounters (-1) (-1) (-1) (-1) (-1) (-1) (-1) (-1) (-1) (-1) (-1) (-1)).
  pose (res := <["et1" := c1]> (<["et2" := c2]> (∅ : gmap string interface_counters))).
  assert (E : get_interfaces_counters Samples.counters_device = Ok res)
    by (vm_compute; reflexivity).
  assert (E1 : res !! "et1" = Some c1) by (vm_compute; reflexivity).
  assert (E2 : res !! "et2" = Some c2) by (vm_compute; reflexivity).
  exists res, c1, c2. split; [exact E|]. split; [exact E1|]. split; [exact E2|].
  pose proof (get_interfaces_counters_errors Samples.counters_device _
                Samples.errors_payload res eq_refl eq_refl E) as H.
  destruct (H "et1" c1 E1) as (Heq & Htd & Hrd & _ & _ & _).
  destruct (H "et2" c2 E2) as (_ & _ & _ & H2 & _).
  split; [split; reflexivity|]. split; [apply H2; vm_compute; reflexivity|].
  split; assumption.
Defined.

(** ** get_ntp_stats *)

(** The loop appends, in order, what each line gives. *)
Lemma ntp_loop str_of lines : forall acc,
  foldl (ntp_line str_of) acc lines = (acc ++ omap (ntp_entry str_of) lines)%list.
Proof.
  induction lines as [|line lines IH]; intros acc; simpl.
  - rewrite app_nil_r. reflexivity.
  - rewrite IH. unfold ntp_line.
    destruct (ntp_entry str_of line); [rewrite <- app_assoc|]; reflexivity.
Qed.

(** Building the dict of a line raises exactly when one of its six numeric
    conversions does. *)
Lemma ntp_record_raises str_of line_groups :
  let g i := group_value (default None (line_groups !! i)) in
  (exists e, ntp_record str_of line_groups = Raise e) <->
  ~ (returns (Py.int (g 3%nat)) /\ returns (Py.int (g 6%nat))
     /\ returns (Py.int (g 7%nat)) /\ returns (py_float (g 8%nat))
     /\ returns (py_float (g 9%nat)) /\ returns (py_float (g 10%nat))).
Proof.
  intros g. subst g. unfold ntp_record. cbv zeta beta.
  destruct (Py.int (group_value (default None (line_groups !! 3%nat)))) as [a3|e3]; simpl.
  2:{ split; [intros _ (H & _); destruct H as [x Hx]; discriminate Hx
             | intros _; eexists; reflexivity]. }
  destruct (Py.int (group_value (default None (line_groups !! 6%nat)))) as [a6|e6]; simpl.
  2:{ split; [intros _ (_ & H & _); destruct H as [x Hx]; discriminate Hx
             | intros _; eexists; reflexivity]. }
  destruct (Py.int (group_value (default None (line_groups !! 7%nat)))) as [a7|e7]; simpl.
  2:{ split; [intros _ (_ & _ & H & _); destruct H as [x Hx]; discriminate Hx
             | intros _; eexists; reflexivity]. }
  destruct (py_float (group_value (default None (line_groups !! 8%nat)))) as [a8|e8]; simpl.
  2:{ split; [intros _ (_ & _ & _ & H & _); destruct H as [x Hx]; discriminate Hx
             | intros _; eexists; reflexivity]. }
  destruct (py_float (group_value (default None (line_groups !! 9%nat)))) as [a9|e9]; simpl.
  2:{ split; [intros _ (_ & _ & _ & _ & H & _); destruct H as [x Hx]; discriminate Hx
             | intros _; eexists; reflexivity]. }
  destruct (py_float (group_value (default None (line_groups !! 10%nat)))) as [a10|e10]; simpl.
  2:{ split; [intros _ (_ & _ & _ & _ & _ & H); destruct H as [x Hx]; discriminate Hx
             | intros _; eexists; reflexivity]. }
  split.
  - intros [e He]. discriminate He.
  - intros H. exfalso. apply H. unfold returns. repeat split; eexists; reflexivity.
Qed.

(** A line gives no entry exactly when the pattern is not found in it or
    building its dict raises. *)
Lemma ntp_entry_None str_of line :
  ntp_entry str_of line = None <->
  Re.search RE_NTP line = None
  \/ exists m e, Re.search RE_NTP line = Some m
                 /\ ntp_record str_of (Re.groups 11 m) = Raise e.
Proof.
  unfold ntp_entry. destruct (Re.search RE_NTP line) as [m|].
  - destruct (ntp_record str_of (Re.groups 11 m)) as [entry|e] eqn:E; split.
    + discriminate.
    + intros [H|(m' & e & Hm & He)]; [discriminate H|].
      inversion Hm. subst m'. rewrite E in He. discriminate He.
    + intros _. right. exists m, e. split; [reflexivity | exact E].
    + reflexivity.
  - split; [intros _; left; reflexivity | reflexivity].
Qed.

(** The entry of a line is marked synchronized exactly when group 1 of the
    match, the sync marker, is "*". *)
Lemma ntp_entry_synchronized str_of line entry :
  ntp_entry str_of line = Some entry ->
  exists m, Re.search RE_NTP line = Some m
            /\ (synchronized entry = true <-> Re.group m 1 = Some "*").
Proof.
  unfold ntp_entry. destruct (Re.search RE_NTP line) as [m|]; [|discriminate].
  destruct (ntp_record str_of (Re.groups 11 m)) as [e|] eqn:E; [|discriminate].
  intros H. inversion H. subst e. clear H. exists m. split; [reflexivity|].
  unfold ntp_record in E.
  repeat (apply bind_Ok in E; destruct E as (? & _ & E)).
  inversion E. subst entry. clear E. simpl.
  change (Re.groups 11 m !! 0%nat) with (Some (m !! 1%nat)).
  unfold Re.group. rewrite bool_decide_eq_true. split; congruence.
Qed.

(** C9: get_ntp_stats does not fail on any text of the switch: it drops the
    first two lines and returns, in order, the entries of the other lines; a
    line in which the eleven-group pattern is not found, or one of whose
    numeric conversions raises, gives no entry and nothing else; and the
    entry of a line is synchronized exactly when its sync-marker group
    is "*". *)
Theorem get_ntp_stats_skips_bad_lines str_of dev r0 more text :
  run_commands dev (cmds ["show ntp associations"]) EncText = Ok (r0 :: more) ->
  Py.get r0 "output" (VStr blank_line) = Ok (VStr text) ->
  get_ntp_stats str_of dev
    = Ok (omap (ntp_entry str_of) (drop 2 (Str.splitlines text)))
  /\ (forall line,
        ntp_entry str_of line = None <->
        Re.search RE_NTP line = None
        \/ exists m e, Re.search RE_NTP line = Some m
                       /\ ntp_record str_of (Re.groups 11 m) = Raise e)
  /\ (forall line_groups,
        let g i := group_value (default None (line_groups !! i)) in
        (exists e, ntp_record str_of line_groups = Raise e) <->
        ~ (returns (Py.int (g 3%nat)) /\ returns (Py.int (g 6%nat))
           /\ returns (Py.int (g 7%nat)) /\ returns (py_float (g 8%nat))
           /\ returns (py_float (g 9%nat)) /\ returns (py_float (g 10%nat))))
  /\ (forall line entry,
        ntp_entry str_of line = Some entry ->
        exists m, Re.search RE_NTP line = Some m
                  /\ (synchronized entry = true <-> Re.group m 1 = Some "*")).
Proof.
  intros Hrun Hout.
  split; [|split; [apply ntp_entry_None | split;
                   [apply ntp_record_raises | apply ntp_entry_synchronized]]].
  unfold get_ntp_stats. rewrite Hrun. simpl. rewrite Hout. simpl.
  rewrite ntp_loop. reflexivity.
Qed.

(** The sample output: two header lines, a synchronized peer, a peer whose
    delay does not convert, a peer with no marker, and a short line. *)
Lemma get_ntp_stats_sample :
  get_ntp_stats Samples.str_of (Samples.answering (VStr Samples.ntp_text))
    = Ok (omap (ntp_entry Samples.str_of) (drop 2 (Str.splitlines Samples.ntp_text)))
  /\ (fun e => (remote e, synchronized e))
       <$> omap (ntp_entry Samples.str_of) (drop 2 (Str.splitlines Samples.ntp_text))
     = [("10.1.1.1", true); ("10.1.1.3", false)].
Proof.
  split.
  - apply (get_ntp_stats_skips_bad_lines Samples.str_of
             (Samples.answering (VStr Samples.ntp_text))
             (response (VStr Samples.ntp_text)) [] Samples.ntp_text);
      reflexivity.
  - vm_compute. reflexivity.
Defined.

(** ** get_lldp_neighbors_detail: the capabilities *)

(** The module does not bind [ast]. *)
Lemma ast_is_not_bound : Namespace.load_name "ast" = Raise (NameError "ast").
Proof. reflexivity. Qed.

(** Whatever the decoder would do with the text, the [try] ends in its
    handler and the capabilities are the empty dict. *)
Lemma capabilities_of_empty literal_eval info_dict :
  capabilities_of literal_eval info_dict = VDict ∅.
Proof. unfold capabilities_of. rewrite ast_is_not_bound. reflexivity. Qed.

Lemma neighbor_tlv_capab literal_eval interface neighbor_str t :
  neighbor_tlv literal_eval interface neighbor_str = Ok t ->
  remote_system_capab t = "" /\ remote_system_enabled_capab t = "".
Proof.
  unfold neighbor_tlv. intros H.
  apply bind_Ok in H. destruct H as (info_dict & _ & H).
  rewrite capabilities_of_empty in H. simpl in H.
  inversion H. split; reflexivity.
Qed.

(** C10: whatever text the switch returns and whatever the literal decoder
    would make of it, every neighbour record that get_lldp_neighbors_detail
    returns has empty remote_system_capab and remote_system_enabled_capab:
    the name ast is not bound, the lookup raises, and the bare except puts
    the empty dict in the decoder's place. *)
Theorem get_lldp_neighbors_detail_capabilities_empty literal_eval dev interface res :
  get_lldp_neighbors_detail literal_eval dev interface = Ok res ->
  forall port l t, res !! port = Some l -> t ∈ l ->
    remote_system_capab t = "" /\ remote_system_enabled_capab t = "".
Proof.
  unfold get_lldp_neighbors_detail. intros H.
  apply bind_Ok in H. destruct H as (r & _ & H).
  apply bind_Ok in H. destruct H as (neighbors_str & _ & H).
  pose (P := fun out : gmap string (list tlv) =>
               forall port l t, out !! port = Some l -> t ∈ l ->
                 remote_system_capab t = "" /\ remote_system_enabled_capab t = "").
  refine (foldM_invariant P _ _ _ _ _ _ H).
  - intros out [iface block] out' _ Hout Hstep. unfold lldp_detail_interface in Hstep.
    simpl in Hstep.
    refine (foldM_invariant P _ _ _ _ _ _ Hstep).
    + intros o neighbor_str o' _ Ho Hn. unfold lldp_detail_neighbor in Hn.
      apply bind_Ok in Hn. destruct Hn as (tlv_dict & Htlv & Hn).
      destruct (o !! iface) as [l0|] eqn:E; [|discriminate Hn].
      inversion Hn. subst o'. clear Hn.
      intros port l t Hl Ht.
      destruct (decide (iface = port)) as [->|Hne].
      * rewrite lookup_insert_eq in Hl. inversion Hl. subst l. clear Hl.
        apply elem_of_app in Ht. destruct Ht as [Ht|Ht].
        -- exact (Ho port l0 t E Ht).
        -- apply list_elem_of_singleton in Ht. subst t.
           exact (neighbor_tlv_capab _ _ _ _ Htlv).
      * rewrite lookup_insert_ne in Hl by done. exact (Ho port l t Hl Ht).
    + intros port l t Hl Ht.
      destruct (decide (iface = port)) as [->|Hne].
      * rewrite lookup_insert_eq in Hl. inversion Hl. subst l. inversion Ht.
      * rewrite lookup_insert_ne in Hl by done. exact (Hout port l t Hl Ht).
  - intros port l t Hl. rewrite lookup_empty in Hl. discriminate Hl.
Qed.

(** The sample text announces capabilities B,R with R enabled, and the
    stand-in decoder would decode them; the record still has none. *)
Lemma get_lldp_neighbors_detail_sample :
  exists res t,
    get_lldp_neighbors_detail Samples.literal_eval
      (Samples.answering (VStr Samples.lldp_detail_text)) "" = Ok res
    /\ res !! "et1" = Some [t]
    /\ remote_system_name_ t = "leaf1"
    /\ remote_chassis_id t = "00:1c:73:aa:bb:cc"
    /\ remote_port t = "Ethernet1"
    /\ remote_system_capab t = "" /\ remote_system_enabled_capab t = "".
Proof.
  pose (t := Tlv "et1" "Ethernet1" "" "00:1c:73:aa:bb:cc" "leaf1" "" "" "").
  pose (res := <["et1" := [t]]> (∅ : gmap string (list tlv))).
  assert (E : get_lldp_neighbors_detail Samples.literal_eval
                (Samples.answering (VStr Samples.lldp_detail_text)) "" = Ok res)
    by (vm_compute; reflexivity).
  assert (E1 : res !! "et1" = Some [t]) by (vm_compute; reflexivity).
  exists res, t. split; [exact E|]. split; [exact E1|].
  do 3 (split; [reflexivity|]).
  apply (get_lldp_neighbors_detail_capabilities_empty _ _ _ _ E "et1" [t] t E1).
  left.
Defined.

(** * Properties of the rest of the driver *)

(** ** The matcher is sound *)

Lemma append_assoc (a b c : string) : ((a ++ b) ++ c = a ++ (b ++ c))%string.
Proof.
  induction a as [|x a IH]; [reflexivity|].
  change (String x ((a ++ b) ++ c) = String x (a ++ (b ++ c)))%string.
  rewrite IH. reflexivity.
Qed.

Lemma length_append (a b : string) :
  String.length (a ++ b) = (String.length a + String.length b)%nat.
Proof.
  induction a as [|x a IH]; [reflexivity|].
  change (S (String.length (a ++ b)) = S (String.length a + String.length b)).
  rewrite IH. reflexivity.
Qed.

Lemma captures_within_insert G c n sub g :
  (n, sub) ∈ G -> denotes sub g -> captures_within G c ->
  captures_within G (<[n := g]> c).
Proof.
  intros Hin Hden Hc m g' Hm.
  destruct (decide (n = m)) as [->|Hne].
  - rewrite lookup_insert_eq in Hm. inversion Hm. subst g'. exists sub. auto.
  - rewrite lookup_insert_ne in Hm by done. exact (Hc m g' Hm).
Qed.

(** A successful run went through its continuation: it consumed a word of
    the pattern, moved the position by it, and handed on groups that hold
    words of their patterns. *)
Lemma run_sound {R} (r : Re.regex) : forall G,
  groups_of r ⊆ G ->
  forall p c (k : Re.pos -> gmap nat string -> option R) x,
    captures_within G c ->
    Re.run r p c k = Some x ->
    exists w p' c',
      Re.rest p = (w ++ Re.rest p')%string
      /\ Re.idx p' = (Re.idx p + String.length w)%nat
      /\ denotes r w
      /\ captures_within G c'
      /\ k p' c' = Some x.
Proof.
  induction r as [|f|r1 IH1 r2 IH2|r1 IH1 r2 IH2|r1 IH1|n r1 IH1| | | |];
    intros G HG p c k x Hc Hrun; simpl in Hrun.
  - exists "", p, c. rewrite Nat.add_0_r. repeat split; [constructor|assumption..].
  - destruct (Re.rest p) as [|a t] eqn:E; [discriminate|].
    destruct (f a) eqn:Ef; [|discriminate].
    exists (String a ""), (Re.Pos (Some a) (S (Re.idx p)) t), c. simpl.
    rewrite Nat.add_1_r. repeat split; [constructor|..]; assumption.
  - simpl in HG.
    destruct (IH1 G ltac:(set_solver) _ _ _ _ Hc Hrun) as (w1 & p1 & c1 & H1 & I1 & D1 & C1 & K1).
    destruct (IH2 G ltac:(set_solver) _ _ _ _ C1 K1) as (w2 & p2 & c2 & H2 & I2 & D2 & C2 & K2).
    exists (w1 ++ w2)%string, p2, c2.
    rewrite append_assoc, <- H2, <- H1, length_append.
    repeat split; [lia|constructor; assumption|assumption..].
  - simpl in HG. destruct (Re.run r1 p c k) as [y|] eqn:E.
    + inversion Hrun. subst y.
      destruct (IH1 G ltac:(set_solver) _ _ _ _ Hc E) as (w & p' & c' & H1 & I1 & D1 & C1 & K1).
      exists w, p', c'. repeat split; [..|apply den_alt_l|idtac|idtac]; assumption.
    + destruct (IH2 G ltac:(set_solver) _ _ _ _ Hc Hrun) as (w & p' & c' & H1 & I1 & D1 & C1 & K1).
      exists w, p', c'. repeat split; [..|apply den_alt_r|idtac|idtac]; assumption.
  - simpl in HG. remember (String.length (Re.rest p)) as fuel eqn:Ef. clear Ef.
    revert p c Hc Hrun.
    induction fuel as [|fuel IHf]; intros p c Hc Hrun; simpl in Hrun.
    + exists "", p, c. rewrite Nat.add_0_r. repeat split; [constructor|assumption..].
    + destruct (Re.run r1 p c _) as [y|] eqn:E.
      * inversion Hrun. subst y.
        destruct (IH1 G HG _ _ _ _ Hc E) as (w1 & p1 & c1 & H1 & I1 & D1 & C1 & K1).
        destruct (Re.idx p <? Re.idx p1)%nat; [|discriminate].
        destruct (IHf _ _ C1 K1) as (w2 & p2 & c2 & H2 & I2 & D2 & C2 & K2).
        exists (w1 ++ w2)%string, p2, c2.
        rewrite append_assoc, <- H2, <- H1, length_append.
        repeat split; [lia|constructor; assumption|assumption..].
      * exists "", p, c. rewrite Nat.add_0_r. repeat split; [constructor|assumption..].
  - simpl in HG.
    destruct (IH1 G ltac:(set_solver) _ _ _ _ Hc Hrun) as (w & p' & c' & H1 & I1 & D1 & C1 & K1).
    exists w, p', (<[n := Str.take (Re.idx p' - Re.idx p) (Re.rest p)]> c').
    repeat split; [assumption|assumption|constructor; assumption| |assumption].
    rewrite I1, H1. replace (Re.idx p + String.length w - Re.idx p)%nat
      with (String.length w) by lia.
    rewrite take_app. apply (captures_within_insert G c' n r1 w); [set_solver|assumption..].
  - destruct (Re.idx p =? 0)%nat; [|discriminate].
    exists "", p, c. rewrite Nat.add_0_r. repeat split; [constructor|assumption..].
  - exists "", p, c. rewrite Nat.add_0_r.
    repeat split; [constructor|assumption|].
    destruct (Re.prev p) as [a|]; [|assumption].
    destruct (Ascii.eqb a Str.nl); [assumption|discriminate].
  - exists "", p, c. rewrite Nat.add_0_r.
    repeat split; [constructor|assumption|].
    destruct (Re.rest p) as [|a [|b t]]; try assumption; try discriminate.
    destruct (Ascii.eqb a Str.nl); [assumption|discriminate].
  - exists "", p, c. rewrite Nat.add_0_r.
    repeat split; [constructor|assumption|].
    destruct (Re.rest p) as [|a t]; [assumption|].
    destruct (Ascii.eqb a Str.nl); [assumption|discriminate].
Qed.

Lemma captures_within_empty G : captures_within G ∅.
Proof. intros n g H. rewrite lookup_empty in H. discriminate H. Qed.

(** A match found at a position: the text from there on starts with a word
    of the pattern, and the groups hold words of theirs. *)
Lemma at_pos_sound r p p' c :
  Re.at_pos r p = Some (p', c) ->
  captures_within (groups_of r) c
  /\ exists w, Re.rest p = (w ++ Re.rest p')%string
               /\ Re.idx p' = (Re.idx p + String.length w)%nat
               /\ denotes r w.
Proof.
  unfold Re.at_pos. intros H.
  destruct (run_sound r (groups_of r) ltac:(set_solver) _ _ _ _
              (captures_within_empty _) H) as (w & q & c' & Hw & Hi & Hd & Hc & Hk).
  inversion Hk. subst q c'. split; [exact Hc|]. exists w. auto.
Qed.

Lemma match_sound r s c :
  Re.match_ r s = Some c -> captures_within (groups_of r) c.
Proof.
  unfold Re.match_. destruct (Re.at_pos r (Re.start s)) as [[p' c']|] eqn:E;
    [|discriminate].
  simpl. intros H. inversion H. subst c'. apply (at_pos_sound _ _ _ _ E).
Qed.

Lemma search_sound r s c :
  Re.search r s = Some c -> captures_within (groups_of r) c.
Proof.
  unfold Re.search. generalize (@None ascii) 0%nat.
  induction s as [|a s IH]; intros pr i; simpl.
  - destruct (Re.at_pos r _) as [[p' c']|] eqn:E; [|discriminate].
    simpl. intros H. inversion H. subst c'. apply (at_pos_sound _ _ _ _ E).
  - destruct (Re.at_pos r _) as [[p' c']|] eqn:E.
    + simpl. intros H. inversion H. subst c'. apply (at_pos_sound _ _ _ _ E).
    + apply IH.
Qed.

(** ** Words of the usual patterns *)

Lemma denotes_cls f w :
  denotes (Re.Cls f) w -> exists a, w = String a "" /\ f a = true.
Proof. intros H. inversion H. subst. eauto. Qed.

Lemma all_chars_app f a b :
  Str.all_chars f (a ++ b) = Str.all_chars f a && Str.all_chars f b.
Proof.
  induction a as [|x a IH]; [reflexivity|].
  change (f x && Str.all_chars f (a ++ b)
          = f x && Str.all_chars f a && Str.all_chars f b).
  rewrite IH, andb_assoc. reflexivity.
Qed.

Lemma denotes_star_cls f w :
  denotes (Re.Star (Re.Cls f)) w -> Str.all_chars f w = true.
Proof.
  remember (Re.Star (Re.Cls f)) as r eqn:Er. intros H.
  induction H; try discriminate Er.
  - reflexivity.
  - inversion Er. subst r. apply denotes_cls in H. destruct H as (a & -> & Ha).
    rewrite all_chars_app. simpl. rewrite Ha. simpl. apply IHdenotes2. reflexivity.
Qed.

(** One or more characters of a class: a non-empty word within the class. *)
Lemma denotes_plus_cls f w :
  denotes (Re.plus (Re.Cls f)) w ->
  exists a t, w = String a t /\ Str.all_chars f w = true.
Proof.
  unfold Re.plus. intros H. inversion H. subst.
  apply denotes_cls in H2. destruct H2 as (a & -> & Ha).
  apply denotes_star_cls in H4.
  exists a, w2. split; [reflexivity|].
  change (f a && Str.all_chars f w2 = true). rewrite Ha, H4. reflexivity.
Qed.

Lemma denotes_lit s w : denotes (Re.lit s) w -> w = s.
Proof.
  revert w. induction s as [|a s IH]; intros w H; simpl in H.
  - inversion H. reflexivity.
  - inversion H. subst. apply denotes_cls in H2. destruct H2 as (b & -> & Hb).
    apply Ascii.eqb_eq in Hb. subst b. rewrite (IH _ H4). reflexivity.
Qed.

Lemma denotes_eps w : denotes Re.Eps w -> w = "".
Proof. intros H. inversion H. reflexivity. Qed.

(** ** Decimal values *)

Lemma digit_value_range a :
  Str.is_digit a = true -> 0 <= Z.of_N (Str.code a) - 48 <= 9.
Proof.
  intros H. apply is_digit_cases in H.
  repeat (apply elem_of_cons in H; destruct H as [->|H]; [vm_compute; split; discriminate|]).
  inversion H.
Qed.

Lemma digits_value_range ds : forall acc,
  Str.all_chars Str.is_digit ds = true -> 0 <= acc ->
  acc * 10 ^ Z.of_nat (String.length ds) <= Str.digits_value acc ds
  /\ Str.digits_value acc ds < (acc + 1) * 10 ^ Z.of_nat (String.length ds).
Proof.
  induction ds as [|a ds IH]; intros acc Hall Hacc.
  - simpl. lia.
  - simpl in Hall. apply andb_true_iff in Hall. destruct Hall as [Ha Hall].
    pose proof (digit_value_range a Ha) as Hd.
    cbn [Str.digits_value String.length].
    destruct (IH (10 * acc + (Z.of_N (Str.code a) - 48)) Hall ltac:(lia)) as [Hlo Hhi].
    rewrite Nat2Z.inj_succ, Z.pow_succ_r by lia.
    assert (0 < 10 ^ Z.of_nat (String.length ds)) by (apply Z.pow_pos_nonneg; lia).
    split; nia.
Qed.

Lemma digits_value_nonneg ds :
  Str.all_chars Str.is_digit ds = true -> 0 <= Str.digits_value 0 ds.
Proof.
  intros H. destruct (digits_value_range ds 0 H ltac:(lia)) as [Hlo _]. lia.
Qed.

(** [int] of text made of digits returns, and its value is not negative. *)
Lemma int_digits_nonneg ds z :
  Str.all_chars Str.is_digit ds = true ->
  Py.int (VStr ds) = Ok z -> z = Str.digits_value 0 ds /\ 0 <= z.
Proof.
  intros Hall Hz. destruct ds as [|a ds].
  - vm_compute in Hz. discriminate Hz.
  - rewrite (int_digits a ds Hall) in Hz.
    assert (z = Str.digits_value 0 (String a ds)) as -> by congruence.
    split; [reflexivity|]. apply digits_value_nonneg, Hall.
Qed.

(** ** Groups that always take part *)

(** A successful run hands on every group it found set and sets every group
    that lies on all the ways through the pattern. *)
Lemma run_sets_groups {R} (r : Re.regex) :
  forall p c (k : Re.pos -> gmap nat string -> option R) x,
    Re.run r p c k = Some x ->
    exists p' c',
      k p' c' = Some x
      /\ forall n, is_Some (c !! n) \/ n ∈ sure_groups r -> is_Some (c' !! n).
Proof.
  induction r as [|f|r1 IH1 r2 IH2|r1 IH1 r2 IH2|r1 IH1|n r1 IH1| | | |];
    intros p c k x Hrun; simpl in Hrun.
  - exists p, c. split; [assumption|]. intros n [H|H]; [assumption|inversion H].
  - destruct (Re.rest p) as [|a t]; [discriminate|].
    destruct (f a); [|discriminate].
    eexists _, c. split; [eassumption|]. intros n [H|H]; [assumption|inversion H].
  - destruct (IH1 _ _ _ _ Hrun) as (p1 & c1 & K1 & S1).
    destruct (IH2 _ _ _ _ K1) as (p2 & c2 & K2 & S2).
    exists p2, c2. split; [assumption|]. intros n [H|H].
    + apply S2. left. apply S1. left. exact H.
    + simpl in H. apply elem_of_app in H. destruct H as [H|H].
      * apply S2. left. apply S1. right. exact H.
      * apply S2. right. exact H.
  - destruct (Re.run r1 p c k) as [y|] eqn:E.
    + inversion Hrun. subst y. destruct (IH1 _ _ _ _ E) as (p1 & c1 & K1 & S1).
      exists p1, c1. split; [assumption|]. intros n [H|H]; [|inversion H].
      apply S1. left. exact H.
    + destruct (IH2 _ _ _ _ Hrun) as (p1 & c1 & K1 & S1).
      exists p1, c1. split; [assumption|]. intros n [H|H]; [|inversion H].
      apply S1. left. exact H.
  - remember (String.length (Re.rest p)) as fuel eqn:Ef. clear Ef.
    revert p c Hrun.
    induction fuel as [|fuel IHf]; intros p c Hrun; simpl in Hrun.
    + exists p, c. split; [assumption|]. intros n [H|H]; [assumption|inversion H].
    + destruct (Re.run r1 p c _) as [y|] eqn:E.
      * inversion Hrun. subst y. destruct (IH1 _ _ _ _ E) as (p1 & c1 & K1 & S1).
        destruct (Re.idx p <? Re.idx p1)%nat; [|discriminate].
        destruct (IHf _ _ K1) as (p2 & c2 & K2 & S2).
        exists p2, c2. split; [assumption|]. intros n [H|H]; [|inversion H].
        apply S2. left. apply S1. left. exact H.
      * exists p, c. split; [assumption|]. intros n [H|H]; [assumption|inversion H].
  - destruct (IH1 _ _ _ _ Hrun) as (p1 & c1 & K1 & S1).
    eexists p1, _. split; [exact K1|]. intros m [H|H].
    + apply lookup_insert_is_Some'. right. apply S1. left. exact H.
    + simpl in H. apply elem_of_cons in H. apply lookup_insert_is_Some'.
      destruct H as [->|H]; [left; reflexivity|]. right. apply S1. right. exact H.
  - destruct (Re.idx p =? 0)%nat; [|discriminate].
    exists p, c. split; [assumption|]. intros n [H|H]; [assumption|inversion H].
  - exists p, c. split; [|intros n [H|H]; [assumption|inversion H]].
    destruct (Re.prev p) as [a|]; [|assumption].
    destruct (Ascii.eqb a Str.nl); [assumption|discriminate].
  - exists p, c. split; [|intros n [H|H]; [assumption|inversion H]].
    destruct (Re.rest p) as [|a [|b t]]; try assumption; try discriminate.
    destruct (Ascii.eqb a Str.nl); [assumption|discriminate].
  - exists p, c. split; [|intros n [H|H]; [assumption|inversion H]].
    destruct (Re.rest p) as [|a t]; [assumption|].
    destruct (Ascii.eqb a Str.nl); [assumption|discriminate].
Qed.

Lemma at_pos_sets_groups r p p' c n :
  Re.at_pos r p = Some (p', c) -> n ∈ sure_groups r -> is_Some (c !! n).
Proof.
  unfold Re.at_pos. intros H Hn.
  destruct (run_sets_groups r _ _ _ _ H) as (q & c' & Hk & Hs).
  inversion Hk. subst q c'. apply Hs. right. exact Hn.
Qed.

Lemma search_sets_groups r s c n :
  Re.search r s = Some c -> n ∈ sure_groups r -> is_Some (c !! n).
Proof.
  unfold Re.search. generalize (@None ascii) 0%nat.
  induction s as [|a s IH]; intros pr i; simpl.
  - destruct (Re.at_pos r _) as [[p' c']|] eqn:E; [|discriminate].
    simpl. intros H Hn. inversion H. subst c'. apply (at_pos_sets_groups _ _ _ _ _ E Hn).
  - destruct (Re.at_pos r _) as [[p' c']|] eqn:E.
    + simpl. intros H Hn. inversion H. subst c'.
      apply (at_pos_sets_groups _ _ _ _ _ E Hn).
    + apply IH.
Qed.

Lemma match_sets_groups r s c n :
  Re.match_ r s = Some c -> n ∈ sure_groups r -> is_Some (c !! n).
Proof.
  unfold Re.match_. destruct (Re.at_pos r (Re.start s)) as [[p' c']|] eqn:E;
    [|discriminate].
  simpl. intros H Hn. inversion H. subst c'. apply (at_pos_sets_groups _ _ _ _ _ E Hn).
Qed.

Lemma denotes_seq_inv r1 r2 w :
  denotes (Re.Seq r1 r2) w ->
  exists w1 w2, w = (w1 ++ w2)%string /\ denotes r1 w1 /\ denotes r2 w2.
Proof. intros H. inversion H. subst. eauto. Qed.

Lemma denotes_alt_inv r1 r2 w :
  denotes (Re.Alt r1 r2) w -> denotes r1 w \/ denotes r2 w.
Proof. intros H. inversion H; subst; auto. Qed.

Lemma denotes_grp_inv n r w : denotes (Re.Grp n r) w -> denotes r w.
Proof. intros H. inversion H. assumption. Qed.

(** ** get_ntp_stats: what an entry can hold *)

Lemma denotes_rep_cls f n : forall w,
  denotes (Re.rep n (Re.Cls f)) w ->
  Str.all_chars f w = true /\ String.length w = n.
Proof.
  induction n as [|n IH]; intros w H; simpl in H.
  - apply denotes_eps in H. subst. split; reflexivity.
  - apply denotes_seq_inv in H. destruct H as (w1 & w2 & -> & H1 & H2).
    apply denotes_cls in H1. destruct H1 as (a & -> & Ha).
    destruct (IH _ H2) as [Hall Hlen].
    change (f a && Str.all_chars f w2 = true /\ S (String.length w2) = S n).
    rewrite Ha, Hall, Hlen. split; reflexivity.
Qed.

Lemma denotes_upto_cls f n : forall w,
  denotes (Re.upto n (Re.Cls f)) w ->
  Str.all_chars f w = true /\ (String.length w <= n)%nat.
Proof.
  induction n as [|n IH]; intros w H; simpl in H.
  - apply denotes_eps in H. subst. split; [reflexivity|simpl; lia].
  - unfold Re.opt in H. apply denotes_alt_inv in H. destruct H as [H|H].
    + apply denotes_seq_inv in H. destruct H as (w1 & w2 & -> & H1 & H2).
      apply denotes_cls in H1. destruct H1 as (a & -> & Ha).
      destruct (IH _ H2) as [Hall Hlen].
      change (f a && Str.all_chars f w2 = true /\ (S (String.length w2) <= S n)%nat).
      rewrite Ha, Hall. split; [reflexivity|lia].
    + apply denotes_eps in H. subst. split; [reflexivity|simpl; lia].
Qed.

Lemma denotes_between_cls f lo extra w :
  denotes (Re.between lo extra (Re.Cls f)) w ->
  Str.all_chars f w = true /\ (lo <= String.length w <= lo + extra)%nat.
Proof.
  unfold Re.between. intros H.
  apply denotes_seq_inv in H. destruct H as (w1 & w2 & -> & H1 & H2).
  destruct (denotes_rep_cls _ _ _ H1) as [A1 L1].
  destruct (denotes_upto_cls _ _ _ H2) as [A2 L2].
  rewrite all_chars_app, length_append, A1, A2. split; [reflexivity|lia].
Qed.

Lemma nocase_u a :
  Re.nocase (Ascii.eqb "u") a = true -> a = "u"%char \/ a = "U"%char.
Proof.
  destruct a as [[] [] [] [] [] [] [] []]; intros H; try discriminate H; auto.
Qed.

(** The groups of the pattern that the fields are read from. *)
Lemma ntp_groups n sub :
  (n, sub) ∈ groups_of RE_NTP ->
  (n = 4%nat -> sub = Re.between 1 1 Re.d)
  /\ (n = 5%nat -> sub = (Re.chr "-" ||| Re.Cls (Re.nocase (Ascii.eqb "u")))%re)
  /\ (n = 7%nat -> sub = Re.plus Re.d)
  /\ (n = 8%nat -> sub = Re.plus Re.d)
  /\ (n = 2%nat -> exists f, sub = Re.plus (Re.Cls f)).
Proof.
  unfold RE_NTP. simpl. intros H.
  repeat (apply elem_of_cons in H; destruct H as [H|H];
          [inversion H; subst; repeat split; intros; try discriminate; eauto|]).
  inversion H.
Qed.

Lemma ntp_sure_groups : sure_groups RE_NTP = [2; 3; 4; 5; 6; 7; 8; 9; 10; 11]%nat.
Proof. reflexivity. Qed.

(** An entry comes from a match and the dict built from its groups. *)
Lemma ntp_entry_Some str_of line entry :
  ntp_entry str_of line = Some entry ->
  exists m, Re.search RE_NTP line = Some m
            /\ ntp_record str_of (Re.groups 11 m) = Ok entry.
Proof.
  unfold ntp_entry. destruct (Re.search RE_NTP line) as [m|]; [|discriminate].
  destruct (ntp_record str_of (Re.groups 11 m)) as [e|] eqn:E; [|discriminate].
  intros H. inversion H. subst e. exists m. split; [reflexivity|exact E].
Qed.

Lemma ntp_entry_fields str_of line entry :
  ntp_entry str_of line = Some entry ->
  0 <= stratum entry <= 99
  /\ 0 <= hostpoll entry
  /\ 0 <= reachability entry
  /\ (type_ entry = "-" \/ type_ entry = "u" \/ type_ entry = "U")
  /\ remote entry <> "".
Proof.
  intros H. apply ntp_entry_Some in H. destruct H as (m & Hm & Hrec).
  pose proof (search_sound _ _ _ Hm) as Hc.
  assert (Hs : forall n, n ∈ sure_groups RE_NTP -> is_Some (m !! n))
    by (intros n; apply (search_sets_groups _ _ _ _ Hm)).
  rewrite ntp_sure_groups in Hs.
  destruct (Hs 2%nat ltac:(set_solver)) as [g2 H2].
  destruct (Hs 4%nat ltac:(set_solver)) as [g4 H4].
  destruct (Hs 5%nat ltac:(set_solver)) as [g5 H5].
  destruct (Hs 7%nat ltac:(set_solver)) as [g7 H7].
  destruct (Hs 8%nat ltac:(set_solver)) as [g8 H8].
  destruct (Hc _ _ H2) as (s2 & I2 & D2).
  destruct (Hc _ _ H4) as (s4 & I4 & D4).
  destruct (Hc _ _ H5) as (s5 & I5 & D5).
  destruct (Hc _ _ H7) as (s7 & I7 & D7).
  destruct (Hc _ _ H8) as (s8 & I8 & D8).
  destruct (ntp_groups _ _ I2) as (_ & _ & _ & _ & E2).
  destruct (E2 eq_refl) as [f2 ->].
  destruct (ntp_groups _ _ I4) as (E4 & _). rewrite (E4 eq_refl) in D4.
  destruct (ntp_groups _ _ I5) as (_ & E5 & _). rewrite (E5 eq_refl) in D5.
  destruct (ntp_groups _ _ I7) as (_ & _ & E7 & _). rewrite (E7 eq_refl) in D7.
  destruct (ntp_groups _ _ I8) as (_ & _ & _ & E8 & _). rewrite (E8 eq_refl) in D8.
  clear E2 E4 E5 E7 E8 I2 I4 I5 I7 I8 Hs Hc.
  unfold ntp_record in Hrec. cbv zeta beta in Hrec.
  change (Re.groups 11 m !! 1%nat) with (Some (m !! 2%nat)) in Hrec.
  change (Re.groups 11 m !! 2%nat) with (Some (m !! 3%nat)) in Hrec.
  change (Re.groups 11 m !! 3%nat) with (Some (m !! 4%nat)) in Hrec.
  change (Re.groups 11 m !! 4%nat) with (Some (m !! 5%nat)) in Hrec.
  change (Re.groups 11 m !! 6%nat) with (Some (m !! 7%nat)) in Hrec.
  change (Re.groups 11 m !! 7%nat) with (Some (m !! 8%nat)) in Hrec.
  rewrite H2, H4, H5, H7, H8 in Hrec. cbn [default from_option id group_value] in Hrec.
  apply bind_Ok in Hrec. destruct Hrec as (st & Hst & Hrec).
  apply bind_Ok in Hrec. destruct Hrec as (hp & Hhp & Hrec).
  apply bind_Ok in Hrec. destruct Hrec as (rc & Hrc & Hrec).
  repeat (apply bind_Ok in Hrec; destruct Hrec as (? & _ & Hrec)).
  inversion Hrec. subst entry. clear Hrec. cbn [stratum hostpoll reachability type_ remote].
  apply denotes_between_cls in D4. destruct D4 as [A4 L4].
  destruct (int_digits_nonneg _ _ A4 Hst) as [-> Hst0].
  apply denotes_plus_cls in D7. destruct D7 as (a7 & t7 & -> & A7).
  destruct (int_digits_nonneg _ _ A7 Hhp) as [_ Hhp0].
  apply denotes_plus_cls in D8. destruct D8 as (a8 & t8 & -> & A8).
  destruct (int_digits_nonneg _ _ A8 Hrc) as [_ Hrc0].
  apply denotes_plus_cls in D2. destruct D2 as (a2 & t2 & -> & A2).
  split; [|split; [exact Hhp0|split; [exact Hrc0|split]]].
  - split; [exact Hst0|].
    destruct (digits_value_range g4 0 A4 ltac:(lia)) as [_ Hhi].
    assert (10 ^ Z.of_nat (String.length g4) <= 10 ^ 2)
      by (apply Z.pow_le_mono_r; lia).
    lia.
  - apply denotes_alt_inv in D5. destruct D5 as [D5|D5].
    + apply denotes_cls in D5. destruct D5 as (a & -> & Ha).
      apply Ascii.eqb_eq in Ha. subst a. left. reflexivity.
    + apply denotes_cls in D5. destruct D5 as (a & -> & Ha).
      apply nocase_u in Ha. destruct Ha as [-> | ->]; auto.
  - discriminate.
Qed.

(** In every entry that get_ntp_stats returns the stratum lies between 0
    and 99, hostpoll and reachability are not negative, the type is "-",
    "u" or "U", and the remote is not empty. *)
Theorem get_ntp_stats_fields str_of dev stats :
  get_ntp_stats str_of dev = Ok stats ->
  forall entry, entry ∈ stats ->
    0 <= stratum entry <= 99
    /\ 0 <= hostpoll entry
    /\ 0 <= reachability entry
    /\ (type_ entry = "-" \/ type_ entry = "u" \/ type_ entry = "U")
    /\ remote entry <> "".
Proof.
  unfold get_ntp_stats. intros H.
  repeat (apply bind_Ok in H; destruct H as (? & _ & H)).
  inversion H. subst stats. clear H. rewrite ntp_loop. simpl.
  intros entry Hin. apply list_elem_of_omap in Hin. destruct Hin as (line & _ & Hline).
  exact (ntp_entry_fields _ _ _ Hline).
Qed.

Lemma get_ntp_stats_fields_sample :
  exists stats entry,
    get_ntp_stats Samples.str_of (Samples.answering (VStr Samples.ntp_text)) = Ok stats
    /\ entry ∈ stats
    /\ stratum entry = 1 /\ type_ entry = "u" /\ remote entry = "10.1.1.1"
    /\ 0 <= stratum entry <= 99 /\ 0 <= hostpoll entry /\ 0 <= reachability entry.
Proof.
  pose (e1 := NtpStat "10.1.1.1" true ".GPS." 1 "u" "12" 64 377
                (S754_finite false 8863084066665136 (-56))
                (S754_finite true 8214565720323785 (-54))
                (S754_finite false 7106680211990643 (-53))).
  pose (e2 := NtpStat "10.1.1.3" false "10.1.1.1" 2 "u" "40" 64 377
                (S754_finite false 6755399441055744 (-52))
                (S754_finite false 4503599627370496 (-54))
                (S754_finite false 4503599627370496 (-53))).
  assert (E : get_ntp_stats Samples.str_of (Samples.answering (VStr Samples.ntp_text))
              = Ok [e1; e2]) by (vm_compute; reflexivity).
  exists [e1; e2], e1. split; [exact E|]. split; [left|].
  destruct (get_ntp_stats_fields _ _ _ E e1 ltac:(left)) as (Hs & Hh & Hr & _).
  repeat split; try reflexivity; first [apply Hs | exact Hh | exact Hr].
Defined.

(** ** Floats that are not negative *)

Lemma binary_round_aux_sign sx mx ex lx :
  sx = false -> not_negative (binary_round_aux Float.prec Float.emax sx mx ex lx).
Proof.
  intros ->. unfold binary_round_aux.
  destruct (shr_fexp _ _ _ _ _) as [mrs' e'].
  destruct (shr_fexp _ _ _ _ _) as [mrs'' e''].
  destruct (shr_m mrs''); simpl; [exact I| |exact I].
  destruct (e'' <=? Float.emax - Float.prec); reflexivity.
Qed.

Lemma binary_normalize_sign m e :
  0 <= m -> not_negative (binary_normalize Float.prec Float.emax m e false).
Proof.
  intros Hm. destruct m as [|m|m]; [exact I| |lia].
  unfold binary_normalize, binary_round.
  destruct (shl_align _ _ _) as [mz ez]. apply binary_round_aux_sign. reflexivity.
Qed.

Lemma of_quotient_sign n d :
  0 <= n -> 0 < d -> not_negative (Float.of_quotient n d).
Proof.
  intros Hn Hd. unfold Float.of_quotient.
  assert (E : (n <? 0) = false) by (apply Z.ltb_ge; exact Hn). rewrite E.
  apply binary_normalize_sign.
  assert (0 <= Z.abs n * 2 ^ (Z.log2 d + 66)).
  { apply Z.mul_nonneg_nonneg; [apply Z.abs_nonneg|]. apply Z.pow_nonneg. lia. }
  assert (0 <= Z.abs n * 2 ^ (Z.log2 d + 66) / d) by (apply Z.div_pos; lia).
  destruct (_ =? 0); lia.
Qed.

Lemma of_int_sign n x :
  0 <= n -> Float.of_int n = Ok x -> not_negative x.
Proof.
  intros Hn. unfold Float.of_int.
  pose proof (binary_normalize_sign n 0 Hn) as Hs.
  destruct (binary_normalize Float.prec Float.emax n 0 false); intros H;
    inversion H; subst; exact Hs.
Qed.

Lemma mul_sign x y :
  not_negative x -> not_negative y -> not_negative (Float.mul x y).
Proof.
  unfold Float.mul, SFmul.
  destruct x as [sx|sx| |sx mx ex], y as [sy|sy| |sy my ey]; simpl;
    intros Hx Hy; subst; try exact I; try reflexivity.
  apply binary_round_aux_sign. reflexivity.
Qed.

(** [int] of a float that is not negative is not negative. *)
Lemma trunc_nonneg x z :
  not_negative x -> Float.trunc x = Ok z -> 0 <= z.
Proof.
  destruct x as [s|s| |s m e]; simpl; intros Hx H; inversion H; subst.
  - lia.
  - destruct (0 <=? e) eqn:E.
    + assert (0 <= 2 ^ e) by (apply Z.pow_nonneg; lia). lia.
    + apply Z.leb_gt in E. apply Z.div_pos; [lia|].
      apply Z.pow_pos_nonneg; lia.
Qed.

(** ** get_facts: the uptime is not negative *)

Lemma uptime_groups n sub :
  (n, sub) ∈ groups_of _RE_UPTIME -> n <> 1%nat -> sub = Re.plus Re.d.
Proof.
  unfold _RE_UPTIME. simpl. intros H Hn.
  repeat (apply elem_of_cons in H; destruct H as [H|H];
          [inversion H; subst; first [reflexivity | contradiction]|]).
  inversion H.
Qed.

(** A group of the uptime pattern, read by [int]. *)
Lemma uptime_group_int m n z :
  captures_within (groups_of _RE_UPTIME) m -> n <> 1%nat ->
  Py.int (group_value (Re.group m n)) = Ok z -> 0 <= z.
Proof.
  intros Hc Hn Hz. unfold Re.group in Hz.
  destruct (m !! n) as [g|] eqn:E; [|discriminate Hz].
  destruct (Hc _ _ E) as (sub & Hin & Hd).
  rewrite (uptime_groups _ _ Hin Hn) in Hd.
  apply denotes_plus_cls in Hd. destruct Hd as (a & t & -> & Hall).
  apply (int_digits_nonneg _ _ Hall Hz).
Qed.

Lemma uptime_of_match_sign m up :
  captures_within (groups_of _RE_UPTIME) m ->
  uptime_of_match m = Ok up -> not_negative up.
Proof.
  intros Hc H. unfold uptime_of_match in H.
  apply bind_Ok in H. destruct H as (days & Hd & H).
  apply bind_Ok in H. destruct H as (hours & Hh & H).
  apply bind_Ok in H. destruct H as (seconds & Hs & H).
  assert (0 <= days).
  { destruct (Re.group m 2) as [g|] eqn:E.
    - apply (uptime_group_int m 2 days Hc ltac:(discriminate)). rewrite E. exact Hd.
    - inversion Hd. lia. }
  assert (0 <= hours) by (apply (uptime_group_int m 3 hours Hc ltac:(discriminate) Hh)).
  assert (0 <= seconds) by (apply (uptime_group_int m 5 seconds Hc ltac:(discriminate) Hs)).
  unfold timedelta_total_seconds in H.
  destruct (_ >? _); [discriminate H|]. inversion H.
  apply of_quotient_sign; lia.
Qed.

(** Whatever the switch answers, an uptime that get_facts returns is not
    negative. *)
Theorem get_facts_uptime_not_negative sorted_nicely dev f :
  get_facts sorted_nicely dev = Ok f -> 0 <= uptime f.
Proof.
  unfold get_facts. intros H.
  apply bind_Ok in H. destruct H as (res & _ & H).
  apply bind_Ok in H. destruct H as (version & _ & H).
  apply bind_Ok in H. destruct H as (hostname & _ & H).
  apply bind_Ok in H. destruct H as (fqdn & _ & H).
  apply bind_Ok in H. destruct H as (interfaces & _ & H).
  apply bind_Ok in H. destruct H as (u_match & Hm & H).
  apply bind_Ok in H. destruct H as (up & Hup & H).
  apply bind_Ok in H. destruct H as (model & _ & H).
  apply bind_Ok in H. destruct H as (serial & _ & H).
  apply bind_Ok in H. destruct H as (os & _ & H).
  apply bind_Ok in H. destruct H as (uptime_int & Ht & H).
  inversion H. subst f. simpl.
  apply (trunc_nonneg up); [|exact Ht].
  apply (uptime_of_match_sign u_match); [|exact Hup].
  apply bind_Ok in Hm. destruct Hm as (u & _ & Hm).
  apply bind_Ok in Hm. destruct Hm as (s & _ & Hm).
  destruct (Re.match_ _RE_UPTIME s) as [m|] eqn:E; [|discriminate Hm].
  inversion Hm. subst m. apply (match_sound _ _ _ E).
Qed.

Lemma get_facts_uptime_not_negative_sample :
  exists f,
    get_facts Samples.sorted_nicely (Samples.facts_device "1 day, 00:00:07") = Ok f
    /\ uptime f = 86407 /\ 0 <= uptime f.
Proof.
  pose (f := Facts "sw1" "sw1.example.com" "Metamako" (VStr "MetaConnect 48")
               (VStr "C48-A6-1234") (VStr "0.13.4") 86407 ["et1"; "et2"]).
  assert (E : get_facts Samples.sorted_nicely (Samples.facts_device "1 day, 00:00:07")
              = Ok f) by (vm_compute; reflexivity).
  exists f. split; [exact E|]. split; [reflexivity|].
  exact (get_facts_uptime_not_negative _ _ _ E).
Defined.

(** ** get_interfaces: speed, last_flapped and mac_address *)

Lemma factormap_values k f :
  Py.getitem (VDict factormap) k = Ok f ->
  (exists z, f = VInt z /\ 0 <= z) \/ (exists x, f = VFloat x /\ not_negative x).
Proof.
  simpl. destruct (factormap !! k) as [v|] eqn:E; [|discriminate].
  intros H. inversion H. subst v. clear H. unfold factormap in E.
  repeat (apply lookup_insert_Some in E; destruct E as [[_ <-]|[_ E]];
          [first [left; eexists; split; [reflexivity|lia]
                 | right; eexists; split; [reflexivity|vm_compute; reflexivity]]|]).
  rewrite lookup_empty in E. discriminate E.
Qed.

(** A speed that the parser returns is not negative. *)
Lemma parse_mm_speed_nonneg v z : _parse_mm_speed v = Ok z -> 0 <= z.
Proof.
  intros H. destruct v; try discriminate H. rewrite parse_mm_speed_fields in H.
  unfold speed_fields in H.
  destruct (span_digits_spec s) as (_ & Hall & _).
  destruct (Py.span_digits s) as [ds rest]. simpl in Hall.
  assert (Hgo : forall u,
             (n ← Py.int (VStr ds);
              factor ← Py.getitem (VDict factormap) (default EmptyString u);
              product ← int_times n factor;
              Py.int product) = Ok z -> 0 <= z).
  { intros u Hu.
    apply bind_Ok in Hu. destruct Hu as (n & Hn & Hu).
    apply bind_Ok in Hu. destruct Hu as (factor & Hf & Hu).
    apply bind_Ok in Hu. destruct Hu as (product & Hp & Hu).
    destruct (int_digits_nonneg _ _ Hall Hn) as [_ Hn0].
    destruct (factormap_values _ _ Hf) as [(m & -> & Hm)|(x & -> & Hx)].
    - simpl in Hp. inversion Hp. subst product. simpl in Hu. inversion Hu. nia.
    - simpl in Hp. apply bind_Ok in Hp. destruct Hp as (y & Hy & Hp).
      inversion Hp. subst product. simpl in Hu.
      apply (trunc_nonneg _ _ (mul_sign _ _ (of_int_sign _ _ Hn0 Hy) Hx) Hu). }
  destruct ds as [|a ds]; [inversion H; lia|].
  destruct rest as [|c [|n [|n' t]]]; try (inversion H; lia);
    try (apply (Hgo _ H)).
  destruct (Ascii.eqb n Str.nl); [apply (Hgo _ H)|inversion H; lia].
Qed.

(** Every interface that get_interfaces returns has a speed that is not
    negative, last_flapped 0.0 and an empty mac_address. *)
Theorem get_interfaces_constants dev res name info :
  get_interfaces dev = Ok res -> res !! name = Some info ->
  0 <= speed info /\ last_flapped info = Float.zero /\ mac_address info = "".
Proof.
  unfold get_interfaces. intros H Hinfo.
  apply bind_Ok in H. destruct H as (output & _ & H).
  apply bind_Ok in H. destruct H as (descriptions & _ & H).
  apply bind_Ok in H. destruct H as (rows & _ & Hloop).
  destruct (fill_loop_lookup _ _ _ _ Hloop name info Hinfo) as [Hx|(values & _ & Hrow)].
  { rewrite lookup_empty in Hx. discriminate Hx. }
  unfold interface_row in Hrow.
  apply bind_Ok in Hrow. destruct Hrow as (rx & _ & Hrow).
  apply bind_Ok in Hrow. destruct Hrow as (up & _ & Hrow).
  apply bind_Ok in Hrow. destruct Hrow as (flags & _ & Hrow).
  apply bind_Ok in Hrow. destruct Hrow as (sp & _ & Hrow).
  apply bind_Ok in Hrow. destruct Hrow as (z & Hz & Hrow).
  inversion Hrow. subst info. simpl.
  split; [exact (parse_mm_speed_nonneg _ _ Hz)|]. split; reflexivity.
Qed.

Lemma get_interfaces_constants_sample :
  exists res info,
    get_interfaces Samples.interfaces_device = Ok res
    /\ res !! "et2" = Some info
    /\ speed info = 1000
    /\ 0 <= speed info /\ last_flapped info = Float.zero /\ mac_address info = "".
Proof.
  pose (res :=
    <["et1" := InterfaceInfo true true (VStr "uplink") Float.zero 10000 ""]>
    (<["et2" := InterfaceInfo false false (VStr "") Float.zero 1000 ""]>
    (<["et3" := InterfaceInfo false true (VStr "") Float.zero 0 ""]>
     (∅ : gmap string interface_info)))).
  pose (info := InterfaceInfo false false (VStr "") Float.zero 1000 "").
  assert (E : get_interfaces Samples.interfaces_device = Ok res)
    by (vm_compute; reflexivity).
  assert (E2 : res !! "et2" = Some info) by (vm_compute; reflexivity).
  exists res, info. split; [exact E|]. split; [exact E2|]. split; [reflexivity|].
  exact (get_interfaces_constants _ _ _ _ E E2).
Defined.

(** ** get_interfaces: the descriptions *)

Lemma response_output v : Py.getitem (response v) "output" = Ok v.
Proof. vm_compute. reflexivity. Qed.

Lemma description_row_fields (p : string) (d : pyval) :
  Py.getitem (description_payload_row (p, d)) "Port" = Ok (VStr p)
  /\ Py.getitem (description_payload_row (p, d)) "Description" = Ok d.
Proof. split; vm_compute; reflexivity. Qed.

(** The dict of descriptions built from a table: a port reads the
    description of its last row. *)
Lemma descriptions_loop (rows : list (string * pyval)) : forall acc : gmap string pyval,
  exists res,
    foldM (fun (acc : gmap string pyval) d =>
             k ← Py.getitem d "Port"; key ← dict_key k;
             v ← Py.getitem d "Description";
             Ok (<[key := v]> acc)) acc (description_payload_row <$> rows) = Ok res
    /\ forall name, res !! name =
         match last (filter (fun r => r.1 = name) rows) with
         | Some r => Some r.2
         | None => acc !! name
         end.
Proof.
  induction rows as [|[p d] rows IH]; intros acc.
  - exists acc. split; [reflexivity|]. intros name. reflexivity.
  - rewrite fmap_cons. cbn [foldM].
    destruct (description_row_fields p d) as [Hp Hd]. rewrite Hp, Hd.
    cbn [mbind result_bind dict_key].
    destruct (IH (<[p := d]> acc)) as (res & Hres & Hlook).
    exists res. split; [exact Hres|]. intros name. rewrite Hlook.
    destruct (decide (p = name)) as [->|Hne].
    + rewrite filter_cons_True by reflexivity. rewrite last_cons.
      destruct (last _); [reflexivity|]. rewrite lookup_insert_eq. reflexivity.
    + rewrite filter_cons_False by exact Hne.
      destruct (last _); [reflexivity|]. rewrite lookup_insert_ne by done. reflexivity.
Qed.

(** When the description table has text port names, an interface that
    get_interfaces returns carries the description of the last row of its
    port, and the empty text when the table has no row for it. *)
Theorem get_interfaces_description dev r0 more rows res name info :
  run_commands dev (cmds ["show interfaces status"; "show interfaces description"]) EncJson
    = Ok (r0 :: response (VList (description_payload_row <$> rows)) :: more) ->
  get_interfaces dev = Ok res -> res !! name = Some info ->
  description info =
    match last (filter (fun r => r.1 = name) rows) with
    | Some r => r.2
    | None => VStr ""
    end.
Proof.
  intros Hrun H Hinfo. unfold get_interfaces in H. rewrite Hrun in H.
  cbn [mbind result_bind] in H.
  apply bind_Ok in H. destruct H as (descriptions & Hd & H).
  apply bind_Ok in H. destruct H as (items & _ & Hloop).
  destruct (descriptions_loop rows ∅) as (ds & Hds & Hlook).
  assert (descriptions = ds) as ->.
  { change (Py.index (r0 :: response (VList (description_payload_row <$> rows)) :: more) 1)
      with (Ok (response (VList (description_payload_row <$> rows)))) in Hd.
    cbn [mbind result_bind] in Hd. rewrite response_output in Hd.
    cbn [mbind result_bind py_iter] in Hd.
    rewrite Hds in Hd. inversion Hd. reflexivity. }
  destruct (fill_loop_lookup _ _ _ _ Hloop name info Hinfo) as [Hx|(values & _ & Hrow)].
  { rewrite lookup_empty in Hx. discriminate Hx. }
  unfold interface_row in Hrow.
  repeat (apply bind_Ok in Hrow; destruct Hrow as (? & _ & Hrow)).
  inversion Hrow. subst info. simpl. rewrite Hlook, lookup_empty.
  destruct (last _); reflexivity.
Qed.

Lemma get_interfaces_description_sample :
  exists res i1 i3,
    get_interfaces Samples.interfaces_device = Ok res
    /\ res !! "et1" = Some i1 /\ res !! "et3" = Some i3
    /\ description i1 = VStr "uplink" /\ description i3 = VStr "".
Proof.
  pose (i1 := InterfaceInfo true true (VStr "uplink") Float.zero 10000 "").
  pose (i3 := InterfaceInfo false true (VStr "") Float.zero 0 "").
  pose (res :=
    <["et1" := i1]>
    (<["et2" := InterfaceInfo false false (VStr "") Float.zero 1000 ""]>
    (<["et3" := i3]> (∅ : gmap string interface_info)))).
  assert (E : get_interfaces Samples.interfaces_device = Ok res)
    by (vm_compute; reflexivity).
  assert (E1 : res !! "et1" = Some i1) by (vm_compute; reflexivity).
  assert (E3 : res !! "et3" = Some i3) by (vm_compute; reflexivity).
  exists res, i1, i3. split; [exact E|]. split; [exact E1|]. split; [exact E3|].
  split.
  - apply (get_interfaces_description Samples.interfaces_device _ []
             [("et1", VStr "uplink")] res "et1" i1 eq_refl E E1).
  - apply (get_interfaces_description Samples.interfaces_device _ []
             [("et1", VStr "uplink")] res "et3" i3 eq_refl E E3).
Defined.

(** ** get_interfaces_counters: the traffic counters *)

Lemma counter_Ok c k z :
  counter (VDict c) k = Ok z -> counter_reads c k z.
Proof.
  unfold counter, counter_reads. simpl.
  destruct (c !! k) as [v|]; simpl; intros H; [exact H|].
  inversion H. reflexivity.
Qed.

(** The interfaces that get_interfaces_counters returns are those of the
    counters payload (not those that only the errors payload names), and
    each octet and packet counter is the int of its payload field, or -1
    when the interface's entry lacks the field. *)
Theorem get_interfaces_counters_traffic dev output rows res :
  run_commands dev (cmds ["show interfaces counters"; "show interfaces counters errors"])
               EncJson = Ok output ->
  (r ← Py.index output 0; o ← Py.getitem r "output"; Py.getitem o "interfaces")
    = Ok (VDict rows) ->
  get_interfaces_counters dev = Ok res ->
  (forall name, is_Some (res !! name) <-> is_Some (rows !! name))
  /\ forall name row c, res !! name = Some row -> rows !! name = Some (VDict c) ->
       counter_reads c "txoctets" (tx_octets row)
       /\ counter_reads c "rxoctets" (rx_octets row)
       /\ counter_reads c "txucastpkts" (tx_unicast_packets row)
       /\ counter_reads c "rxucastpkts" (rx_unicast_packets row)
       /\ counter_reads c "txmcastpkts" (tx_multicast_packets row)
       /\ counter_reads c "rxmcastpkts" (rx_multicast_packets row)
       /\ counter_reads c "txbcastpkts" (tx_broadcast_packets row)
       /\ counter_reads c "rxbcastpkts" (rx_broadcast_packets row).
Proof.
  intros Hrun Hrows Hget. unfold get_interfaces_counters in Hget.
  rewrite Hrun in Hget. cbn [mbind result_bind] in Hget.
  apply bind_Ok in Hget. destruct Hget as (errorsdict & _ & Hget).
  apply bind_Ok in Hget. destruct Hget as (items & Hitems & Hloop).
  assert (items = map_to_list rows) as ->.
  { apply bind_Ok in Hrows. destruct Hrows as (r & Hr & Hrows).
    apply bind_Ok in Hrows. destruct Hrows as (o & Ho & Hi).
    rewrite Hr in Hitems. cbn [mbind result_bind] in Hitems.
    rewrite Ho in Hitems. cbn [mbind result_bind] in Hitems.
    rewrite Hi in Hitems. simpl in Hitems. inversion Hitems. reflexivity. }
  split.
  - intros name. rewrite (fill_loop_keys _ _ _ _ Hloop name), lookup_empty. split.
    + intros [H|(v & H)]; [destruct H as [x Hx]; discriminate Hx|].
      apply elem_of_map_to_list in H. eexists. exact H.
    + intros [v H]. right. exists v. apply elem_of_map_to_list. exact H.
  - intros name row c Hrow Hc.
    destruct (fill_loop_lookup _ _ _ _ Hloop name row Hrow) as [H|(v & Hin & Hf)].
    { rewrite lookup_empty in H. discriminate H. }
    apply elem_of_map_to_list in Hin. rewrite Hc in Hin. inversion Hin. subst v.
    unfold counters_row in Hf.
    apply bind_Ok in Hf. destruct Hf as (te & _ & Hf).
    apply bind_Ok in Hf. destruct Hf as (re & _ & Hf).
    apply bind_Ok in Hf. destruct Hf as (z1 & H1 & Hf).
    apply bind_Ok in Hf. destruct Hf as (z2 & H2 & Hf).
    apply bind_Ok in Hf. destruct Hf as (z3 & H3 & Hf).
    apply bind_Ok in Hf. destruct Hf as (z4 & H4 & Hf).
    apply bind_Ok in Hf. destruct Hf as (z5 & H5 & Hf).
    apply bind_Ok in Hf. destruct Hf as (z6 & H6 & Hf).
    apply bind_Ok in Hf. destruct Hf as (z7 & H7 & Hf).
    apply bind_Ok in Hf. destruct Hf as (z8 & H8 & Hf).
    inversion Hf. subst row. simpl.
    repeat split; apply counter_Ok; assumption.
Qed.

Lemma get_interfaces_counters_traffic_sample :
  exists res c1 c2,
    get_interfaces_counters Samples.counters_device = Ok res
    /\ res !! "et1" = Some c1 /\ res !! "et2" = Some c2
    /\ tx_octets c1 = 1200 /\ rx_octets c1 = 3400 /\ tx_unicast_packets c1 = -1
    /\ tx_octets c2 = -1
    /\ (forall name, is_Some (res !! name) <-> is_Some (Samples.counters_payload !! name)).
Proof.
  pose (c1 := InterfaceCounters 5 5 (-1) (-1) 1200 3400 (-1) (-1) (-1) (-1) (-1) (-1)).
  pose (c2 := InterfaceCounters (-1) (-1) (-1) (-1) (-1) (-1) (-1) (-1) (-1) (-1) (-1) (-1)).
  pose (res := <["et1" := c1]> (<["et2" := c2]> (∅ : gmap string interface_counters))).
  assert (E : get_interfaces_counters Samples.counters_device = Ok res)
    by (vm_compute; reflexivity).
  assert (E1 : res !! "et1" = Some c1) by (vm_compute; reflexivity).
  assert (E2 : res !! "et2" = Some c2) by (vm_compute; reflexivity).
  destruct (get_interfaces_counters_traffic Samples.counters_device _
              Samples.counters_payload res eq_refl eq_refl E) as [Hkeys Hvals].
  exists res, c1, c2. split; [exact E|]. split; [exact E1|]. split; [exact E2|].
  destruct (Hvals "et2" c2 ∅ E2 ltac:(vm_compute; reflexivity)) as (Ht & _).
  split; [reflexivity|]. split; [reflexivity|]. split; [reflexivity|].
  split; [exact Ht|]. exact Hkeys.
Defined.

(** ** cli: how a call can end *)

Lemma cli_command_outcome str_of str_of_exn dev cli_output command :
  (exists out, cli_command str_of str_of_exn dev cli_output command
               = Ok (<[text_type str_of command := out]> cli_output)
               /\ (r ← run_commands dev [command] EncText;
                   r0 ← Py.index r 0; Py.get r0 "output" VNone) = Ok out)
  \/ cli_command str_of str_of_exn dev cli_output command = Raise (NameError "pyeapi").
Proof.
  unfold cli_command.
  destruct (_ ≫= _) as [out|e]; [left; exists out; split; reflexivity|].
  right. reflexivity.
Qed.

(** cli ends in one of three ways: it returns a map, it refuses an argument
    that is no list with TypeError, or it raises NameError for the name
    pyeapi.  It raises no command error of any kind and lets no error of
    the switch through. *)
Theorem cli_outcomes str_of str_of_exn dev commands e :
  cli str_of str_of_exn dev commands = Raise e ->
  e = NameError "pyeapi"
  \/ (e = TypeError "Please enter a valid list of commands!"
      /\ forall l, commands <> VList l).
Proof.
  destruct commands as [| | | | |l|]; unfold cli; intros H;
    try (right; inversion H; split; [reflexivity|intros l'; discriminate]).
  left. revert H. generalize (∅ : gmap string pyval).
  induction l as [|c l IH]; intros acc H; cbn [foldM] in H; [discriminate H|].
  destruct (cli_command_outcome str_of str_of_exn dev acc c) as [(out & Hc & _)|Hc];
    rewrite Hc in H; cbn [mbind result_bind] in H.
  - exact (IH _ H).
  - inversion H. reflexivity.
Qed.

Lemma cli_outcomes_sample :
  NameError "pyeapi" = NameError "pyeapi"
  \/ (NameError "pyeapi" = TypeError "Please enter a valid list of commands!"
      /\ forall l, VList [VStr "show version"; VStr "bad_cmd"] <> VList l).
Proof.
  apply (cli_outcomes Samples.str_of Samples.str_of_exn Samples.rejecting
           (VList [VStr "show version"; VStr "bad_cmd"])).
  reflexivity.
Defined.

(** ** cli: the map it returns *)

(** The output of one command, as the loop stores it. *)
Lemma cli_command_answered str_of str_of_exn dev acc (c : string) d more :
  run_commands dev [VStr c] EncText = Ok (VDict d :: more) ->
  cli_command str_of str_of_exn dev acc (VStr c)
  = Ok (<[c := default VNone (d !! "output")]> acc).
Proof. intros H. unfold cli_command. rewrite H. reflexivity. Qed.

Lemma cli_loop str_of str_of_exn dev (l : list string) : forall acc,
  (forall c, c ∈ l -> exists d more,
      run_commands dev [VStr c] EncText = Ok (VDict d :: more)) ->
  exists m,
    foldM (cli_command str_of str_of_exn dev) acc (VStr <$> l) = Ok m
    /\ (forall c, is_Some (m !! c) <-> is_Some (acc !! c) \/ c ∈ l)
    /\ (forall c, c ∉ l -> m !! c = acc !! c)
    /\ (forall c d more, c ∈ l ->
          run_commands dev [VStr c] EncText = Ok (VDict d :: more) ->
          m !! c = Some (default VNone (d !! "output"))).
Proof.
  induction l as [|c0 l IH]; intros acc Hdev.
  - exists acc. split; [reflexivity|]. split; [|split].
    + intros c. split; [auto|]. intros [H|H]; [exact H|inversion H].
    + reflexivity.
    + intros c d more H. inversion H.
  - destruct (Hdev c0 ltac:(left)) as (d0 & more0 & Hrun0).
    rewrite fmap_cons. cbn [foldM].
    rewrite (cli_command_answered _ _ _ _ _ _ _ Hrun0). cbn [mbind result_bind].
    destruct (IH (<[c0 := default VNone (d0 !! "output")]> acc)) as (m & Hm & Hkeys & Hout & Hin).
    { intros c Hc. apply Hdev. right. exact Hc. }
    exists m. split; [exact Hm|]. split; [|split].
    + intros c. rewrite Hkeys, lookup_insert_is_Some, elem_of_cons.
      destruct (decide (c0 = c)) as [->|Hne]; [tauto|].
      split; [intros [[H|[_ H]]|H]|intros [H|[H|H]]]; try tauto; congruence.
    + intros c Hc. apply not_elem_of_cons in Hc. destruct Hc as [Hne Hc].
      rewrite (Hout c Hc). rewrite lookup_insert_ne by done. reflexivity.
    + intros c d more Hc Hrun.
      destruct (decide (c ∈ l)) as [Hl|Hl]; [exact (Hin c d more Hl Hrun)|].
      apply elem_of_cons in Hc. destruct Hc as [->|Hc]; [|contradiction].
      rewrite (Hout c0 Hl), lookup_insert_eq.
      rewrite Hrun0 in Hrun. inversion Hrun. reflexivity.
Qed.

(** When the switch answers every command of a list of texts, cli returns
    a map whose keys are the commands and that gives each command the
    output of its own round trip (None for a response without output);
    a command given twice has one entry. *)
Theorem cli_returns_outputs str_of str_of_exn dev (l : list string) :
  (forall c, c ∈ l -> exists d more,
      run_commands dev [VStr c] EncText = Ok (VDict d :: more)) ->
  exists m,
    cli str_of str_of_exn dev (VList (VStr <$> l)) = Ok m
    /\ (forall c, is_Some (m !! c) <-> c ∈ l)
    /\ (forall c d more, c ∈ l ->
          run_commands dev [VStr c] EncText = Ok (VDict d :: more) ->
          m !! c = Some (default VNone (d !! "output"))).
Proof.
  intros Hdev.
  destruct (cli_loop str_of str_of_exn dev l ∅ Hdev) as (m & Hm & Hkeys & _ & Hin).
  exists m. split; [exact Hm|]. split; [|exact Hin].
  intros c. rewrite Hkeys, lookup_empty. split; [|auto].
  intros [[x Hx]|H]; [discriminate Hx|exact H].
Qed.

Lemma cli_returns_outputs_sample :
  exists m,
    cli Samples.str_of Samples.str_of_exn (Samples.answering (VStr "ok"))
        (VList (VStr <$> ["show version"; "show clock"; "show version"])) = Ok m
    /\ (forall c, is_Some (m !! c) <-> c ∈ ["show version"; "show clock"; "show version"])
    /\ m !! "show clock" = Some (VStr "ok").
Proof.
  destruct (cli_returns_outputs Samples.str_of Samples.str_of_exn
              (Samples.answering (VStr "ok"))
              ["show version"; "show clock"; "show version"])
    as (m & Hm & Hkeys & Hout).
  { intros c _. eexists _, []. reflexivity. }
  exists m. split; [exact Hm|]. split; [exact Hkeys|].
  change (Some (VStr "ok"))
    with (Some (default VNone ((<["output" := VStr "ok"]> ∅ : gmap string pyval) !! "output"))).
  apply (Hout "show clock" (<["output" := VStr "ok"]> ∅) []);
    [right; left | reflexivity].
Defined.

(** ** get_arp_table: the entries *)

Lemma arp_sure_groups : (5%nat ∈ sure_groups _RE_ARP).
Proof. vm_compute. repeat constructor. Qed.

Lemma arp_groups sub :
  (5%nat, sub) ∈ groups_of _RE_ARP -> sub = Re.plus Re.S'.
Proof.
  unfold _RE_ARP. simpl. intros H.
  repeat (apply elem_of_cons in H; destruct H as [H|H];
          [inversion H; subst; reflexivity|]).
  inversion H.
Qed.

(** What the body of the loop does with a line: it adds one entry, filed
    under the interface token of the line, when the pattern matches and
    both helpers return; it adds nothing when the pattern does not match. *)
Lemma arp_line_Ok str_of helpers_mac helpers_ip arp_table line arp_table' :
  arp_line str_of helpers_mac helpers_ip arp_table line = Ok arp_table' ->
  (Re.match_ _RE_ARP line = None /\ arp_table' = arp_table)
  \/ (is_Some (Re.match_ _RE_ARP line)
      /\ exists entry, arp_table' = (arp_table ++ [entry])%list
         /\ arp_interface entry <> ""
         /\ Str.all_chars (fun a => negb (Str.is_space a)) (arp_interface entry) = true).
Proof.
  unfold arp_line. destruct (Re.match_ _RE_ARP line) as [m|] eqn:E.
  - intros H. right. split; [eexists; reflexivity|].
    apply bind_Ok in H. destruct H as (mac & _ & H).
    apply bind_Ok in H. destruct H as (ip & _ & H).
    inversion H. subst arp_table'. eexists. split; [reflexivity|]. simpl.
    destruct (match_sets_groups _ _ _ 5%nat E arp_sure_groups) as [g Hg].
    destruct (match_sound _ _ _ E _ _ Hg) as (sub & Hin & Hd).
    rewrite (arp_groups _ Hin) in Hd.
    apply denotes_plus_cls in Hd. destruct Hd as (a & t & -> & Hall).
    unfold Re.group. rewrite Hg. simpl. split; [discriminate|exact Hall].
  - intros H. inversion H. left. split; reflexivity.
Qed.

Lemma arp_loop str_of helpers_mac helpers_ip lines : forall acc table,
  foldM (arp_line str_of helpers_mac helpers_ip) acc lines = Ok table ->
  exists added,
    table = (acc ++ added)%list
    /\ length added = length (filter (fun line => is_Some (Re.match_ _RE_ARP line)) lines)
    /\ forall entry, entry ∈ added ->
         arp_interface entry <> ""
         /\ Str.all_chars (fun a => negb (Str.is_space a)) (arp_interface entry) = true.
Proof.
  induction lines as [|line lines IH]; intros acc table H; cbn [foldM] in H.
  - inversion H. exists []. rewrite app_nil_r. split; [reflexivity|].
    split; [reflexivity|]. intros entry Hin. inversion Hin.
  - apply bind_Ok in H. destruct H as (acc' & Hline & H).
    destruct (IH _ _ H) as (added & -> & Hlen & Hall).
    apply arp_line_Ok in Hline.
    destruct Hline as [[Hnone ->]|(Hsome & entry & -> & Hne & Hns)].
    + exists added. split; [reflexivity|]. split; [|exact Hall].
      rewrite filter_cons_False; [exact Hlen|]. rewrite Hnone.
      intros [x Hx]. discriminate Hx.
    + exists (entry :: added). rewrite <- app_assoc. split; [reflexivity|].
      split.
      * rewrite filter_cons_True by exact Hsome. simpl. rewrite Hlen. reflexivity.
      * intros e He. apply elem_of_cons in He. destruct He as [->|He]; [auto|].
        apply Hall, He.
Qed.

(** A table that get_arp_table returns has one entry for each line of the
    switch's text that the pattern matches, and the interface of every
    entry is a non-empty text without blanks. *)
Theorem get_arp_table_entries str_of helpers_mac helpers_ip dev text more table :
  run_commands dev (cmds ["show arp"]) EncJson = Ok (response (VStr text) :: more) ->
  get_arp_table str_of helpers_mac helpers_ip dev = Ok table ->
  length table
    = length (filter (fun line => is_Some (Re.match_ _RE_ARP line))
                     (Str.split (String Str.nl "") text))
  /\ forall entry, entry ∈ table ->
       arp_interface entry <> ""
       /\ Str.all_chars (fun a => negb (Str.is_space a)) (arp_interface entry) = true.
Proof.
  intros Hrun H. unfold get_arp_table in H. rewrite Hrun in H.
  cbn [mbind result_bind Py.index lookup list_lookup] in H.
  rewrite response_output in H. cbn [Py.text mbind result_bind] in H.
  destruct (arp_loop _ _ _ _ _ _ H) as (added & -> & Hlen & Hall).
  split; [exact Hlen|exact Hall].
Qed.

Lemma get_arp_table_entries_sample :
  exists table,
    get_arp_table Samples.str_of Samples.helpers_mac Samples.helpers_ip
                  (Samples.answering (VStr Samples.arp_text)) = Ok table
    /\ length table = 1%nat
    /\ forall entry, entry ∈ table -> arp_interface entry <> "".
Proof.
  pose (table := [ArpEntry "eth3" "AA:BB:CC:DD:EE:FF" "10.0.0.1" Float.zero]).
  assert (E : get_arp_table Samples.str_of Samples.helpers_mac Samples.helpers_ip
                (Samples.answering (VStr Samples.arp_text)) = Ok table)
    by (vm_compute; reflexivity).
  destruct (get_arp_table_entries Samples.str_of Samples.helpers_mac Samples.helpers_ip
              (Samples.answering (VStr Samples.arp_text)) Samples.arp_text [] table
              eq_refl E) as [Hlen Hall].
  exists table. split; [exact E|]. split; [reflexivity|].
  intros entry Hin. apply (Hall entry Hin).
Defined.

(** ** get_config: the sections that were not asked for *)

(** Whatever the selector and whatever the switch answers, a snapshot that
    get_config returns has an empty candidate, an empty startup section
    unless the selector is all or startup, and an empty running section
    unless it is all or running. *)
Theorem get_config_unrequested_sections str_of dev retrieve cfg :
  get_config str_of dev retrieve = Ok cfg ->
  candidate cfg = ""
  /\ (retrieve <> "all" -> retrieve <> "startup" -> startup cfg = "")
  /\ (retrieve <> "all" -> retrieve <> "running" -> running cfg = "").
Proof.
  unfold get_config. intros H.
  destruct (String.eqb retrieve "all") eqn:Ea;
  destruct (String.eqb retrieve "startup") eqn:Es;
  destruct (String.eqb retrieve "running") eqn:Er;
  cbn [orb negb andb] in H;
  apply bind_Ok in H; destruct H as (output & _ & H);
  apply bind_Ok in H; destruct H as (s & Hs & H);
  apply bind_Ok in H; destruct H as (r & Hr & H);
  inversion H; subst cfg; simpl;
  (split; [reflexivity|]);
  try apply String.eqb_eq in Ea; try apply String.eqb_eq in Es;
  try apply String.eqb_eq in Er;
  split; intros; try contradiction;
  first [inversion Hs; reflexivity | inversion Hr; reflexivity].
Qed.

Lemma get_config_unrequested_sections_sample :
  exists cfg,
    get_config Samples.str_of (Samples.answering (VStr "hostname sw1")) "running" = Ok cfg
    /\ running cfg = "hostname sw1" /\ startup cfg = "" /\ candidate cfg = "".
Proof.
  pose (cfg := Config "" "hostname sw1" "").
  assert (E : get_config Samples.str_of (Samples.answering (VStr "hostname sw1")) "running"
              = Ok cfg) by (vm_compute; reflexivity).
  destruct (get_config_unrequested_sections _ _ _ _ E) as (Hc & Hs & _).
  exists cfg. split; [exact E|]. split; [reflexivity|].
  split; [apply Hs; discriminate|exact Hc].
Defined.

(** ** get_lldp_neighbors_detail: the lists of records *)

(** [split] gives at least one piece. *)
Lemma split_go_nonempty sep s : forall skip cur, Str.split_go sep skip cur s <> [].
Proof.
  induction s as [|a s IH]; intros skip cur; simpl; [discriminate|].
  destruct skip; [|apply IH].
  match goal with |- (if ?b then _ else _) <> _ => destruct b end;
    [discriminate|apply IH].
Qed.

Lemma neighbor_tlv_parent literal_eval interface neighbor_str t :
  neighbor_tlv literal_eval interface neighbor_str = Ok t ->
  parent_interface t = interface.
Proof.
  unfold neighbor_tlv. intros H.
  repeat (apply bind_Ok in H; destruct H as (? & _ & H)).
  inversion H. reflexivity.
Qed.

(** Every port of the result has at least one record, and every record
    names the port it is filed under as its parent_interface.  So a header
    line with no text under it still gives one record. *)
Theorem get_lldp_neighbors_detail_records literal_eval dev interface res :
  get_lldp_neighbors_detail literal_eval dev interface = Ok res ->
  forall port l, res !! port = Some l ->
    l <> [] /\ forall t, t ∈ l -> parent_interface t = port.
Proof.
  unfold get_lldp_neighbors_detail. intros H.
  apply bind_Ok in H. destruct H as (r & _ & H).
  apply bind_Ok in H. destruct H as (neighbors_str & _ & H).
  pose (P := fun out : gmap string (list tlv) =>
               forall port l, out !! port = Some l ->
                 l <> [] /\ forall t, t ∈ l -> parent_interface t = port).
  refine (foldM_invariant P _ _ _ _ _ _ H).
  - intros out [iface block] out' _ Hout Hstep. unfold lldp_detail_interface in Hstep.
    cbn [fst snd] in Hstep.
    destruct (Str.split blank_line (Str.strip block)) as [|piece pieces] eqn:Es.
    { exfalso. exact (split_go_nonempty _ _ _ _ Es). }
    cbn [foldM] in Hstep. apply bind_Ok in Hstep. destruct Hstep as (out1 & H1 & Hrest).
    assert (P1 : P out1).
    { unfold lldp_detail_neighbor in H1.
      apply bind_Ok in H1. destruct H1 as (t1 & Ht1 & H1).
      rewrite lookup_insert_eq in H1. inversion H1. subst out1. clear H1.
      intros port l Hl. destruct (decide (iface = port)) as [->|Hne].
      - rewrite lookup_insert_eq in Hl. inversion Hl. subst l.
        split; [discriminate|]. intros t Ht.
        apply list_elem_of_singleton in Ht. subst t.
        exact (neighbor_tlv_parent _ _ _ _ Ht1).
      - rewrite !lookup_insert_ne in Hl by done. exact (Hout port l Hl). }
    refine (foldM_invariant P _ _ _ _ _ _ Hrest); [|exact P1].
    intros o neighbor_str' o' _ Ho Hn. unfold lldp_detail_neighbor in Hn.
    apply bind_Ok in Hn. destruct Hn as (t & Ht & Hn).
    destruct (o !! iface) as [l0|] eqn:E; [|discriminate Hn].
    inversion Hn. subst o'. clear Hn.
    intros port l Hl. destruct (decide (iface = port)) as [->|Hne].
    + rewrite lookup_insert_eq in Hl. inversion Hl. subst l.
      destruct (Ho port l0 E) as [_ Hp].
      split; [destruct l0; discriminate|]. intros t' Ht'.
      apply elem_of_app in Ht'. destruct Ht' as [Ht'|Ht']; [exact (Hp t' Ht')|].
      apply list_elem_of_singleton in Ht'. subst t'.
      exact (neighbor_tlv_parent _ _ _ _ Ht).
    + rewrite lookup_insert_ne in Hl by done. exact (Ho port l Hl).
  - intros port l Hl. rewrite lookup_empty in Hl. discriminate Hl.
Qed.

(** A header with nothing under it. *)
Lemma get_lldp_neighbors_detail_records_sample :
  exists res l,
    get_lldp_neighbors_detail Samples.literal_eval
      (Samples.answering (VStr ("* et7" ++ Samples.line_end))) "" = Ok res
    /\ res !! "et7" = Some l
    /\ l = [Tlv "et7" "" "" "" "" "" "" ""]
    /\ l <> [] /\ forall t, t ∈ l -> parent_interface t = "et7".
Proof.
  pose (l := [Tlv "et7" "" "" "" "" "" "" ""]).
  pose (res := <["et7" := l]> (∅ : gmap string (list tlv))).
  assert (E : get_lldp_neighbors_detail Samples.literal_eval
                (Samples.answering (VStr ("* et7" ++ Samples.line_end))) "" = Ok res)
    by (vm_compute; reflexivity).
  assert (E1 : res !! "et7" = Some l) by (vm_compute; reflexivity).
  exists res, l. split; [exact E|]. split; [exact E1|]. split; [reflexivity|].
  exact (get_lldp_neighbors_detail_records _ _ _ _ E "et7" l E1).
Defined.

(** ** get_optics *)

Lemma optics_reading_dict (d : gmap string pyval) k :
  optics_reading (VDict d) k = Ok (optic_of d k).
Proof.
  unfold optics_reading, optic_of, py_contains, Py.getitem.
  cbn [mbind result_bind].
  destruct (d !! k) as [v|] eqn:E.
  - rewrite bool_decide_eq_true_2 by (exists v; reflexivity). reflexivity.
  - rewrite bool_decide_eq_false_2 by (intros [v Hv]; discriminate Hv). reflexivity.
Qed.

(** get_optics returns one entry per port of the transceiver payload; for
    a port whose entry is a dict, it is a single channel of index 0 whose
    input power, output power and bias current are the fields rxPwr, txPwr
    and txBias of the entry, 0.0 for a field the entry lacks, each with an
    average, minimum and maximum of 0.0. *)
Theorem get_optics_channels dev output ports res :
  run_commands dev (cmds ["show interfaces transceiver"]) EncJson = Ok output ->
  (r ← Py.index output 0; o ← Py.getitem r "output"; Py.getitem o "interfaces")
    = Ok (VDict ports) ->
  get_optics dev = Ok res ->
  (forall port, is_Some (res !! port) <-> is_Some (ports !! port))
  /\ forall port d, ports !! port = Some (VDict d) ->
       res !! port
       = Some [Optics.Channel 0 (Optics.State (optic_of d "rxPwr")
                                              (optic_of d "txPwr")
                                              (optic_of d "txBias"))].
Proof.
  intros Hrun Hports Hget. unfold get_optics in Hget.
  rewrite Hrun in Hget. cbn [mbind result_bind] in Hget.
  apply bind_Ok in Hget. destruct Hget as (out & Hout & Hget).
  apply bind_Ok in Hget. destruct Hget as (items & Hitems & Hloop).
  rewrite Hports in Hout. inversion Hout. subst out. clear Hout.
  simpl in Hitems. inversion Hitems. subst items. clear Hitems.
  assert (Hkeys : forall port, is_Some (res !! port) <-> is_Some (ports !! port)).
  { intros port. rewrite (fill_loop_keys _ _ _ _ Hloop port), lookup_empty. split.
    - intros [H|(v & H)]; [destruct H as [x Hx]; discriminate Hx|].
      apply elem_of_map_to_list in H. eexists. exact H.
    - intros [v H]. right. exists v. apply elem_of_map_to_list. exact H. }
  split; [exact Hkeys|].
  intros port d Hd.
  destruct (proj2 (Hkeys port) ltac:(eexists; exact Hd)) as [chans Hchans].
  rewrite Hchans.
  destruct (fill_loop_lookup _ _ _ _ Hloop port chans Hchans) as [H|(v & Hin & Hf)].
  { rewrite lookup_empty in H. discriminate H. }
  apply elem_of_map_to_list in Hin. rewrite Hd in Hin. inversion Hin. subst v.
  unfold optics_port in Hf. rewrite !optics_reading_dict in Hf.
  cbn [mbind result_bind] in Hf. inversion Hf. reflexivity.
Qed.

Lemma get_optics_channels_sample :
  exists res,
    get_optics MoreSamples.optics_device = Ok res
    /\ res !! "et1"
       = Some [Optics.Channel 0
                 (Optics.State
                    (Optics.Reading MoreSamples.rx_power Float.zero Float.zero Float.zero)
                    (Optics.Reading (VFloat Float.zero) Float.zero Float.zero Float.zero)
                    (Optics.Reading (VFloat Float.zero) Float.zero Float.zero Float.zero))]
    /\ is_Some (res !! "et2") /\ res !! "vendor" = None.
Proof.
  pose (zero := Optics.Reading (VFloat Float.zero) Float.zero Float.zero Float.zero).
  pose (c1 := Optics.Channel 0
                (Optics.State
                   (Optics.Reading MoreSamples.rx_power Float.zero Float.zero Float.zero)
                   zero zero)).
  pose (c2 := Optics.Channel 0 (Optics.State zero zero zero)).
  pose (res := <["et1" := [c1]]> (<["et2" := [c2]]> (∅ : gmap string (list Optics.channel)))).
  assert (E : get_optics MoreSamples.optics_device = Ok res) by (vm_compute; reflexivity).
  destruct (get_optics_channels MoreSamples.optics_device _
              MoreSamples.transceiver_payload res eq_refl eq_refl E) as [Hkeys Hvals].
  exists res. split; [exact E|]. split.
  - rewrite (Hvals "et1" (<["rxPwr" := MoreSamples.rx_power]>
                            (<["vendor" := VStr "ACME"]> ∅)))
      by (vm_compute; reflexivity).
    vm_compute; reflexivity.
  - split.
    + apply Hkeys. exists (VDict ∅). vm_compute; reflexivity.
    + vm_compute; reflexivity.
Defined.

(** ** get_ntp_servers *)

Lemma token_of_plus w :
  denotes (Re.plus Re.S') w -> token w.
Proof.
  intros H. apply denotes_plus_cls in H. destruct H as (a & t & -> & Hall).
  split; [discriminate|exact Hall].
Qed.

(** A match of the server pattern at a position: the position begins a
    line, the text there is 'ntp server ' and a token, and group 1 is the
    token. *)
Lemma ntp_server_at_pos p p' c :
  Re.at_pos _RE_NTP_SERVERS p = Some (p', c) ->
  (Re.prev p = None \/ Re.prev p = Some Str.nl)
  /\ exists w, c !! 1%nat = Some w /\ token w
               /\ Re.rest p = ("ntp server " ++ w ++ Re.rest p')%string.
Proof.
  unfold Re.at_pos, _RE_NTP_SERVERS. intros H.
  change (Re.run Re.Bol p ∅
            (fun p0 c0 => Re.run (Re.lit "ntp server ") p0 c0
               (fun p1 c1 => Re.run (Re.plus Re.S') p1 c1
                  (fun p2 c2 => Some (p2, <[1%nat := Str.take (Re.idx p2 - Re.idx p1)
                                                        (Re.rest p1)]> c2))))
          = Some (p', c)) in H.
  assert (Hbol : (Re.prev p = None \/ Re.prev p = Some Str.nl)
                 /\ Re.run (Re.lit "ntp server ") p ∅
                      (fun p1 c1 => Re.run (Re.plus Re.S') p1 c1
                         (fun p2 c2 => Some (p2, <[1%nat := Str.take (Re.idx p2 - Re.idx p1)
                                                               (Re.rest p1)]> c2)))
                    = Some (p', c)).
  { cbn [Re.run] in H. destruct (Re.prev p) as [a|]; [|split; [left; reflexivity|exact H]].
    destruct (Ascii.eqb a Str.nl) eqn:E; [|discriminate H].
    apply Ascii.eqb_eq in E. subst a. split; [right; reflexivity|exact H]. }
  destruct Hbol as [Hb Hlit]. split; [exact Hb|]. clear H Hb.
  destruct (run_sound (Re.lit "ntp server ") [] ltac:(vm_compute; set_solver) _ _ _ _
              (captures_within_empty _) Hlit)
    as (w1 & p1 & c1 & H1 & I1 & D1 & C1 & K1).
  apply denotes_lit in D1. subst w1.
  destruct (run_sound (Re.plus Re.S') [] ltac:(vm_compute; set_solver) _ _ _ _ C1 K1)
    as (w2 & p2 & c2 & H2 & I2 & D2 & _ & K2).
  inversion K2. subst p' c. clear K2.
  exists w2. split.
  - rewrite lookup_insert_eq. rewrite I2, H2.
    replace (Re.idx p1 + String.length w2 - Re.idx p1)%nat with (String.length w2) by lia.
    rewrite take_app. reflexivity.
  - split; [apply token_of_plus; exact D2|].
    rewrite H1, H2. reflexivity.
Qed.

(** Every item of [findall] was found in the text, at the start of a line. *)
Lemma findall_go_ntp s : forall skip pr i g,
  g ∈ findall_go _RE_NTP_SERVERS skip pr i s ->
  token g
  /\ exists before after,
       s = (before ++ "ntp server " ++ g ++ after)%string
       /\ ((before = "" /\ (pr = None \/ pr = Some Str.nl)) \/
           exists b, before = (b ++ String Str.nl "")%string).
Proof.
  induction s as [|a t IH]; intros skip pr i g Hg.
  - destruct skip as [|n]; [|inversion Hg].
    cbn [findall_go] in Hg.
    destruct (Re.at_pos _RE_NTP_SERVERS (Re.Pos pr i "")) as [[p' c]|] eqn:E;
      [|inversion Hg].
    destruct (Re.idx p' - i)%nat; inversion Hg.
  - assert (Hnext : g ∈ findall_go _RE_NTP_SERVERS O (Some a) (S i) t \/
                    (exists n, g ∈ findall_go _RE_NTP_SERVERS n (Some a) (S i) t) ->
            token g
            /\ exists before after,
                 String a t = (before ++ "ntp server " ++ g ++ after)%string
                 /\ ((before = "" /\ (pr = None \/ pr = Some Str.nl)) \/
                     exists b, before = (b ++ String Str.nl "")%string)).
    { intros Hin.
      assert (exists n, g ∈ findall_go _RE_NTP_SERVERS n (Some a) (S i) t) as [n Hn].
      { destruct Hin as [H|H]; [exists O; exact H|exact H]. }
      destruct (IH _ _ _ _ Hn) as (Ht & before & after & Heq & Hb).
      split; [exact Ht|]. exists (String a before), after. split.
      - rewrite Heq. reflexivity.
      - right. destruct Hb as [[-> [Hp|Hp]]|[b ->]].
        + discriminate Hp.
        + inversion Hp. exists "". reflexivity.
        + exists (String a b). reflexivity. }
    destruct skip as [|n].
    + cbn [findall_go] in Hg.
      destruct (Re.at_pos _RE_NTP_SERVERS (Re.Pos pr i (String a t))) as [[p' c]|] eqn:E.
      * destruct (Re.idx p' - i)%nat as [|n] eqn:En.
        { apply Hnext. left. exact Hg. }
        apply elem_of_cons in Hg. destruct Hg as [->|Hg].
        { destruct (ntp_server_at_pos _ _ _ E) as (Hp & w & Hw & Ht & Hr).
          rewrite Hw. simpl. split; [exact Ht|].
          exists "", (Re.rest p'). split; [exact Hr|]. left. split; [reflexivity|exact Hp]. }
        apply Hnext. right. exists n. exact Hg.
      * apply Hnext. left. exact Hg.
    + cbn [findall_go] in Hg. apply Hnext. right. exists n. exact Hg.
Qed.

Lemma findall_ntp s g :
  g ∈ findall _RE_NTP_SERVERS s ->
  token g
  /\ exists before after,
       s = (before ++ "ntp server " ++ g ++ after)%string /\ at_line_start before.
Proof.
  unfold findall. intros H.
  destruct (findall_go_ntp _ _ _ _ _ H) as (Ht & before & after & Heq & Hb).
  split; [exact Ht|]. exists before, after. split; [exact Heq|].
  destruct Hb as [[-> _]|Hb]; [left; reflexivity|right; exact Hb].
Qed.

(** The keys and values of a dict comprehension with a constant value. *)
Lemma comprehension_lookup {V} (key : string -> string) (v : V) (l : list string) :
  forall (acc : gmap string V) k x,
    foldl (fun (acc : gmap string V) s => <[key s := v]> acc) acc l !! k = Some x ->
    acc !! k = Some x \/ (x = v /\ exists s, s ∈ l /\ k = key s).
Proof.
  induction l as [|s l IH]; intros acc k x H; simpl in H.
  - left. exact H.
  - destruct (IH _ _ _ H) as [Hacc|(-> & s' & Hin & ->)].
    + destruct (decide (key s = k)) as [<-|Hne].
      * rewrite lookup_insert_eq in Hacc. inversion Hacc. subst x.
        right. split; [reflexivity|]. exists s. split; [left|reflexivity].
      * rewrite lookup_insert_ne in Hacc by exact Hne. left. exact Hacc.
    + right. split; [reflexivity|]. exists s'. split; [right; exact Hin|reflexivity].
Qed.

(** Every server that get_ntp_servers returns is a token that the running
    configuration holds right after the words 'ntp server ' at the start of
    a line, and it comes with an empty dict. *)
Theorem get_ntp_servers_from_config str_of dev cfg servers :
  get_config str_of dev "running" = Ok cfg ->
  get_ntp_servers str_of dev = Ok servers ->
  forall server v, servers !! server = Some v ->
    v = VDict ∅
    /\ token server
    /\ exists before after,
         running cfg = (before ++ "ntp server " ++ server ++ after)%string
         /\ at_line_start before.
Proof.
  intros Hcfg Hget server v Hv. unfold get_ntp_servers in Hget.
  rewrite Hcfg in Hget. cbn [mbind result_bind] in Hget.
  inversion Hget. subst servers. clear Hget.
  apply (comprehension_lookup (fun s => text_type str_of (VStr s))) in Hv.
  destruct Hv as [Hv|(-> & s & Hin & ->)].
  { rewrite lookup_empty in Hv. discriminate Hv. }
  split; [reflexivity|]. simpl. apply findall_ntp. exact Hin.
Qed.

Lemma get_ntp_servers_from_config_sample :
  exists servers,
    get_ntp_servers Samples.str_of (Samples.answering (VStr MoreSamples.ntp_config))
      = Ok servers
    /\ servers !! "10.0.0.1" = Some (VDict ∅)
    /\ servers !! "pool.ntp.org" = Some (VDict ∅)
    /\ servers !! "indented" = None
    /\ token "pool.ntp.org".
Proof.
  pose (servers := <["10.0.0.1" := VDict ∅]>
                   (<["pool.ntp.org" := VDict ∅]> (∅ : gmap string pyval))).
  assert (E : get_ntp_servers Samples.str_of
                (Samples.answering (VStr MoreSamples.ntp_config)) = Ok servers)
    by (vm_compute; reflexivity).
  assert (E1 : servers !! "pool.ntp.org" = Some (VDict ∅)) by (vm_compute; reflexivity).
  exists servers. split; [exact E|]. split; [vm_compute; reflexivity|].
  split; [exact E1|]. split; [vm_compute; reflexivity|].
  apply (get_ntp_servers_from_config Samples.str_of
           (Samples.answering (VStr MoreSamples.ntp_config))
           (Config "" MoreSamples.ntp_config "") servers
           ltac:(vm_compute; reflexivity) E "pool.ntp.org" (VDict ∅) E1).
Defined.

(** ** The life cycle: __init__ and open *)

Section Lifecycle.

Variable connection : Type.
Variable https http :
  pyval -> pyval -> pyval -> pyval -> pyval -> pyval -> result connection.
Variable EapiNode : connection -> pyval -> result MOSDriver.node.

Lemma except_ConnectionError_other e msg :
  MOSDriver.except_ConnectionError e <> MOSDriver.Exn (ConnectionError msg).
Proof. destruct e; discriminate. Qed.

(** The constructor takes any text as transport: with a transport other
    than 'https' and 'http' the port defaults to 80, and it is open that
    fails, with a NameError for typeError, before any connection is made
    and whatever the connection classes would do. *)
Theorem open_invalid_transport_raises_NameError
    hostname username password timeout (optional_args : gmap string pyval) s :
  optional_args !! "transport" = Some (VStr s) ->
  s <> "https" -> s <> "http" ->
  exists self,
    MOSDriver.__init__ hostname username password timeout (VDict optional_args) = Ok self
    /\ MOSDriver.port self = default (VInt 80) (optional_args !! "port")
    /\ MOSDriver.open https http EapiNode self
       = (self, Some (MOSDriver.Exn (NameError "typeError"))).
Proof.
  intros Ht Hs1 Hs2. unfold MOSDriver.__init__, Py.get.
  rewrite Ht. cbn [default from_option id mbind result_bind is_text].
  apply String.eqb_neq in Hs1. apply String.eqb_neq in Hs2. rewrite Hs1.
  cbn [mbind result_bind].
  eexists. split; [reflexivity|]. split; [reflexivity|].
  unfold MOSDriver.open, MOSDriver.TRANSPORTS. cbn [MOSDriver.transport].
  rewrite Hs1, Hs2. reflexivity.
Qed.

(** A driver built without optional arguments opens over https: the
    connection is made with port 443 and the path /command-api, the node
    with an empty enable password, and when the node answers show version
    open returns with the node as the driver's device. *)
Theorem open_with_defaults hostname username password timeout c d r :
  https hostname (VInt 443) (VStr "/command-api") username password timeout = Ok c ->
  EapiNode c (VStr "") = Ok d ->
  run_commands d (cmds ["show version"]) EncJson = Ok r ->
  exists self,
    MOSDriver.__init__ hostname username password timeout VNone = Ok self
    /\ MOSDriver.device self = None
    /\ MOSDriver.open https http EapiNode self = (MOSDriver.with_device self d, None).
Proof.
  intros Hc Hd Hr.
  exists (MOSDriver.Driver None hostname username password timeout (VStr "https")
            (VInt 443) (VStr "/command-api") (VStr "")).
  split; [reflexivity|]. split; [reflexivity|].
  unfold MOSDriver.open, MOSDriver.TRANSPORTS.
  cbn [MOSDriver.transport MOSDriver.hostname MOSDriver.port MOSDriver.path
       MOSDriver.username MOSDriver.password MOSDriver.timeout MOSDriver.device
       MOSDriver.enablepwd].
  change (String.eqb "https" "https") with true. cbv iota.
  rewrite Hc. cbn [mbind result_bind]. rewrite Hd. cbn [mbind result_bind].
  rewrite Hr. reflexivity.
Qed.

(** open never lets a pyeapi ConnectionError out: whatever the connection
    classes, the node and the switch do, what open raises is no
    ConnectionError. *)
Theorem open_never_raises_ConnectionError self msg :
  snd (MOSDriver.open https http EapiNode self)
  <> Some (MOSDriver.Exn (ConnectionError msg)).
Proof.
  unfold MOSDriver.open.
  destruct (MOSDriver.TRANSPORTS https http (MOSDriver.transport self))
    as [[klass|]|e] eqn:Et.
  - destruct (klass _ _ _ _ _ _) as [c|e].
    + destruct (MOSDriver.device self) as [d|].
      * destruct (run_commands d _ _) as [r|e]; simpl; [discriminate|].
        intros H. inversion H as [H']. exact (except_ConnectionError_other _ _ H').
      * destruct (EapiNode c _) as [d|e]; simpl.
        -- destruct (run_commands d _ _) as [r|e]; simpl; [discriminate|].
           intros H. inversion H as [H']. exact (except_ConnectionError_other _ _ H').
        -- intros H. inversion H as [H']. exact (except_ConnectionError_other _ _ H').
    + simpl. intros H. inversion H as [H']. exact (except_ConnectionError_other _ _ H').
  - simpl. discriminate.
  - simpl. intros H. inversion H. subst e.
    destruct (MOSDriver.transport self) as [| | | |s| |]; simpl in Et;
      try discriminate Et.
Qed.

(** When open returns, the transport is 'https' or 'http' and the driver
    holds a device that has just answered show version; it is the device
    the driver held before, if it held one. *)
Theorem open_returns_with_live_device self :
  snd (MOSDriver.open https http EapiNode self) = None ->
  (MOSDriver.transport self = VStr "https" \/ MOSDriver.transport self = VStr "http")
  /\ exists d r,
       MOSDriver.device (fst (MOSDriver.open https http EapiNode self)) = Some d
       /\ run_commands d (cmds ["show version"]) EncJson = Ok r
       /\ forall d0, MOSDriver.device self = Some d0 -> d0 = d.
Proof.
  unfold MOSDriver.open.
  destruct (MOSDriver.TRANSPORTS https http (MOSDriver.transport self))
    as [[klass|]|e] eqn:Et; [|simpl; discriminate..].
  assert (Htr : MOSDriver.transport self = VStr "https"
                \/ MOSDriver.transport self = VStr "http").
  { destruct (MOSDriver.transport self) as [| | | |s| |]; simpl in Et;
      try discriminate Et.
    destruct (String.eqb s "https") eqn:E1.
    - apply String.eqb_eq in E1. subst s. left. reflexivity.
    - destruct (String.eqb s "http") eqn:E2; [|discriminate Et].
      apply String.eqb_eq in E2. subst s. right. reflexivity. }
  destruct (klass _ _ _ _ _ _) as [c|e]; [|simpl; discriminate].
  destruct (MOSDriver.device self) as [d|] eqn:Ed.
  - destruct (run_commands d _ _) as [r|e] eqn:Er; simpl; [|discriminate].
    intros _. split; [exact Htr|]. exists d, r.
    split; [exact Ed|]. split; [exact Er|]. intros d0 H. inversion H. reflexivity.
  - destruct (EapiNode c _) as [d|e]; simpl; [|discriminate].
    destruct (run_commands d _ _) as [r|e] eqn:Er; simpl; [|discriminate].
    intros _. split; [exact Htr|]. exists d, r.
    split; [reflexivity|]. split; [exact Er|]. intros d0 H. discriminate H.
Qed.

(** A driver that holds a device keeps it: when the device fails on show
    version, open raises and leaves the driver as it was, so that opening
    again meets the same device. *)
Theorem open_does_not_replace_device self d e :
  MOSDriver.device self = Some d ->
  run_commands d (cmds ["show version"]) EncJson = Raise e ->
  fst (MOSDriver.open https http EapiNode self) = self
  /\ snd (MOSDriver.open https http EapiNode self) <> None.
Proof.
  intros Hd He. unfold MOSDriver.open.
  destruct (MOSDriver.TRANSPORTS https http (MOSDriver.transport self))
    as [[klass|]|e'].
  - destruct (klass _ _ _ _ _ _) as [c|e'']; [|split; [reflexivity|discriminate]].
    rewrite Hd, He. split; [reflexivity|discriminate].
  - split; [reflexivity|discriminate].
  - split; [reflexivity|discriminate].
Qed.

End Lifecycle.

Lemma open_invalid_transport_raises_NameError_sample :
  exists self,
    MOSDriver.__init__ (VStr "sw1") (VStr "admin") (VStr "secret") MOSDriver.default_timeout
      (VDict (<["transport" := VStr "HTTPS"]> ∅)) = Ok self
    /\ MOSDriver.port self = VInt 80
    /\ MOSDriver.open MoreSamples.HttpsEapiConnection MoreSamples.HttpEapiConnection
         MoreSamples.EapiNode self
       = (self, Some (MOSDriver.Exn (NameError "typeError"))).
Proof.
  pose (o := (<["transport" := VStr "HTTPS"]> ∅ : gmap string pyval)).
  destruct (open_invalid_transport_raises_NameError string
              MoreSamples.HttpsEapiConnection MoreSamples.HttpEapiConnection
              MoreSamples.EapiNode (VStr "sw1") (VStr "admin") (VStr "secret")
              MOSDriver.default_timeout o "HTTPS"
              ltac:(vm_compute; reflexivity) ltac:(discriminate) ltac:(discriminate))
    as (self & Hi & Hp & Ho).
  exists self. split; [exact Hi|]. split; [exact Hp|exact Ho].
Defined.

Lemma open_with_defaults_sample :
  exists self,
    MOSDriver.__init__ (VStr "sw1") (VStr "admin") (VStr "secret") MOSDriver.default_timeout
      VNone = Ok self
    /\ MOSDriver.device self = None
    /\ MOSDriver.open MoreSamples.HttpsEapiConnection MoreSamples.HttpEapiConnection
         MoreSamples.EapiNode self
       = (MOSDriver.with_device self (Samples.answering (VStr "https")), None).
Proof.
  apply (open_with_defaults string
           MoreSamples.HttpsEapiConnection MoreSamples.HttpEapiConnection
           MoreSamples.EapiNode (VStr "sw1") (VStr "admin") (VStr "secret")
           MOSDriver.default_timeout "https" (Samples.answering (VStr "https"))
           [response (VStr "https")]); reflexivity.
Defined.

Lemma open_returns_with_live_device_sample :
  exists d r,
    MOSDriver.device
      (fst (MOSDriver.open MoreSamples.HttpsEapiConnection MoreSamples.HttpEapiConnection
              MoreSamples.EapiNode
              (MOSDriver.Driver None (VStr "sw1") (VStr "admin") (VStr "secret")
                 MOSDriver.default_timeout (VStr "http") (VInt 80)
                 (VStr "/command-api") (VStr "")))) = Some d
    /\ run_commands d (cmds ["show version"]) EncJson = Ok r.
Proof.
  destruct (open_returns_with_live_device string
              MoreSamples.HttpsEapiConnection MoreSamples.HttpEapiConnection
              MoreSamples.EapiNode
              (MOSDriver.Driver None (VStr "sw1") (VStr "admin") (VStr "secret")
                 MOSDriver.default_timeout (VStr "http") (VInt 80)
                 (VStr "/command-api") (VStr "")) eq_refl)
    as (_ & d & r & Hd & Hr & _).
  exists d, r. split; [exact Hd|exact Hr].
Defined.

Lemma open_does_not_replace_device_sample :
  fst (MOSDriver.open MoreSamples.HttpsEapiConnection MoreSamples.HttpEapiConnection
         MoreSamples.EapiNode
         (MOSDriver.Driver (Some MoreSamples.unreachable) (VStr "sw1") (VStr "admin")
            (VStr "secret") MOSDriver.default_timeout (VStr "https") (VInt 443)
            (VStr "/command-api") (VStr "")))
  = MOSDriver.Driver (Some MoreSamples.unreachable) (VStr "sw1") (VStr "admin")
      (VStr "secret") MOSDriver.default_timeout (VStr "https") (VInt 443)
      (VStr "/command-api") (VStr "").
Proof.
  exact (proj1 (open_does_not_replace_device string
           MoreSamples.HttpsEapiConnection MoreSamples.HttpEapiConnection
           MoreSamples.EapiNode
           (MOSDriver.Driver (Some MoreSamples.unreachable) (VStr "sw1") (VStr "admin")
              (VStr "secret") MOSDriver.default_timeout (VStr "https") (VInt 443)
              (VStr "/command-api") (VStr ""))
           MoreSamples.unreachable
           (ConnectionError "unable to connect to eAPI") eq_refl eq_refl)).
Defined.

(** ** get_snmp_information *)

Lemma lstrip_head s a t : Str.lstrip s = String a t -> Str.is_space a = false.
Proof.
  induction s as [|b s IH]; simpl; [discriminate|].
  destruct (Str.is_space b) eqn:E; [exact IH|].
  intros H. inversion H. subst. exact E.
Qed.

Lemma rstrip_head s a t :
  Str.rstrip s = String a t -> exists t', s = String a t'.
Proof.
  destruct s as [|b s]; simpl; [discriminate|].
  destruct (Str.rstrip s); [destruct (Str.is_space b)|];
    intros H; inversion H; eexists; reflexivity.
Qed.

Lemma rstrip_last s : forall a t,
  Str.rstrip s = (t ++ String a "")%string -> Str.is_space a = false.
Proof.
  induction s as [|b s IH]; intros a t H; simpl in H.
  - destruct t; discriminate H.
  - destruct (Str.rstrip s) as [|c r] eqn:E.
    + destruct (Str.is_space b) eqn:Eb; [destruct t; discriminate H|].
      destruct t as [|x t]; [inversion H; subst; exact Eb|].
      inversion H. destruct t; discriminate.
    + destruct t as [|x t]; [inversion H|].
      inversion H. apply (IH a t). assumption.
Qed.

Lemma strip_trimmed s : trimmed (Str.strip s).
Proof.
  unfold trimmed, Str.strip. intros a t. split.
  - intros H. apply rstrip_head in H. destruct H as [t' H].
    apply (lstrip_head _ _ _ H).
  - apply rstrip_last.
Qed.

Lemma snmp_sure_groups n : (n = 1 \/ n = 2)%nat -> n ∈ sure_groups _RE_SNMP_COMM.
Proof. intros [->| ->]; vm_compute; repeat constructor. Qed.

Lemma snmp_groups n sub :
  (n, sub) ∈ groups_of _RE_SNMP_COMM -> n <> 3%nat -> sub = Re.plus Re.S'.
Proof.
  unfold _RE_SNMP_COMM. simpl. intros H Hn.
  repeat (apply elem_of_cons in H; destruct H as [H|H];
          [inversion H; subst; first [reflexivity | contradiction Hn; reflexivity]|]).
  inversion H.
Qed.

Lemma snmp_group_token m text n g :
  Re.search _RE_SNMP_COMM text = Some m -> n <> 3%nat -> m !! n = Some g -> token g.
Proof.
  intros Hm Hn Hg.
  destruct (search_sound _ _ _ Hm _ _ Hg) as (sub & Hin & Hd).
  rewrite (snmp_groups _ _ Hin Hn) in Hd. apply token_of_plus. exact Hd.
Qed.

(** Every community that get_snmp_information returns has a token as name
    and as mode, and an acl that is a token or empty; the location and the
    contact neither begin nor end with a blank. *)
Theorem get_snmp_information_fields str_of dev info :
  get_snmp_information str_of dev = Ok info ->
  trimmed (location info) /\ trimmed (contact info)
  /\ forall name c, community info !! name = Some c ->
       token name /\ token (mode c) /\ (acl c = "" \/ token (acl c)).
Proof.
  unfold get_snmp_information. intros H.
  apply bind_Ok in H. destruct H as (snmp_config & _ & H).
  apply bind_Ok in H. destruct H as (chassis & _ & H).
  apply bind_Ok in H. destruct H as (loc & Hloc & H).
  apply bind_Ok in H. destruct H as (con & Hcon & H).
  apply bind_Ok in H. destruct H as (outputs & _ & H).
  apply bind_Ok in H. destruct H as (comm & Hloop & H).
  inversion H. subst info. clear H. cbn [location contact community].
  split; [|split].
  - inv_bind. apply strip_trimmed.
  - inv_bind. apply strip_trimmed.
  - refine (foldM_invariant
              (fun acc : gmap string community_info =>
                 forall name c, acc !! name = Some c ->
                   token name /\ token (mode c) /\ (acl c = "" \/ token (acl c)))
              _ _ _ _ _ _ Hloop).
    + intros acc text acc' _ IH Hstep name c Hc. unfold snmp_community in Hstep.
      destruct (Re.search _RE_SNMP_COMM text) as [m|] eqn:Em.
      * destruct (search_sets_groups _ _ _ 1%nat Em (snmp_sure_groups _ (or_introl eq_refl)))
          as [g1 Hg1].
        destruct (search_sets_groups _ _ _ 2%nat Em (snmp_sure_groups _ (or_intror eq_refl)))
          as [g2 Hg2].
        unfold Re.group in Hstep. rewrite Hg1, Hg2 in Hstep.
        cbn [group_value dict_key mbind result_bind default from_option id text_type]
          in Hstep.
        inversion Hstep. subst acc'. clear Hstep.
        destruct (decide (g1 = name)) as [->|Hne].
        -- rewrite lookup_insert_eq in Hc. inversion Hc. subst c. cbn [mode acl].
           split; [apply (snmp_group_token _ _ 1%nat _ Em ltac:(discriminate) Hg1)|].
           split; [apply (snmp_group_token _ _ 2%nat _ Em ltac:(discriminate) Hg2)|].
           destruct (m !! 4%nat) as [g4|] eqn:Hg4; [right|left; reflexivity].
           apply (snmp_group_token _ _ 4%nat _ Em ltac:(discriminate) Hg4).
        -- rewrite lookup_insert_ne in Hc by exact Hne. apply (IH _ _ Hc).
      * inversion Hstep. subst acc'. apply (IH _ _ Hc).
    + intros name c Hc. rewrite lookup_empty in Hc. discriminate Hc.
Qed.

Lemma get_snmp_information_fields_sample :
  exists info,
    get_snmp_information Samples.str_of MoreSamples.snmp_device = Ok info
    /\ location info = "rack 12" /\ contact info = "noc@example.com"
    /\ community info !! "public" = Some (CommunityInfo "10.0.0.0/8" "read-only")
    /\ community info !! "private" = Some (CommunityInfo "" "read-write")
    /\ trimmed (location info) /\ token "public".
Proof.
  pose (info := SnmpInfo (VStr "Chassis: C48-A6-1234") "rack 12" "noc@example.com"
                  (<["public" := CommunityInfo "10.0.0.0/8" "read-only"]>
                   (<["private" := CommunityInfo "" "read-write"]> ∅))).
  assert (E : get_snmp_information Samples.str_of MoreSamples.snmp_device = Ok info)
    by (vm_compute; reflexivity).
  assert (E1 : community info !! "public" = Some (CommunityInfo "10.0.0.0/8" "read-only"))
    by (vm_compute; reflexivity).
  destruct (get_snmp_information_fields Samples.str_of MoreSamples.snmp_device info E)
    as (Hl & _ & Hc).
  exists info. split; [exact E|]. split; [reflexivity|]. split; [reflexivity|].
  split; [exact E1|]. split; [vm_compute; reflexivity|].
  split; [exact Hl|]. exact (proj1 (Hc _ _ E1)).
Defined.

(** ** get_environment: the number a reading begins with *)

(** A text splits into its longest beginning within a class and the rest. *)
Lemma longest_prefix f s :
  exists ds rest, s = (ds ++ rest)%string
                  /\ Str.all_chars f ds = true /\ head_fails f rest.
Proof.
  induction s as [|a s (ds & rest & -> & Hds & Hrest)].
  - exists "", "". repeat split.
  - destruct (f a) eqn:E.
    + exists (String a ds), rest. split; [reflexivity|]. split; [|exact Hrest].
      simpl. rewrite E. exact Hds.
    + exists "", (String a (ds ++ rest)). split; [reflexivity|]. split; [reflexivity|].
      exact E.
Qed.

Lemma after_spec ds : forall pr i rest,
  Re.rest (after pr i ds rest) = rest
  /\ Re.idx (after pr i ds rest) = (i + String.length ds)%nat.
Proof.
  induction ds as [|a ds IH]; intros pr i rest; simpl.
  - split; [reflexivity|lia].
  - destruct (IH (Some a) (S i) rest) as [H1 H2]. split; [exact H1|]. rewrite H2. lia.
Qed.

(** Repeating a class under a continuation that accepts wherever it is
    called takes all the characters of the class that lie ahead. *)
Lemma star_loop_cls_greedy {R} (f : ascii -> bool) step
    (k : Re.pos -> gmap nat string -> option R) rest c :
  (forall p c' k', step p c' k' = Re.run (Re.Cls f) p c' k') ->
  head_fails f rest ->
  (forall p, is_Some (k p c)) ->
  forall ds fuel pr i,
    Str.all_chars f ds = true -> (String.length ds <= fuel)%nat ->
    Re.star_loop step k fuel (Re.Pos pr i (ds ++ rest)) c
    = k (after pr i ds rest) c.
Proof.
  intros Hstep Hrest Hk. induction ds as [|a ds IH]; intros fuel pr i Hall Hfuel.
  - destruct fuel as [|fuel]; [reflexivity|].
    simpl. rewrite Hstep.
    destruct rest as [|b rest]; [reflexivity|]. simpl in Hrest. simpl.
    rewrite Hrest. reflexivity.
  - simpl in Hall. apply andb_true_iff in Hall. destruct Hall as [Ha Hall].
    destruct fuel as [|fuel]; [simpl in Hfuel; lia|].
    simpl. rewrite Hstep. simpl. rewrite Ha.
    rewrite (proj2 (Nat.ltb_lt i (S i))) by lia.
    rewrite IH by (simpl in Hfuel; first [exact Hall | lia]).
    destruct (Hk (after (Some a) (S i) ds rest)) as [x Hx]. rewrite Hx. reflexivity.
Qed.

Lemma run_plus_cls_greedy {R} (f : ascii -> bool)
    (k : Re.pos -> gmap nat string -> option R) a ds rest pr i c :
  head_fails f rest ->
  (forall p, is_Some (k p c)) ->
  Str.all_chars f (String a ds) = true ->
  Re.run (Re.plus (Re.Cls f)) (Re.Pos pr i (String a ds ++ rest)) c k
  = k (after pr i (String a ds) rest) c.
Proof.
  intros Hrest Hk Hall. simpl in Hall.
  apply andb_true_iff in Hall. destruct Hall as [Ha Hall].
  unfold Re.plus. simpl. rewrite Ha.
  apply (star_loop_cls_greedy f); try assumption; [reflexivity|].
  clear. induction ds; simpl; lia.
Qed.

Lemma at_pos_number s :
  Re.at_pos RE_NUMBER (Re.start s)
  = Re.run (Re.plus (Re.Cls numeric)) (Re.Pos None 0 s) ∅
      (fun p' c' => Some (p', <[1%nat := Str.take (Re.idx p' - 0) s]> c')).
Proof. reflexivity. Qed.

Lemma match_text_number ds rest :
  Str.all_chars numeric ds = true -> head_fails numeric rest ->
  match_text RE_NUMBER (ds ++ rest)
  = match ds with
    | EmptyString => None
    | _ => Some ds
    end.
Proof.
  intros Hds Hrest. unfold match_text. rewrite at_pos_number.
  destruct ds as [|a ds].
  - change ("" ++ rest)%string with rest.
    rewrite (run_plus_cls_fails _ _ rest None 0%nat ∅ Hrest). reflexivity.
  - rewrite run_plus_cls_greedy;
      [| exact Hrest | intros p; eexists; reflexivity | exact Hds ].
    destruct (after_spec (String a ds) None 0%nat rest) as [_ Hi].
    rewrite Hi. cbn [Nat.add]. rewrite take_app. reflexivity.
Qed.

(** The number of a reading with a unit is read off the longest beginning
    of the text that is made of digits and points: the float of that
    beginning, which need not be one ('1.2.3' is refused by float), and an
    AttributeError when the text begins with no digit and no point. *)
Theorem leading_number_longest_prefix ds rest :
  Str.all_chars numeric ds = true -> head_fails numeric rest ->
  leading_number (VStr (ds ++ rest))
  = match ds with
    | EmptyString => Raise (AttributeError "group")
    | _ => float_of_text ds
    end.
Proof.
  intros Hds Hrest. unfold leading_number. cbn [re_subject mbind result_bind].
  rewrite (match_text_number ds rest Hds Hrest).
  destruct ds; reflexivity.
Qed.

Lemma leading_number_longest_prefix_sample :
  leading_number (VStr "12.5V") = float_of_text "12.5"
  /\ leading_number (VStr "N/A") = Raise (AttributeError "group")
  /\ leading_number (VStr "1.2.3V")
     = Raise (ValueError "could not convert string to float").
Proof.
  split; [|split].
  - exact (leading_number_longest_prefix "12.5" "V" eq_refl eq_refl).
  - exact (leading_number_longest_prefix "" "N/A" eq_refl eq_refl).
  - exact (leading_number_longest_prefix "1.2.3" "V" eq_refl eq_refl).
Defined.

(** ** get_environment *)

(** The parts of a result of get_environment. *)
Lemma get_environment_parts dev env :
  get_environment dev = Ok env ->
  exists out fans sensors psu_dict outputs,
    (r ← run_commands dev (cmds ["show environment all"]) EncJson;
     r0 ← Py.index r 0; Py.getitem r0 "output") = Ok out
    /\ (c ← Py.getitem out "systemCooling"; f ← Py.getitem c "fans"; Py.items f)
       = Ok fans
    /\ foldM (fill_step environment_fan) ∅ fans = Ok (Env.fans env)
    /\ (t ← Py.getitem out "systemTemperature"; s ← Py.getitem t "sensors"; Py.items s)
       = Ok sensors
    /\ foldM environment_sensor ∅ sensors = Ok (Env.temperature env)
    /\ (p ← Py.getitem out "systemPower"; Py.getitem p "powerSupplies") = Ok psu_dict
    /\ (p ← Py.getitem out "systemPower"; o ← Py.getitem p "powerOutput"; Py.items o)
       = Ok outputs
    /\ foldM (fill_step (environment_psu psu_dict)) ∅ outputs = Ok (Env.power env)
    /\ Env.cpu env = <[0 := minus_one]> ∅
    /\ Env.available_ram env = -1 /\ Env.used_ram env = -1.
Proof.
  unfold get_environment. intros H.
  apply bind_Ok in H. destruct H as (out & Hout & H).
  apply bind_Ok in H. destruct H as (fans & Hfans & H).
  apply bind_Ok in Hfans. destruct Hfans as (fitems & Hfi & Hfl).
  apply bind_Ok in H. destruct H as (temps & Htemps & H).
  apply bind_Ok in Htemps. destruct Htemps as (titems & Hti & Htl).
  apply bind_Ok in H. destruct H as (psu_dict & Hpd & H).
  apply bind_Ok in H. destruct H as (power & Hpower & H).
  apply bind_Ok in Hpower. destruct Hpower as (pitems & Hpi & Hpl).
  change (Float.of_int (-1)) with (Ok minus_one) in H.
  cbn [mbind result_bind] in H. inversion H. subst env. clear H.
  exists out, fitems, titems, psu_dict, pitems. cbn [Env.fans Env.temperature Env.power
    Env.cpu Env.available_ram Env.used_ram].
  repeat split; assumption.
Qed.

Lemma items_of_dict (m : result pyval) (d : gmap string pyval) items :
  m = Ok (VDict d) -> m ≫= Py.items = Ok items -> items = map_to_list d.
Proof. intros -> H. simpl in H. inversion H. reflexivity. Qed.

Lemma environment_sensor_Ok temps item temps' :
  environment_sensor temps item = Ok temps' ->
  exists desc s, sensor_entry (snd item) desc s /\ temps' = <[desc := s]> temps.
Proof.
  unfold environment_sensor. intros H.
  apply bind_Ok in H. destruct H as (t & Ht & H).
  apply bind_Ok in H. destruct H as (al & Hal & H).
  apply bind_Ok in Hal. destruct Hal as (t1 & Ht1 & Hal).
  apply bind_Ok in Hal. destruct Hal as (a & Ha & Hal).
  apply bind_Ok in H. destruct H as (cr & Hcr & H).
  apply bind_Ok in Hcr. destruct Hcr as (t2 & Ht2 & Hcr).
  apply bind_Ok in Hcr. destruct Hcr as (c & Hc & Hcr).
  apply bind_Ok in H. destruct H as (key & Hkey & H).
  apply bind_Ok in Hkey. destruct Hkey as (kv & Hkv & Hkey).
  destruct kv; try discriminate Hkey. simpl in Hkey. inversion Hkey. subst key.
  rewrite Ht in Ht1, Ht2. inversion Ht1. inversion Ht2. subst t1 t2.
  inversion Hal. inversion Hcr. inversion H. subst.
  eexists _, _. split; [|reflexivity].
  split; [exact Hkv|]. exists t, a, c. repeat split; assumption.
Qed.

Lemma sensors_loop items : forall acc temps,
  foldM environment_sensor acc items = Ok temps ->
  (forall desc s, temps !! desc = Some s ->
     acc !! desc = Some s \/ exists item, item ∈ items /\ sensor_entry (snd item) desc s)
  /\ (forall desc, is_Some (acc !! desc) -> is_Some (temps !! desc))
  /\ (forall item, item ∈ items ->
        exists desc, Py.getitem (snd item) "description" = Ok (VStr desc)
                     /\ is_Some (temps !! desc)).
Proof.
  induction items as [|item items IH]; intros acc temps H; cbn [foldM] in H.
  - inversion H. subst temps. split; [auto|]. split; [auto|].
    intros item Hin. inversion Hin.
  - apply bind_Ok in H. destruct H as (acc' & Hstep & H).
    apply environment_sensor_Ok in Hstep. destruct Hstep as (d0 & s0 & He & ->).
    destruct (IH _ _ H) as (H1 & H2 & H3). split; [|split].
    + intros desc s Hs. destruct (H1 _ _ Hs) as [Hacc|(it & Hin & Hit)].
      * destruct (decide (d0 = desc)) as [->|Hne].
        -- rewrite lookup_insert_eq in Hacc. inversion Hacc. subst s0.
           right. exists item. split; [left|exact He].
        -- rewrite lookup_insert_ne in Hacc by exact Hne. left. exact Hacc.
      * right. exists it. split; [right; exact Hin|exact Hit].
    + intros desc Hd. apply H2. apply lookup_insert_is_Some'. right. exact Hd.
    + intros it Hin. apply elem_of_cons in Hin. destruct Hin as [->|Hin].
      * exists d0. split; [exact (proj1 He)|]. apply H2.
        apply lookup_insert_is_Some'. left. reflexivity.
      * apply (H3 _ Hin).
Qed.

(** The temperatures of get_environment are filed under the descriptions
    of the sensors of the payload: every sensor's description is a key, and
    every entry comes from a sensor with that description, with its
    temperature as a float, is_alert when the temperature lies above the
    alert threshold and is_critical when it lies above the critical one, a
    temperature equal to a threshold raising neither. *)
Theorem get_environment_temperature dev out sensors env :
  (r ← run_commands dev (cmds ["show environment all"]) EncJson;
   r0 ← Py.index r 0; Py.getitem r0 "output") = Ok out ->
  (t ← Py.getitem out "systemTemperature"; Py.getitem t "sensors") = Ok (VDict sensors) ->
  get_environment dev = Ok env ->
  (forall desc s, Env.temperature env !! desc = Some s ->
     exists n v, sensors !! n = Some v /\ sensor_entry v desc s)
  /\ (forall n v, sensors !! n = Some v ->
        exists desc, Py.getitem v "description" = Ok (VStr desc)
                     /\ is_Some (Env.temperature env !! desc)).
Proof.
  intros Hout Hs Henv.
  destruct (get_environment_parts _ _ Henv)
    as (out' & _ & items & _ & _ & Hout' & _ & _ & Hitems & Hloop & _).
  rewrite Hout in Hout'. inversion Hout'. subst out'. clear Hout'.
  assert (items = map_to_list sensors) as ->.
  { apply bind_Ok in Hs. destruct Hs as (t & Ht & Hs).
    rewrite Ht in Hitems. cbn [mbind result_bind] in Hitems.
    rewrite Hs in Hitems. simpl in Hitems. inversion Hitems. reflexivity. }
  destruct (sensors_loop _ _ _ Hloop) as (H1 & _ & H3). split.
  - intros desc s Hd. destruct (H1 _ _ Hd) as [Hacc|([n v] & Hin & He)].
    { rewrite lookup_empty in Hacc. discriminate Hacc. }
    apply elem_of_map_to_list in Hin. exists n, v. split; [exact Hin|exact He].
  - intros n v Hv. apply (H3 (n, v)). apply elem_of_map_to_list. exact Hv.
Qed.

Lemma environment_psu_Ok psu_dict psu data p :
  environment_psu psu_dict psu data = Ok p ->
  exists supply, Py.getitem psu_dict psu = Ok supply /\ psu_entry data supply p.
Proof.
  unfold environment_psu. intros H.
  apply bind_Ok in H. destruct H as (st & Hst & H).
  apply bind_Ok in Hst. destruct Hst as (v & Hv & Hst).
  apply bind_Ok in H. destruct H as (cap & Hcap & H).
  apply bind_Ok in Hcap. destruct Hcap as (supply & Hsup & Hcap).
  apply bind_Ok in H. destruct H as (o & Ho & H).
  inversion Hst. inversion H. subst. exists supply. split; [exact Hsup|].
  exists v. cbn [Env.Psu.status Env.Psu.capacity Env.Psu.output].
  repeat split; assumption.
Qed.

(** The power entries of get_environment are those of the payload's
    powerOutput, and each one needs the supply of the same name among the
    powerSupplies: the status tells whether the number the input voltage
    begins with differs from zero, the capacity is the number the supply's
    capacity begins with, the output the number the output power begins
    with. *)
Theorem get_environment_power dev out psu_dict outputs env :
  (r ← run_commands dev (cmds ["show environment all"]) EncJson;
   r0 ← Py.index r 0; Py.getitem r0 "output") = Ok out ->
  (p ← Py.getitem out "systemPower"; Py.getitem p "powerSupplies") = Ok psu_dict ->
  (p ← Py.getitem out "systemPower"; Py.getitem p "powerOutput") = Ok (VDict outputs) ->
  get_environment dev = Ok env ->
  (forall psu, is_Some (Env.power env !! psu) <-> is_Some (outputs !! psu))
  /\ forall psu data, outputs !! psu = Some data ->
       exists p supply,
         Env.power env !! psu = Some p
         /\ Py.getitem psu_dict psu = Ok supply
         /\ psu_entry data supply p.
Proof.
  intros Hout Hpd Ho Henv.
  destruct (get_environment_parts _ _ Henv)
    as (out' & _ & _ & psu_dict' & items & Hout' & _ & _ & _ & _ & Hpd' & Hitems & Hloop & _).
  rewrite Hout in Hout'. inversion Hout'. subst out'. clear Hout'.
  rewrite Hpd in Hpd'. inversion Hpd'. subst psu_dict'. clear Hpd'.
  assert (items = map_to_list outputs) as ->.
  { apply bind_Ok in Ho. destruct Ho as (t & Ht & Ho).
    rewrite Ht in Hitems. cbn [mbind result_bind] in Hitems.
    rewrite Ho in Hitems. simpl in Hitems. inversion Hitems. reflexivity. }
  assert (Hkeys : forall psu, is_Some (Env.power env !! psu) <-> is_Some (outputs !! psu)).
  { intros psu. rewrite (fill_loop_keys _ _ _ _ Hloop psu), lookup_empty. split.
    - intros [H|(v & H)]; [destruct H as [x Hx]; discriminate Hx|].
      apply elem_of_map_to_list in H. eexists. exact H.
    - intros [v H]. right. exists v. apply elem_of_map_to_list. exact H. }
  split; [exact Hkeys|]. intros psu data Hd.
  destruct (proj2 (Hkeys psu) ltac:(eexists; exact Hd)) as [p Hp].
  destruct (fill_loop_lookup _ _ _ _ Hloop psu p Hp) as [H|(v & Hin & Hf)].
  { rewrite lookup_empty in H. discriminate H. }
  apply elem_of_map_to_list in Hin. rewrite Hd in Hin. inversion Hin. subst v.
  apply environment_psu_Ok in Hf. destruct Hf as (supply & Hsup & He).
  exists p, supply. split; [exact Hp|]. split; [exact Hsup|exact He].
Qed.

(** get_environment reports a fan for every fan of the payload, as in
    order exactly when the payload gives the fan's status as the text 'OK',
    and in place of measurements a usage of -1.0 for the one cpu 0 and -1
    for the available and the used memory. *)
Theorem get_environment_fans_cpu_memory dev out fans env :
  (r ← run_commands dev (cmds ["show environment all"]) EncJson;
   r0 ← Py.index r 0; Py.getitem r0 "output") = Ok out ->
  (c ← Py.getitem out "systemCooling"; Py.getitem c "fans") = Ok (VDict fans) ->
  get_environment dev = Ok env ->
  (forall slot, is_Some (Env.fans env !! slot) <-> is_Some (fans !! slot))
  /\ (forall slot data, fans !! slot = Some data ->
        exists st, Py.getitem data "status" = Ok st
                   /\ Env.fans env !! slot = Some (is_text "OK" st))
  /\ (forall n, Env.cpu env !! n = if decide (n = 0) then Some minus_one else None)
  /\ Env.available_ram env = -1 /\ Env.used_ram env = -1.
Proof.
  intros Hout Hf Henv.
  destruct (get_environment_parts _ _ Henv)
    as (out' & items & _ & _ & _ & Hout' & Hitems & Hloop & _ & _ & _ & _ & _ & Hcpu & Ha & Hu).
  rewrite Hout in Hout'. inversion Hout'. subst out'. clear Hout'.
  assert (items = map_to_list fans) as ->.
  { apply bind_Ok in Hf. destruct Hf as (t & Ht & Hf).
    rewrite Ht in Hitems. cbn [mbind result_bind] in Hitems.
    rewrite Hf in Hitems. simpl in Hitems. inversion Hitems. reflexivity. }
  assert (Hkeys : forall slot, is_Some (Env.fans env !! slot) <-> is_Some (fans !! slot)).
  { intros slot. rewrite (fill_loop_keys _ _ _ _ Hloop slot), lookup_empty. split.
    - intros [H|(v & H)]; [destruct H as [x Hx]; discriminate Hx|].
      apply elem_of_map_to_list in H. eexists. exact H.
    - intros [v H]. right. exists v. apply elem_of_map_to_list. exact H. }
  split; [exact Hkeys|]. split; [|split; [|split; assumption]].
  - intros slot data Hd.
    destruct (proj2 (Hkeys slot) ltac:(eexists; exact Hd)) as [b Hb].
    destruct (fill_loop_lookup _ _ _ _ Hloop slot b Hb) as [H|(v & Hin & Hv)].
    { rewrite lookup_empty in H. discriminate H. }
    apply elem_of_map_to_list in Hin. rewrite Hd in Hin. inversion Hin. subst v.
    unfold environment_fan in Hv. apply bind_Ok in Hv. destruct Hv as (st & Hst & Hv).
    inversion Hv. subst b. exists st. split; [exact Hst|exact Hb].
  - intros n. rewrite Hcpu. destruct (decide (n = 0)) as [->|Hne].
    + apply lookup_insert_eq.
    + rewrite lookup_insert_ne by congruence. apply lookup_empty.
Qed.

Lemma get_environment_temperature_sample :
  get_environment MoreSamples.environment_device = Ok MoreSamples.environment_result
  /\ (exists n v, MoreSamples.sensors_payload !! n = Some v
                  /\ sensor_entry v "Board"
                       (Env.Sensor.Make (Float.of_decimal false 415 (-1)) true false))
  /\ exists desc, is_Some (Env.temperature MoreSamples.environment_result !! desc).
Proof.
  assert (E : get_environment MoreSamples.environment_device
              = Ok MoreSamples.environment_result) by (vm_compute; reflexivity).
  destruct (get_environment_temperature MoreSamples.environment_device
              MoreSamples.environment_payload MoreSamples.sensors_payload
              MoreSamples.environment_result
              ltac:(vm_compute; reflexivity) ltac:(vm_compute; reflexivity) E)
    as [H1 H2].
  split; [exact E|]. split.
  - apply (H1 "Board"). vm_compute; reflexivity.
  - destruct (H2 "1" _ ltac:(vm_compute; reflexivity)) as (desc & _ & Hd).
    exists desc. exact Hd.
Defined.

Lemma get_environment_power_sample :
  get_environment MoreSamples.environment_device = Ok MoreSamples.environment_result
  /\ exists p supply,
       Env.power MoreSamples.environment_result !! "PSU1" = Some p
       /\ Py.getitem MoreSamples.supplies_payload "PSU1" = Ok supply
       /\ psu_entry (VDict (<["inputVoltage" := VStr "0.00V"]>
                           (<["outputPower" := VStr "12.5W"]> ∅))) supply p.
Proof.
  assert (E : get_environment MoreSamples.environment_device
              = Ok MoreSamples.environment_result) by (vm_compute; reflexivity).
  destruct (get_environment_power MoreSamples.environment_device
              MoreSamples.environment_payload MoreSamples.supplies_payload
              MoreSamples.outputs_payload MoreSamples.environment_result
              ltac:(vm_compute; reflexivity) ltac:(vm_compute; reflexivity)
              ltac:(vm_compute; reflexivity) E)
    as [_ H].
  split; [exact E|]. apply (H "PSU1"). vm_compute; reflexivity.
Defined.

Lemma get_environment_fans_cpu_memory_sample :
  get_environment MoreSamples.environment_device = Ok MoreSamples.environment_result
  /\ Env.fans MoreSamples.environment_result !! "Fan1" = Some true
  /\ Env.fans MoreSamples.environment_result !! "Fan2" = Some false
  /\ (forall slot, is_Some (Env.fans MoreSamples.environment_result !! slot)
                   <-> slot = "Fan1" \/ slot = "Fan2")
  /\ Env.cpu MoreSamples.environment_result !! 0 = Some minus_one.
Proof.
  assert (E : get_environment MoreSamples.environment_device
              = Ok MoreSamples.environment_result) by (vm_compute; reflexivity).
  pose (fans := <["Fan1" := VDict (<["status" := VStr "OK"]> ∅)]>
                (<["Fan2" := VDict (<["status" := VStr "ok"]> ∅)]>
                 (∅ : gmap string pyval))).
  destruct (get_environment_fans_cpu_memory MoreSamples.environment_device
              MoreSamples.environment_payload fans MoreSamples.environment_result
              ltac:(vm_compute; reflexivity) ltac:(vm_compute; reflexivity) E)
    as (Hk & _ & Hcpu & _).
  split; [exact E|]. split; [vm_compute; reflexivity|].
  split; [vm_compute; reflexivity|]. split; [|exact (Hcpu 0)].
  intros slot. rewrite (Hk slot). unfold fans.
  rewrite lookup_insert_is_Some, lookup_insert_is_Some, lookup_empty.
  split.
  - intros [H|[_ [H|[_ [x Hx]]]]]; [left; symmetry; exact H|right; symmetry; exact H|].
    discriminate Hx.
  - intros [->| ->]; [left; reflexivity|right]. split; [discriminate|]. left. reflexivity.
Defined.

(** ** get_facts: the names *)

Lemma rev_onto_app s : forall acc t,
  (Str.rev_onto s acc ++ t)%string = Str.rev_onto s (acc ++ t)%string.
Proof.
  induction s as [|a s IH]; intros acc t; simpl; [reflexivity|].
  rewrite IH. reflexivity.
Qed.

Lemma rev_cons a cur t :
  (Str.rev (String a cur) ++ t)%string = (Str.rev cur ++ String a t)%string.
Proof.
  unfold Str.rev. simpl. rewrite !rev_onto_app. reflexivity.
Qed.

Lemma all_chars_rev_onto f s : forall acc,
  Str.all_chars f (Str.rev_onto s acc) = Str.all_chars f s && Str.all_chars f acc.
Proof.
  induction s as [|a s IH]; intros acc; simpl; [reflexivity|].
  rewrite IH. simpl. destruct (f a), (Str.all_chars f s); reflexivity.
Qed.

Lemma prefix_space a t : String.prefix " " (String a t) = Ascii.eqb a " ".
Proof.
  change (String.prefix " " (String a t))
    with (if ascii_dec " " a then String.prefix "" t else false).
  destruct (ascii_dec " " a) as [<-|Hne].
  - rewrite Ascii.eqb_refl. destruct t; reflexivity.
  - symmetry. apply Ascii.eqb_neq. congruence.
Qed.

(** The last piece of a split at spaces. *)
Lemma split_space_last s : forall cur x,
  Str.all_chars (fun a => negb (Ascii.eqb a " ")) cur = true ->
  last (Str.split_go " " O cur s) = Some x ->
  last_word (Str.rev cur ++ s) x.
Proof.
  induction s as [|a t IH]; intros cur x Hcur Hx.
  - simpl in Hx. inversion Hx. subst x. split.
    + unfold Str.rev. rewrite all_chars_rev_onto, Hcur. reflexivity.
    + left. unfold Str.rev. rewrite rev_onto_app. reflexivity.
  - cbn [Str.split_go] in Hx. rewrite prefix_space in Hx.
    destruct (Ascii.eqb a " ") eqn:E.
    + apply Ascii.eqb_eq in E. subst a. cbn [String.length Nat.sub] in Hx.
      assert (Hl : last (Str.split_go " " 0 "" t) = Some x).
      { rewrite last_cons in Hx.
        destruct (last (Str.split_go " " 0 "" t)) as [y|] eqn:El; [exact Hx|].
        apply last_None in El. exfalso. exact (split_go_nonempty _ _ _ _ El). }
      destruct (IH "" x eq_refl Hl) as [Hns [Heq|(before & Heq)]].
      * split; [exact Hns|]. right. exists (Str.rev cur).
        change (Str.rev "" ++ t)%string with t in Heq. rewrite Heq. reflexivity.
      * split; [exact Hns|]. right. exists (Str.rev cur ++ " " ++ before)%string.
        change (Str.rev "" ++ t)%string with t in Heq. rewrite Heq.
        rewrite !append_assoc. reflexivity.
    + rewrite <- rev_cons. apply IH; [|exact Hx].
      simpl. rewrite E. exact Hcur.
Qed.

Lemma last_item_Ok (l : list string) x : Py.last_item l = Ok x -> last l = Some x.
Proof.
  unfold Py.last_item. destruct (last l); intros H; inversion H. reflexivity.
Qed.

Lemma index_Ok {A} (l : list A) i x : Py.index l i = Ok x -> l !! i = Some x.
Proof.
  unfold Py.index. destruct (l !! i); intros H; inversion H. reflexivity.
Qed.

(** The hostname and the fqdn of get_facts are the last words of the first
    and of the second line of the switch's answer to show hostname: what
    follows the last space of the line, all of the line when it holds no
    space, and nothing when the line ends with a space. *)
Theorem get_facts_names sorted_nicely dev res text f :
  run_commands dev (cmds ["show version"; "show hostname"; "show interfaces status"])
               EncJson = Ok res ->
  (r ← Py.index res 1; Py.getitem r "output") = Ok (VStr text) ->
  get_facts sorted_nicely dev = Ok f ->
  exists line0 line1,
    Str.splitlines text !! 0%nat = Some line0
    /\ Str.splitlines text !! 1%nat = Some line1
    /\ last_word line0 (hostname f)
    /\ last_word line1 (fqdn f).
Proof.
  intros Hrun Hout H. unfold get_facts in H. rewrite Hrun in H.
  cbn [mbind result_bind] in H.
  apply bind_Ok in H. destruct H as (version & _ & H).
  apply bind_Ok in H. destruct H as (h & Hh & H).
  apply bind_Ok in H. destruct H as (q & Hq & H).
  apply bind_Ok in H. destruct H as (ifs & _ & H).
  apply bind_Ok in H. destruct H as (um & _ & H).
  apply bind_Ok in H. destruct H as (up & _ & H).
  apply bind_Ok in H. destruct H as (mo & _ & H).
  apply bind_Ok in H. destruct H as (sn & _ & H).
  apply bind_Ok in H. destruct H as (os & _ & H).
  apply bind_Ok in H. destruct H as (ui & _ & H).
  inversion H. subst f. clear H. cbn [hostname fqdn].
  apply bind_Ok in Hout. destruct Hout as (r1 & Hr1 & Ho).
  rewrite Hr1 in Hh, Hq. cbn [mbind result_bind] in Hh, Hq.
  rewrite Ho in Hh, Hq. cbn [mbind result_bind Py.text] in Hh, Hq.
  apply bind_Ok in Hh. destruct Hh as (l0 & Hl0 & Hh).
  apply bind_Ok in Hq. destruct Hq as (l1 & Hl1 & Hq).
  exists l0, l1. split; [exact (index_Ok _ _ _ Hl0)|]. split; [exact (index_Ok _ _ _ Hl1)|].
  split.
  - apply (split_space_last l0 "" h eq_refl). apply last_item_Ok. exact Hh.
  - apply (split_space_last l1 "" q eq_refl). apply last_item_Ok. exact Hq.
Qed.

Lemma get_facts_names_sample :
  exists f,
    get_facts Samples.sorted_nicely (Samples.facts_device "1:02:03") = Ok f
    /\ hostname f = "sw1" /\ fqdn f = "sw1.example.com"
    /\ last_word "Hostname: sw1" (hostname f).
Proof.
  pose (f := Facts "sw1" "sw1.example.com" "Metamako" (VStr "MetaConnect 48")
               (VStr "C48-A6-1234") (VStr "0.13.4") 3603 ["et1"; "et2"]).
  assert (E : get_facts Samples.sorted_nicely (Samples.facts_device "1:02:03") = Ok f)
    by (vm_compute; reflexivity).
  destruct (get_facts_names Samples.sorted_nicely (Samples.facts_device "1:02:03") _
              ("Hostname: sw1" ++ Samples.line_end ++ "FQDN: sw1.example.com") f
              eq_refl eq_refl E)
    as (l0 & l1 & H0 & H1 & Hh & Hq).
  exists f. split; [exact E|]. split; [reflexivity|]. split; [reflexivity|].
  assert (l0 = "Hostname: sw1") as <-
    by (vm_compute in H0; inversion H0; reflexivity).
  exact Hh.
Defined.

(** get_facts needs two lines from show hostname: when the answer has
    fewer, the call raises IndexError, whatever the other answers hold. *)
Theorem get_facts_needs_two_lines sorted_nicely dev res version text :
  run_commands dev (cmds ["show version"; "show hostname"; "show interfaces status"])
               EncJson = Ok res ->
  (r ← Py.index res 0; Py.getitem r "output") = Ok version ->
  (r ← Py.index res 1; Py.getitem r "output") = Ok (VStr text) ->
  (List.length (Str.splitlines text) < 2)%nat ->
  get_facts sorted_nicely dev = Raise IndexError.
Proof.
  intros Hrun Hv Hout Hlen. unfold get_facts. rewrite Hrun.
  cbn [mbind result_bind].
  change (Py.index res 0 ≫= (fun r => Py.getitem r "output"))
    with (r ← Py.index res 0; Py.getitem r "output").
  rewrite Hv. cbn [mbind result_bind].
  apply bind_Ok in Hout. destruct Hout as (r1 & Hr1 & Ho).
  rewrite Hr1. cbn [mbind result_bind]. rewrite Ho. cbn [mbind result_bind Py.text].
  destruct (Str.splitlines text) as [|l0 [|l1 ls]]; [reflexivity| |simpl in Hlen; lia].
  cbn [Py.index lookup list_lookup mbind result_bind].
  destruct (Py.last_item (Str.split " " l0)) as [x|e] eqn:E; [reflexivity|].
  exfalso. unfold Py.last_item in E.
  destruct (last (Str.split " " l0)) eqn:El; [discriminate E|].
  apply last_None in El. exact (split_go_nonempty _ _ _ _ El).
Qed.

Lemma get_facts_needs_two_lines_sample :
  get_facts Samples.sorted_nicely MoreSamples.one_line_device = Raise IndexError.
Proof.
  apply (get_facts_needs_two_lines Samples.sorted_nicely MoreSamples.one_line_device _
           (Samples.version_payload "1:02:03") "Hostname: sw1" eq_refl eq_refl eq_refl).
  vm_compute. lia.
Defined.
